(** * Food-Ordering: the in-memory store and the REST handlers

    A shallow embedding of [server/storage.ts] (class [MemStorage]), of the
    handlers of [server/routes.ts] that work on carts, orders and payments,
    and of the row types of [shared/schema.ts], followed by the properties
    of the cart-and-order core.

    Conventions of the embedding.
    - A number is a binary64 [float], the JavaScript number type itself:
      the quantity of a cart line, a [doublePrecision] column, every
      number inside a JSON document.  An id is a [Z]: the ids of rows
      come from the counters, those of a path from [parseInt].
    - A JavaScript [Map] is a list of entries in insertion order.
    - A method of [MemStorage] that writes returns its result together
      with the store after the call; a method that only reads is a
      function of the store.  No method of [MemStorage] awaits anything
      before it returns, so each call runs to its end without another
      call interleaved.
    - [new Date()] is an argument of the method that reads the clock. *)

From Stdlib Require Import QArith.
From Stdlib Require Import ZArith List Bool String Lia.
From Stdlib Require Import Floats.
Import ListNotations.

Set Warnings "-inexact-float,-register-all".

Open Scope string_scope.
Open Scope list_scope.
Open Scope Z_scope.

(* ================================================================== *)
(** ** JavaScript numbers *)

Definition number := float.

(** The exact integer value of a number, when it has one: the test
    behind [Map.prototype.get] called with a number on integer keys. *)
Definition float_to_Z (x : number) : option Z :=
  match Prim2SF x with
  | S754_zero _ => Some 0
  | S754_finite s m e =>
      let sm := if s then Z.neg m else Z.pos m in
      if 0 <=? e then Some (sm * 2 ^ e)
      else if Z.pos m mod 2 ^ (- e) =? 0 then Some (sm / 2 ^ (- e))
      else None
  | _ => None
  end.

(** An integer below 2^53 in absolute value as a number. *)
Definition Z_to_float (z : Z) : number :=
  if z <? 0 then (- of_uint63 (Uint63.of_Z (- z)))%float
  else of_uint63 (Uint63.of_Z z).

(** [Math.round]: the closest integer, a tie going towards +infinity;
    an argument in [-0.5, 0) gives -0; NaN, the infinities and the
    integers are returned as they are. *)
Definition Math_round (x : number) : number :=
  match Prim2SF x with
  | S754_finite s m e =>
      if 0 <=? e then x
      else
        let sm := if s then Z.neg m else Z.pos m in
        let n := (2 * sm + 2 ^ (- e)) / 2 ^ (1 - e) in
        if (n =? 0) && s then neg_zero else Z_to_float n
  | _ => x
  end.

(** The exact value of a number that is neither NaN nor infinite. *)
Definition number_to_Q (x : number) : option Q :=
  match Prim2SF x with
  | S754_zero _ => Some (inject_Z 0)
  | S754_finite s m e =>
      let sm := if s then Z.neg m else Z.pos m in
      if 0 <=? e then Some (inject_Z (sm * 2 ^ e))
      else Some (Qmake sm (Z.to_pos (2 ^ (- e))))
  | _ => None
  end.

(** A mantissa with its sign. *)
Definition signed (s : bool) (n : positive) : Z := if s then Z.neg n else Z.pos n.

(** [!x] on a number: 0, -0 and NaN are falsy. *)
Definition falsy_number (x : number) : bool := is_nan x || is_zero x.

(* ================================================================== *)
(** ** JSON documents ([jsonb] columns, request bodies) *)

Inductive json : Type :=
| JNull
| JBool (b : bool)
| JNum (n : number)
| JStr (s : string)
| JArr (items : list json)
| JObj (props : list (string * json)).

(** [o.key] for an own property of a parsed object (its keys are distinct). *)
Fixpoint lookup_prop (key : string) (props : list (string * json)) : option json :=
  match props with
  | [] => None
  | (k, v) :: rest => if String.eqb k key then Some v else lookup_prop key rest
  end.

(** The outcome of code that may throw. *)
Inductive Exc (A : Type) : Type :=
| Returned (a : A)
| Thrown (error : string).
Arguments Returned {A} a.
Arguments Thrown {A} error.

(** [v.key] where [v] is a JSON value and [key] one of [menuItemId] and
    [quantity]: reading a property of [null] throws a TypeError, and a
    string, a number, a boolean or an array has no property of these
    names. *)
Definition get_prop (v : json) (key : string) : Exc (option json) :=
  match v with
  | JNull => Thrown "TypeError"
  | JObj props => Returned (lookup_prop key props)
  | _ => Returned None
  end.

(* ================================================================== *)
(** ** [Map<number, V>] in insertion order *)

Module JsMap.
Section Ops.
Context {V : Type}.

Definition t := list (Z * V).

Definition empty : t := [].

Fixpoint get (m : t) (k : Z) : option V :=
  match m with
  | [] => None
  | (k', v) :: rest => if k' =? k then Some v else get rest k
  end.

(** [set] keeps the place of a key that is present and appends a new one. *)
Fixpoint set (m : t) (k : Z) (v : V) : t :=
  match m with
  | [] => [(k, v)]
  | (k', v') :: rest =>
      if k' =? k then (k, v) :: rest else (k', v') :: set rest k v
  end.

Definition has (m : t) (k : Z) : bool :=
  match get m k with Some _ => true | None => false end.

Fixpoint remove (m : t) (k : Z) : t :=
  match m with
  | [] => []
  | (k', v) :: rest => if k' =? k then rest else (k', v) :: remove rest k
  end.

(** [Map.prototype.delete]: whether the key was present, and the map without it. *)
Definition delete (m : t) (k : Z) : bool * t := (has m k, remove m k).

Definition keys (m : t) : list Z := map fst m.

(** [Array.from(m.values())] *)
Definition values (m : t) : list V := map snd m.

End Ops.
Arguments t V : clear implicits.
End JsMap.

(* ================================================================== *)
(** ** Rows of [shared/schema.ts] *)

Definition Date := Z.

(** [type OrderStatus = 'pending' | 'processing' | 'delivering' |
    'delivered' | 'cancelled']: a type of strings, erased when the code
    runs; the [status] column is [text]. *)
Definition OrderStatus : list string :=
  ["pending"; "processing"; "delivering"; "delivered"; "cancelled"].

Module User.
Record t := mk {
  id : Z;
  username : string;
  password : string;
  name : option string;
  email : option string;
  isAdmin : option bool
}.
End User.

Module MenuItem.
Record t := mk {
  id : Z;
  name : string;
  description : string;
  price : number;
  imageUrl : option string;
  category : string;
  rating : option number;
  reviewCount : option Z;
  isPopular : option bool;
  isSeasonal : option bool;
  isCombo : option bool;
  dietaryPreferences : json;
  nutritionalInfo : json;
  availableAddons : json;
  comboItems : json;
  discountPercentage : option number;
  createdAt : option Date
}.
End MenuItem.

Module Order.
Record t := mk {
  id : Z;
  userId : Z;
  items : json;
  status : string;
  total : number;
  createdAt : option Date;
  address : option string;
  paymentId : option string
}.
End Order.

Module CartItem.
Record t := mk {
  id : Z;
  userId : Z;
  menuItemId : Z;
  quantity : number;
  selectedAddons : json;
  specialInstructions : option string
}.
End CartItem.

(** The insert types: what a parse by the insert schema yields.  A key
    that may be left out is an [option]; one that may also be [null] is
    an [option] of an [option]. *)
Module InsertUser.
Record t := mk {
  username : string;
  password : string;
  name : option (option string);
  email : option (option string);
  isAdmin : option (option bool)
}.
End InsertUser.

Module InsertMenuItem.
Record t := mk {
  name : string;
  description : string;
  price : number;
  imageUrl : option (option string);
  category : string;
  isPopular : option (option bool)
}.
End InsertMenuItem.

Module InsertOrder.
Record t := mk {
  userId : Z;
  items : json;
  total : number;
  address : option (option string);
  paymentId : option (option string)
}.
End InsertOrder.

Module InsertCartItem.
Record t := mk {
  userId : Z;
  menuItemId : Z;
  quantity : option number
}.
End InsertCartItem.

Module CartItemWithDetails.
Record t := mk {
  item : CartItem.t;
  menuItem : option MenuItem.t
}.
End CartItemWithDetails.

Module OrderLine.
Record t := mk {
  menuItem : option MenuItem.t;
  quantity : option json
}.
End OrderLine.

Module OrderWithItems.
Record t := mk {
  order : Order.t;
  items : list OrderLine.t
}.
End OrderWithItems.

(* ------------------------------------------------------------------ *)
(** *** The [||] defaults of the storage layer *)

(** [s || null] on an optional, nullable string: the empty string is falsy. *)
Definition string_or_null (s : option (option string)) : option string :=
  match s with
  | Some (Some str) => if String.eqb str "" then None else Some str
  | _ => None
  end.

(** [b || false] *)
Definition bool_or_false (b : option (option bool)) : bool :=
  match b with
  | Some (Some true) => true
  | _ => false
  end.

(** The truth value of a nullable boolean: [null] and [false] are falsy. *)
Definition truthy (b : option bool) : bool :=
  match b with
  | Some true => true
  | _ => false
  end.

(** [quantity || 1]: a quantity left out, or 0, -0 or NaN, counts as 1. *)
Definition quantity_or_1 (q : option number) : number :=
  match q with
  | Some n => if falsy_number n then 1%float else n
  | None => 1%float
  end.

(** [{...row, ...patch}] for one optional key of the patch. *)
Definition spread {A : Type} (old : A) (patch : option A) : A :=
  match patch with
  | Some a => a
  | None => old
  end.

(* ================================================================== *)
(** ** [class MemStorage] *)

Record MemStorage := mkStorage {
  users : JsMap.t User.t;
  menuItems : JsMap.t MenuItem.t;
  cartItems : JsMap.t CartItem.t;
  orders : JsMap.t Order.t;
  userIdCounter : Z;
  menuItemIdCounter : Z;
  cartItemIdCounter : Z;
  orderIdCounter : Z
}.

Definition with_users (this : MemStorage) (m : JsMap.t User.t) (c : Z) : MemStorage :=
  mkStorage m (menuItems this) (cartItems this) (orders this)
            c (menuItemIdCounter this) (cartItemIdCounter this) (orderIdCounter this).

Definition with_menuItems (this : MemStorage) (m : JsMap.t MenuItem.t) (c : Z) : MemStorage :=
  mkStorage (users this) m (cartItems this) (orders this)
            (userIdCounter this) c (cartItemIdCounter this) (orderIdCounter this).

Definition with_cartItems (this : MemStorage) (m : JsMap.t CartItem.t) (c : Z) : MemStorage :=
  mkStorage (users this) (menuItems this) m (orders this)
            (userIdCounter this) (menuItemIdCounter this) c (orderIdCounter this).

Definition with_orders (this : MemStorage) (m : JsMap.t Order.t) (c : Z) : MemStorage :=
  mkStorage (users this) (menuItems this) (cartItems this) m
            (userIdCounter this) (menuItemIdCounter this) (cartItemIdCounter this) c.

(** The first eight assignments of the constructor. *)
Definition empty_storage : MemStorage :=
  mkStorage JsMap.empty JsMap.empty JsMap.empty JsMap.empty 1 1 1 1.

(* ------------------------------------------------------------------ *)
(** *** User methods *)

Definition getUser (this : MemStorage) (id : Z) : option User.t :=
  JsMap.get (users this) id.

Definition createUser (this : MemStorage) (insertUser : InsertUser.t)
  : User.t * MemStorage :=
  let id := userIdCounter this in
  let user :=
    User.mk id
            (InsertUser.username insertUser)
            (InsertUser.password insertUser)
            (string_or_null (InsertUser.name insertUser))
            (string_or_null (InsertUser.email insertUser))
            (Some (bool_or_false (InsertUser.isAdmin insertUser))) in
  (user, with_users this (JsMap.set (users this) id user) (id + 1)).

(* ------------------------------------------------------------------ *)
(** *** Menu item methods *)

Definition getAllMenuItems (this : MemStorage) : list MenuItem.t :=
  JsMap.values (menuItems this).

Definition getMenuItemById (this : MemStorage) (id : Z) : option MenuItem.t :=
  JsMap.get (menuItems this) id.

Definition createMenuItem (this : MemStorage) (now : Date)
    (insertMenuItem : InsertMenuItem.t) : MenuItem.t * MemStorage :=
  let id := menuItemIdCounter this in
  let menuItem :=
    MenuItem.mk id
                (InsertMenuItem.name insertMenuItem)
                (InsertMenuItem.description insertMenuItem)
                (InsertMenuItem.price insertMenuItem)
                (string_or_null (InsertMenuItem.imageUrl insertMenuItem))
                (InsertMenuItem.category insertMenuItem)
                (Some 0%float)
                (Some 0)
                (Some (bool_or_false (InsertMenuItem.isPopular insertMenuItem)))
                (Some false)
                (Some false)
                JNull JNull JNull JNull
                (Some 0%float)
                (Some now) in
  (menuItem, with_menuItems this (JsMap.set (menuItems this) id menuItem) (id + 1)).

Definition updateMenuItem (this : MemStorage) (id : Z)
    (insertMenuItem : InsertMenuItem.t) : option MenuItem.t * MemStorage :=
  match JsMap.get (menuItems this) id with
  | None => (None, this)
  | Some existingMenuItem =>
      let updatedMenuItem :=
        MenuItem.mk (MenuItem.id existingMenuItem)
                    (InsertMenuItem.name insertMenuItem)
                    (InsertMenuItem.description insertMenuItem)
                    (InsertMenuItem.price insertMenuItem)
                    (spread (MenuItem.imageUrl existingMenuItem)
                            (InsertMenuItem.imageUrl insertMenuItem))
                    (InsertMenuItem.category insertMenuItem)
                    (MenuItem.rating existingMenuItem)
                    (MenuItem.reviewCount existingMenuItem)
                    (spread (MenuItem.isPopular existingMenuItem)
                            (InsertMenuItem.isPopular insertMenuItem))
                    (MenuItem.isSeasonal existingMenuItem)
                    (MenuItem.isCombo existingMenuItem)
                    (MenuItem.dietaryPreferences existingMenuItem)
                    (MenuItem.nutritionalInfo existingMenuItem)
                    (MenuItem.availableAddons existingMenuItem)
                    (MenuItem.comboItems existingMenuItem)
                    (MenuItem.discountPercentage existingMenuItem)
                    (MenuItem.createdAt existingMenuItem) in
      (Some updatedMenuItem,
       with_menuItems this (JsMap.set (menuItems this) id updatedMenuItem)
                      (menuItemIdCounter this))
  end.

Definition deleteMenuItem (this : MemStorage) (id : Z) : bool * MemStorage :=
  let (found, m) := JsMap.delete (menuItems this) id in
  (found, with_menuItems this m (menuItemIdCounter this)).

(* ------------------------------------------------------------------ *)
(** *** Cart methods *)

Definition getCartItems (this : MemStorage) (userId : Z) : list CartItem.t :=
  filter (fun item => CartItem.userId item =? userId)
         (JsMap.values (cartItems this)).

Definition getCartItemsWithDetails (this : MemStorage) (userId : Z)
  : list CartItemWithDetails.t :=
  let items := getCartItems this userId in
  map (fun item =>
         let menuItem := getMenuItemById this (CartItem.menuItemId item) in
         CartItemWithDetails.mk item menuItem)
      items.

(** [{...cartItem, quantity}] *)
Definition with_quantity (cartItem : CartItem.t) (quantity : number) : CartItem.t :=
  CartItem.mk (CartItem.id cartItem)
              (CartItem.userId cartItem)
              (CartItem.menuItemId cartItem)
              quantity
              (CartItem.selectedAddons cartItem)
              (CartItem.specialInstructions cartItem).

Definition updateCartItemQuantity (this : MemStorage) (id userId : Z)
    (quantity : number) : option CartItem.t * MemStorage :=
  match JsMap.get (cartItems this) id with
  | None => (None, this)
  | Some cartItem =>
      if negb (CartItem.userId cartItem =? userId) then (None, this)
      else
        let updatedCartItem := with_quantity cartItem quantity in
        (Some updatedCartItem,
         with_cartItems this (JsMap.set (cartItems this) id updatedCartItem)
                        (cartItemIdCounter this))
  end.

Definition addToCart (this : MemStorage) (insertCartItem : InsertCartItem.t)
  : option CartItem.t * MemStorage :=
  let existingCartItem :=
    find (fun item =>
            (CartItem.userId item =? InsertCartItem.userId insertCartItem)
            && (CartItem.menuItemId item =? InsertCartItem.menuItemId insertCartItem))
         (JsMap.values (cartItems this)) in
  match existingCartItem with
  | Some existingCartItem =>
      updateCartItemQuantity this
        (CartItem.id existingCartItem)
        (InsertCartItem.userId insertCartItem)
        (CartItem.quantity existingCartItem
         + quantity_or_1 (InsertCartItem.quantity insertCartItem))%float
  | None =>
      let id := cartItemIdCounter this in
      let cartItem :=
        CartItem.mk id
                    (InsertCartItem.userId insertCartItem)
                    (InsertCartItem.menuItemId insertCartItem)
                    (quantity_or_1 (InsertCartItem.quantity insertCartItem))
                    JNull
                    None in
      (Some cartItem,
       with_cartItems this (JsMap.set (cartItems this) id cartItem) (id + 1))
  end.

Definition removeFromCart (this : MemStorage) (id userId : Z) : bool * MemStorage :=
  match JsMap.get (cartItems this) id with
  | None => (false, this)
  | Some cartItem =>
      if negb (CartItem.userId cartItem =? userId) then (false, this)
      else
        let (found, m) := JsMap.delete (cartItems this) id in
        (found, with_cartItems this m (cartItemIdCounter this))
  end.

Definition clearCart (this : MemStorage) (userId : Z) : bool * MemStorage :=
  let items := getCartItems this userId in
  (true,
   fold_left
     (fun (st : MemStorage) (item : CartItem.t) =>
        with_cartItems st (snd (JsMap.delete (cartItems st) (CartItem.id item)))
                       (cartItemIdCounter st))
     items this).

(* ------------------------------------------------------------------ *)
(** *** Order methods *)

Definition createOrder (this : MemStorage) (now : Date) (insertOrder : InsertOrder.t)
  : Order.t * MemStorage :=
  let id := orderIdCounter this in
  let order :=
    Order.mk id
             (InsertOrder.userId insertOrder)
             (InsertOrder.items insertOrder)
             "pending"
             (InsertOrder.total insertOrder)
             (Some now)
             (string_or_null (InsertOrder.address insertOrder))
             (string_or_null (InsertOrder.paymentId insertOrder)) in
  (order, with_orders this (JsMap.set (orders this) id order) (id + 1)).

Definition getOrderById (this : MemStorage) (id : Z) : option Order.t :=
  JsMap.get (orders this) id.

Definition getAllOrders (this : MemStorage) : list Order.t :=
  JsMap.values (orders this).

(** [this.menuItems.get(v)] for a value read out of a JSON document:
    only a number equal to a key finds an entry. *)
Definition getMenuItemById_json (this : MemStorage) (v : option json) : option MenuItem.t :=
  match v with
  | Some (JNum n) =>
      match float_to_Z n with
      | Some id => getMenuItemById this id
      | None => None
      end
  | _ => None
  end.

(** [Promise.all(l.map(f))]: the list of results, or the rejection of a
    call that threw. *)
Fixpoint Promise_all {A B : Type} (f : A -> Exc B) (l : list A) : Exc (list B) :=
  match l with
  | [] => Returned []
  | a :: rest =>
      match f a, Promise_all f rest with
      | Returned b, Returned bs => Returned (b :: bs)
      | Thrown e, _ => Thrown e
      | _, Thrown e => Thrown e
      end
  end.

(** The inner callback of [getOrdersByUserId]. *)
Definition orderLine (this : MemStorage) (item : json) : Exc OrderLine.t :=
  match get_prop item "menuItemId" with
  | Thrown e => Thrown e
  | Returned menuItemId =>
      let menuItem := getMenuItemById_json this menuItemId in
      match get_prop item "quantity" with
      | Thrown e => Thrown e
      | Returned quantity => Returned (OrderLine.mk menuItem quantity)
      end
  end.

(** [(order.items as any[]).map(...)]: the cast checks nothing, and a
    value that is no array has no callable [map]. *)
Definition itemsWithDetails (this : MemStorage) (items : json) : Exc (list OrderLine.t) :=
  match items with
  | JArr l => Promise_all (orderLine this) l
  | _ => Thrown "TypeError"
  end.

Definition getOrdersByUserId (this : MemStorage) (userId : Z)
  : Exc (list OrderWithItems.t) :=
  let userOrders :=
    filter (fun order => Order.userId order =? userId)
           (JsMap.values (orders this)) in
  Promise_all
    (fun order =>
       match itemsWithDetails this (Order.items order) with
       | Thrown e => Thrown e
       | Returned lines => Returned (OrderWithItems.mk order lines)
       end)
    userOrders.

(** [{...order, status}] *)
Definition with_status (order : Order.t) (status : string) : Order.t :=
  Order.mk (Order.id order)
           (Order.userId order)
           (Order.items order)
           status
           (Order.total order)
           (Order.createdAt order)
           (Order.address order)
           (Order.paymentId order).

Definition updateOrderStatus (this : MemStorage) (id : Z) (status : string)
  : option Order.t * MemStorage :=
  match JsMap.get (orders this) id with
  | None => (None, this)
  | Some order =>
      let updatedOrder := with_status order status in
      (Some updatedOrder,
       with_orders this (JsMap.set (orders this) id updatedOrder)
                   (orderIdCounter this))
  end.

(* ------------------------------------------------------------------ *)
(** *** The constructor and its seed data *)

Definition adminUser : InsertUser.t :=
  InsertUser.mk "admin" "admin_password"
                (Some (Some "Admin User"))
                (Some (Some "admin@quickbite.com"))
                (Some (Some true)).

Definition menuItemsData : list InsertMenuItem.t :=
  [ InsertMenuItem.mk "Pepperoni Pizza"
      "Classic pepperoni pizza with mozzarella and our special sauce"
      12.99%float
      (Some (Some "https://images.unsplash.com/photo-1513104890138-7c749659a591?ixlib=rb-1.2.1&auto=format&fit=crop&w=500&q=80"))
      "Pizza" (Some (Some true));
    InsertMenuItem.mk "Deluxe Burger"
      "Juicy beef patty with cheese, lettuce, tomato and special sauce"
      10.99%float
      (Some (Some "https://images.unsplash.com/photo-1568901346375-23c9450c58cd?ixlib=rb-1.2.1&auto=format&fit=crop&w=500&q=80"))
      "Burgers" (Some (Some true));
    InsertMenuItem.mk "Salmon Sushi Roll"
      "Fresh salmon, avocado, cucumber wrapped in seaweed and rice"
      14.99%float
      (Some (Some "https://images.unsplash.com/photo-1579871494447-9811cf80d66c?ixlib=rb-1.2.1&auto=format&fit=crop&w=500&q=80"))
      "Sushi" (Some (Some true));
    InsertMenuItem.mk "Pasta Carbonara"
      "Creamy pasta with bacon, egg, parmesan cheese and black pepper"
      13.99%float
      (Some (Some "https://images.unsplash.com/photo-1473093295043-cdd812d0e601?ixlib=rb-1.2.1&auto=format&fit=crop&w=500&q=80"))
      "Pasta" (Some (Some true));
    InsertMenuItem.mk "Margherita Pizza"
      "Classic pizza with tomato sauce, mozzarella cheese, and fresh basil"
      11.99%float
      (Some (Some "https://images.unsplash.com/photo-1565299624946-b28f40a0ae38?ixlib=rb-1.2.1&auto=format&fit=crop&w=500&q=80"))
      "Pizza" (Some (Some false));
    InsertMenuItem.mk "Chicken Salad"
      "Fresh vegetables with grilled chicken, avocado and vinaigrette"
      9.99%float
      (Some (Some "https://encrypted-tbn1.gstatic.com/shopping?q=tbn:ANd9GcRvRGyIDdiPeQlWwTGJam3ZFtshlf_BxAXuMD8Oz_XXNjFl82_AZoFHLwLBrxWX7eatbznQKgDwKeWgX8P1TKfthIV8Jfeun4ov_sRigP9Jfno57fIIgWVa"))
      "Salads" (Some (Some false));
    InsertMenuItem.mk "Spicy Wings"
      "Crispy chicken wings tossed in our special hot sauce"
      8.99%float
      (Some (Some "https://images.unsplash.com/photo-1563729784474-d77dbb933a9e?ixlib=rb-1.2.1&auto=format&fit=crop&w=500&q=80"))
      "Chicken" (Some (Some false));
    InsertMenuItem.mk "Chocolate Cake"
      "Rich chocolate cake with ganache frosting and berries"
      6.99%float
      (Some (Some "https://images.unsplash.com/photo-1529042410759-befb1204b468?ixlib=rb-1.2.1&auto=format&fit=crop&w=500&q=80"))
      "Desserts" (Some (Some false)) ].

(** [for (const item of data) await this.createMenuItem(item)], the
    [k]-th call reading the clock at [clock k]. *)
Fixpoint seedMenuItems (clock : nat -> Date) (k : nat)
    (data : list InsertMenuItem.t) (this : MemStorage) : MemStorage :=
  match data with
  | [] => this
  | item :: rest =>
      seedMenuItems clock (S k) rest (snd (createMenuItem this (clock k) item))
  end.

Module Update.
Record t := mk {
  id : Z;
  dietaryPreferences : option json;
  nutritionalInfo : option json
}.
End Update.

Definition nutrition (calories protein carbs fat : float) (allergens : list string) : json :=
  JObj [ ("calories", JNum calories); ("protein", JNum protein);
         ("carbs", JNum carbs); ("fat", JNum fat);
         ("allergens", JArr (map JStr allergens)) ].

Definition updates : list Update.t :=
  [ Update.mk 1 (Some (JArr [JStr "vegetarian"]))
      (Some (nutrition 850 35 80 40 ["dairy"; "gluten"]%string));
    Update.mk 2 None
      (Some (nutrition 650 45 50 35 ["gluten"]%string));
    Update.mk 3 (Some (JArr [JStr "gluten-free"]))
      (Some (nutrition 320 25 45 12 ["fish"]%string));
    Update.mk 4 None
      (Some (nutrition 720 28 65 38 ["dairy"; "gluten"; "eggs"]%string));
    Update.mk 5 (Some (JArr [JStr "vegetarian"]))
      (Some (nutrition 780 32 75 35 ["dairy"; "gluten"]%string));
    Update.mk 6 (Some (JArr [JStr "gluten-free"]))
      (Some (nutrition 420 35 25 22 []));
    Update.mk 7 None
      (Some (nutrition 580 42 15 38 []));
    Update.mk 8 (Some (JArr [JStr "vegetarian"]))
      (Some (nutrition 450 6 55 25 ["dairy"; "gluten"; "eggs"]%string)) ].

(** [v || null] on an array or object literal, which is truthy. *)
Definition json_or_null (v : option json) : json :=
  match v with
  | Some j => j
  | None => JNull
  end.

(** The items are looked up in the array taken when the method starts. *)
Definition updateMenuItemsWithEnhancedFeatures (this : MemStorage) : MemStorage :=
  let snapshot := JsMap.values (menuItems this) in
  fold_left
    (fun (st : MemStorage) (update : Update.t) =>
       match find (fun m => MenuItem.id m =? Update.id update) snapshot with
       | Some item =>
           let updatedItem :=
             MenuItem.mk (MenuItem.id item) (MenuItem.name item)
                         (MenuItem.description item) (MenuItem.price item)
                         (MenuItem.imageUrl item) (MenuItem.category item)
                         (MenuItem.rating item) (MenuItem.reviewCount item)
                         (MenuItem.isPopular item) (MenuItem.isSeasonal item)
                         (MenuItem.isCombo item)
                         (json_or_null (Update.dietaryPreferences update))
                         (json_or_null (Update.nutritionalInfo update))
                         (MenuItem.availableAddons item) (MenuItem.comboItems item)
                         (MenuItem.discountPercentage item) (MenuItem.createdAt item) in
           with_menuItems st (JsMap.set (menuItems st) (MenuItem.id item) updatedItem)
                          (menuItemIdCounter st)
       | None => st
       end)
    updates this.

(** [new MemStorage()], once the start-up has settled.  [createUser] has
    no [await] and runs at once.  [seedMenuItems] is called without
    [await]: it runs up to its first [await], that is through its first
    [createMenuItem], and goes on only after the constructor has
    returned; [updateMenuItemsWithEnhancedFeatures] runs in between. *)
Definition new_MemStorage (clock : nat -> Date) : MemStorage :=
  let s1 := snd (createUser empty_storage adminUser) in
  let s2 := seedMenuItems clock 0 (firstn 1 menuItemsData) s1 in
  let s3 := updateMenuItemsWithEnhancedFeatures s2 in
  seedMenuItems clock 1 (skipn 1 menuItemsData) s3.

(* ================================================================== *)
(** ** The handlers of [server/routes.ts] *)

(** What the session middleware leaves on a request. *)
Module Session.
Record t := mk {
  isAuthenticated : bool;
  user : option User.t
}.
End Session.

(** A key of a request body as the handler finds it: left out, of a
    type the schema refuses, or a value of the column's type. *)
Inductive field (A : Type) : Type :=
| Missing
| Malformed
| Given (a : A).
Arguments Missing {A}.
Arguments Malformed {A}.
Arguments Given {A} a.

Inductive Payload : Type :=
| Message (message : string)
| InvalidData
| NoContent
| CartItemJson (cartItem : option CartItem.t)
| CartJson (cartItems : list CartItemWithDetails.t)
| OrderJson (order : Order.t)
| OrdersJson (orders : list OrderWithItems.t)
| AllOrdersJson (orders : list Order.t)
| ClientSecret (clientSecret : option string).

Module Response.
Record t := mk {
  status : Z;
  payload : Payload
}.
End Response.

(** [res.json(x)] answers 200 unless a status was set before. *)
Definition json_200 (p : Payload) : Response.t := Response.mk 200 p.

Definition ensureUser (req : Session.t) : option User.t :=
  if Session.isAuthenticated req then Session.user req else None.

(** The [isAuthenticated] middleware followed by the handler's own
    [ensureUser] guard. *)
Definition authenticated {A : Type} (req : Session.t) (this : A)
    (next : User.t -> Response.t * A) : Response.t * A :=
  if Session.isAuthenticated req then
    match ensureUser req with
    | Some user => next user
    | None => (Response.mk 401 (Message "Unauthorized"), this)
    end
  else (Response.mk 401 (Message "Unauthorized"), this).

(** [ensureUser(req) && req.user.isAdmin] *)
Definition admin_session (req : Session.t) : bool :=
  match ensureUser req with
  | Some user => truthy (User.isAdmin user)
  | None => false
  end.

(** The [isAdmin] middleware. *)
Definition isAdmin {A : Type} (req : Session.t) (this : A)
    (next : Response.t * A) : Response.t * A :=
  if admin_session req then next
  else (Response.mk 403 (Message "Forbidden: Admin access required"), this).

(* ------------------------------------------------------------------ *)
(** *** The insert schemas *)

Definition required {A : Type} (f : field A) : option A :=
  match f with
  | Given a => Some a
  | _ => None
  end.

Definition optional {A : Type} (f : field A) : option (option A) :=
  match f with
  | Missing => Some None
  | Given a => Some (Some a)
  | Malformed => None
  end.

(** The body of [POST /api/cart]. *)
Module CartBody.
Record t := mk {
  userId : field Z;
  menuItemId : field Z;
  quantity : field number
}.
End CartBody.

(** [insertCartItemSchema.parse({...req.body, userId})]: [None] is a
    ZodError.  The columns are [integer], [quantity] has a default and
    may be left out; the schema puts no bound on a number. *)
Definition insertCartItemSchema_parse (body : CartBody.t) (userId : Z)
  : option InsertCartItem.t :=
  match required (CartBody.menuItemId body), optional (CartBody.quantity body) with
  | Some menuItemId, Some quantity =>
      Some (InsertCartItem.mk userId menuItemId quantity)
  | _, _ => None
  end.

(** The body of [POST /api/orders]; [status] stands for a key that the
    schema does not pick. *)
Module OrderBody.
Record t := mk {
  userId : field Z;
  items : field json;
  total : field number;
  address : field (option string);
  paymentId : field (option string);
  status : option json
}.
End OrderBody.

(** [insertOrderSchema.parse({...req.body, userId})]: the keys picked
    are userId, items, total, address and paymentId; any other key of
    the body is dropped. *)
Definition insertOrderSchema_parse (body : OrderBody.t) (userId : Z)
  : option InsertOrder.t :=
  match required (OrderBody.items body), required (OrderBody.total body),
        optional (OrderBody.address body), optional (OrderBody.paymentId body) with
  | Some items, Some total, Some address, Some paymentId =>
      Some (InsertOrder.mk userId items total address paymentId)
  | _, _, _, _ => None
  end.

(* ------------------------------------------------------------------ *)
(** *** Cart routes

    A path parameter is given as the value of [parseInt] on it, [None]
    being NaN: NaN is the key of no entry and differs from every id. *)

Definition get_cart (req : Session.t) (this : MemStorage) : Response.t * MemStorage :=
  authenticated req this (fun user =>
    (json_200 (CartJson (getCartItemsWithDetails this (User.id user))), this)).

Definition post_cart (req : Session.t) (body : CartBody.t) (this : MemStorage)
  : Response.t * MemStorage :=
  authenticated req this (fun user =>
    match insertCartItemSchema_parse body (User.id user) with
    | None => (Response.mk 400 InvalidData, this)
    | Some validatedData =>
        let (cartItem, this') := addToCart this validatedData in
        (Response.mk 201 (CartItemJson cartItem), this')
    end).

Definition delete_cart (req : Session.t) (id : option Z) (this : MemStorage)
  : Response.t * MemStorage :=
  authenticated req this (fun user =>
    let (success, this') :=
      match id with
      | Some id => removeFromCart this id (User.id user)
      | None => (false, this)
      end in
    if negb success then (Response.mk 404 (Message "Cart item not found"), this')
    else (Response.mk 204 NoContent, this')).

(** [Given] is a [quantity] whose [typeof] is ['number']. *)
Definition put_cart (req : Session.t) (id : option Z) (quantity : field number)
    (this : MemStorage) : Response.t * MemStorage :=
  authenticated req this (fun user =>
    match quantity with
    | Given quantity =>
        if (quantity <? 1)%float then
          (Response.mk 400 (Message "Quantity must be a positive number"), this)
        else
          let (cartItem, this') :=
            match id with
            | Some id => updateCartItemQuantity this id (User.id user) quantity
            | None => (None, this)
            end in
          match cartItem with
          | None => (Response.mk 404 (Message "Cart item not found"), this')
          | Some cartItem => (json_200 (CartItemJson (Some cartItem)), this')
          end
    | _ => (Response.mk 400 (Message "Quantity must be a positive number"), this)
    end).

(* ------------------------------------------------------------------ *)
(** *** Order routes *)

Definition post_orders (req : Session.t) (now : Date) (body : OrderBody.t)
    (this : MemStorage) : Response.t * MemStorage :=
  authenticated req this (fun user =>
    match insertOrderSchema_parse body (User.id user) with
    | None => (Response.mk 400 InvalidData, this)
    | Some validatedData =>
        let (order, this1) := createOrder this now validatedData in
        let (_, this2) := clearCart this1 (User.id user) in
        (Response.mk 201 (OrderJson order), this2)
    end).

Definition get_orders_of (req : Session.t) (userId : option Z) (this : MemStorage)
  : Response.t * MemStorage :=
  authenticated req this (fun user =>
    let differs :=
      match userId with
      | Some userId => negb (userId =? User.id user)
      | None => true
      end in
    if differs && negb (truthy (User.isAdmin user)) then
      (Response.mk 403 (Message "Forbidden"), this)
    else
      let orders :=
        match userId with
        | Some userId => getOrdersByUserId this userId
        | None => Returned []
        end in
      match orders with
      | Returned orders => (json_200 (OrdersJson orders), this)
      | Thrown _ => (Response.mk 500 (Message "Error fetching orders"), this)
      end).

Definition get_orders (req : Session.t) (this : MemStorage) : Response.t * MemStorage :=
  isAdmin req this (json_200 (AllOrdersJson (getAllOrders this)), this).

(** [!status]: of the strings only the empty one is falsy. *)
Definition includes_status (status : option json) : option string :=
  match status with
  | Some (JStr s) =>
      if String.eqb s "" then None
      else if existsb (String.eqb s) OrderStatus then Some s else None
  | _ => None
  end.

Definition patch_order (req : Session.t) (id : option Z) (status : option json)
    (this : MemStorage) : Response.t * MemStorage :=
  isAdmin req this
    (match includes_status status with
     | None => (Response.mk 400 (Message "Invalid order status"), this)
     | Some status =>
         let (order, this') :=
           match id with
           | Some id => updateOrderStatus this id status
           | None => (None, this)
           end in
         match order with
         | None => (Response.mk 404 (Message "Order not found"), this')
         | Some order => (json_200 (OrderJson order), this')
         end
     end).

(* ------------------------------------------------------------------ *)
(** *** Payment route *)

Module PaymentIntentParams.
Record t := mk {
  amount : number;
  currency : string;
  metadata_userId : Z
}.
End PaymentIntentParams.

Module PaymentIntent.
Record t := mk {
  id : string;
  client_secret : option string
}.
End PaymentIntent.

(** [POST /api/payment] over a payment provider [create], which stands
    for [stripe.paymentIntents.create].  The body's [amount] is a number
    or left out; the metadata carries the user's id, which the source
    writes in decimal.  Beside the answer the handler gives the calls it
    made to the provider. *)
Definition post_payment
    (create : PaymentIntentParams.t -> Exc PaymentIntent.t)
    (req : Session.t) (amount : option number)
  : Response.t * list PaymentIntentParams.t :=
  authenticated req [] (fun user =>
    match amount with
    | None => (Response.mk 400 (Message "Invalid amount"), [])
    | Some amount =>
        if falsy_number amount || (amount <=? 0)%float then
          (Response.mk 400 (Message "Invalid amount"), [])
        else
          let params :=
            PaymentIntentParams.mk (Math_round (amount * 100)%float) "usd"
                                   (User.id user) in
          match create params with
          | Returned paymentIntent =>
              (json_200 (ClientSecret (PaymentIntent.client_secret paymentIntent)),
               [params])
          | Thrown _ =>
              (Response.mk 500 (Message "Error processing payment"), [params])
          end
    end).

(* ================================================================== *)
(** ** Calls of the storage interface, and the stores they reach *)

Inductive call : Type :=
| CreateUser (insertUser : InsertUser.t)
| CreateMenuItem (now : Date) (insertMenuItem : InsertMenuItem.t)
| UpdateMenuItem (id : Z) (insertMenuItem : InsertMenuItem.t)
| DeleteMenuItem (id : Z)
| AddToCart (insertCartItem : InsertCartItem.t)
| RemoveFromCart (id userId : Z)
| UpdateCartItemQuantity (id userId : Z) (quantity : number)
| ClearCart (userId : Z)
| CreateOrder (now : Date) (insertOrder : InsertOrder.t)
| UpdateOrderStatus (id : Z) (status : string).

Definition exec (c : call) (this : MemStorage) : MemStorage :=
  match c with
  | CreateUser u => snd (createUser this u)
  | CreateMenuItem now m => snd (createMenuItem this now m)
  | UpdateMenuItem id m => snd (updateMenuItem this id m)
  | DeleteMenuItem id => snd (deleteMenuItem this id)
  | AddToCart c => snd (addToCart this c)
  | RemoveFromCart id userId => snd (removeFromCart this id userId)
  | UpdateCartItemQuantity id userId q => snd (updateCartItemQuantity this id userId q)
  | ClearCart userId => snd (clearCart this userId)
  | CreateOrder now o => snd (createOrder this now o)
  | UpdateOrderStatus id status => snd (updateOrderStatus this id status)
  end.

Definition run (calls : list call) (this : MemStorage) : MemStorage :=
  fold_left (fun st c => exec c st) calls this.

(* ------------------------------------------------------------------ *)
(** *** The invariant of the store *)

(** An entry is filed under the id of its row, and the id was handed out
    by the counter. *)
Definition entry_okb {V : Type} (id_of : V -> Z) (counter : Z) (e : Z * V) : bool :=
  (id_of (snd e) =? fst e) && (1 <=? fst e) && (fst e <? counter).

Fixpoint distinctb {A : Type} (eqb : A -> A -> bool) (l : list A) : bool :=
  match l with
  | [] => true
  | x :: rest => negb (existsb (eqb x) rest) && distinctb eqb rest
  end.

Definition table_okb {V : Type} (id_of : V -> Z) (counter : Z) (m : JsMap.t V) : bool :=
  (1 <=? counter) && forallb (entry_okb id_of counter) m
  && distinctb Z.eqb (JsMap.keys m).

(** The (user, menu item) pair a cart line stands for. *)
Definition pair_of (item : CartItem.t) : Z * Z :=
  (CartItem.userId item, CartItem.menuItemId item).

Definition pair_eqb (p q : Z * Z) : bool :=
  (fst p =? fst q) && (snd p =? snd q).

Definition pairs (m : JsMap.t CartItem.t) : list (Z * Z) :=
  map pair_of (JsMap.values m).

Definition wf (this : MemStorage) : bool :=
  table_okb User.id (userIdCounter this) (users this)
  && table_okb MenuItem.id (menuItemIdCounter this) (menuItems this)
  && table_okb CartItem.id (cartItemIdCounter this) (cartItems this)
  && table_okb Order.id (orderIdCounter this) (orders this)
  && distinctb pair_eqb (pairs (cartItems this)).

Definition Entry_ok {V : Type} (id_of : V -> Z) (counter : Z) (e : Z * V) : Prop :=
  id_of (snd e) = fst e /\ 1 <= fst e < counter.

Definition Table_ok {V : Type} (id_of : V -> Z) (counter : Z) (m : JsMap.t V) : Prop :=
  1 <= counter /\ Forall (Entry_ok id_of counter) m /\ NoDup (JsMap.keys m).

(** The cart part of the invariant: the table is in order, and no two
    lines stand for one (user, menu item) pair. *)
Definition Cart_ok (this : MemStorage) : Prop :=
  Table_ok CartItem.id (cartItemIdCounter this) (cartItems this)
  /\ NoDup (pairs (cartItems this)).

Definition WF (this : MemStorage) : Prop :=
  Table_ok User.id (userIdCounter this) (users this)
  /\ Table_ok MenuItem.id (menuItemIdCounter this) (menuItems this)
  /\ Table_ok Order.id (orderIdCounter this) (orders this)
  /\ Cart_ok this.

(* ------------------------------------------------------------------ *)
(** *** Views of the store used in the statements *)

(** The four counters: users, menu items, cart lines, orders. *)
Definition counters (this : MemStorage) : Z * Z * Z * Z :=
  (userIdCounter this, menuItemIdCounter this,
   cartItemIdCounter this, orderIdCounter this).

(** No counter of [a] is ahead of its counterpart in [b]. *)
Definition counters_le (a b : MemStorage) : Prop :=
  userIdCounter a <= userIdCounter b
  /\ menuItemIdCounter a <= menuItemIdCounter b
  /\ cartItemIdCounter a <= cartItemIdCounter b
  /\ orderIdCounter a <= orderIdCounter b.

(** An order that [getOrdersByUserId] can decorate: its items are an
    array with no [null] in it. *)
Definition items_ok (items : json) : bool :=
  match items with
  | JArr l => forallb (fun item => match item with JNull => false | _ => true end) l
  | _ => false
  end.

(** A nullable string of a request body as the storage layer keeps it. *)
Definition stored_string (f : field (option string)) : option string :=
  match f with
  | Given s => string_or_null (Some s)
  | _ => None
  end.

(** The body of [POST /api/orders] with another value under [status]. *)
Definition with_body_status (body : OrderBody.t) (status : option json) : OrderBody.t :=
  OrderBody.mk (OrderBody.userId body) (OrderBody.items body) (OrderBody.total body)
               (OrderBody.address body) (OrderBody.paymentId body) status.

(** The lines of the cart table that stand for (userId, menuItemId). *)
Definition lines_for (this : MemStorage) (userId menuItemId : Z) : list CartItem.t :=
  filter (fun item => pair_eqb (pair_of item) (userId, menuItemId))
         (JsMap.values (cartItems this)).

(** The quantity the cart holds for the pair, when it has a line for it. *)
Definition quantity_for (this : MemStorage) (userId menuItemId : Z) : option number :=
  option_map CartItem.quantity (hd_error (lines_for this userId menuItemId)).

(** Who owns the line filed under [id], if there is one. *)
Definition owner (this : MemStorage) (id : Z) : option Z :=
  option_map CartItem.userId (JsMap.get (cartItems this) id).

(* ================================================================== *)
(** ** The rest of the storage interface and of the routes *)

(** *** Lookups by text

    [String.prototype.toLowerCase] and [String.prototype.trim] are the
    platform's; the methods and the handler below are given over any
    two such functions. *)

(** [s.includes(t)] *)
Fixpoint includes (s t : string) : bool :=
  if String.prefix t s then true
  else match s with
       | EmptyString => false
       | String _ rest => includes rest t
       end.

(** A key of [req.query]: left out, a string, or the array or object
    that a repeated or bracketed key parses to. *)
Inductive query : Type :=
| QMissing
| QString (s : string)
| QOther.

(** The answers of the menu routes: a menu item, a list of them, or one
    of the payloads above. *)
Inductive MenuPayload : Type :=
| MenuItemJson (menuItem : MenuItem.t)
| MenuJson (menuItems : list MenuItem.t)
| Plain (payload : Payload).

Module MenuResponse.
Record t := mk {
  status : Z;
  payload : MenuPayload
}.
End MenuResponse.

Section Text.
Variable toLowerCase : string -> string.
Variable trim : string -> string.

Definition getUserByUsername (this : MemStorage) (username : string) : option User.t :=
  find (fun user => String.eqb (toLowerCase (User.username user)) (toLowerCase username))
       (JsMap.values (users this)).

Definition getMenuItemsByCategory (this : MemStorage) (category : string)
  : list MenuItem.t :=
  filter (fun item => String.eqb (toLowerCase (MenuItem.category item))
                                 (toLowerCase category))
         (JsMap.values (menuItems this)).

(** The callback of the search filter. *)
Definition matches_search (searchTerm : string) (item : MenuItem.t) : bool :=
  includes (toLowerCase (MenuItem.name item)) searchTerm
  || includes (toLowerCase (MenuItem.description item)) searchTerm
  || includes (toLowerCase (MenuItem.category item)) searchTerm.

(** [GET /api/menu].  A category that is no string has no
    [toLowerCase]: the filter's callback throws on the first item it is
    called on, and is not called on an empty menu.  A search that is no
    string has no [trim]. *)
Definition get_menu (category search : query) (this : MemStorage)
  : MenuResponse.t * MemStorage :=
  let menuItems := getAllMenuItems this in
  let failed :=
    (MenuResponse.mk 500 (Plain (Message "Error fetching menu items")), this) in
  let byCategory : Exc (list MenuItem.t) :=
    match category with
    | QMissing => Returned menuItems
    | QString c =>
        if String.eqb c "" || String.eqb c "all" then Returned menuItems
        else Returned (filter (fun item =>
                                 String.eqb (toLowerCase (MenuItem.category item))
                                            (toLowerCase c))
                              menuItems)
    | QOther =>
        match menuItems with
        | [] => Returned []
        | _ :: _ => Thrown "TypeError"
        end
    end in
  match byCategory with
  | Thrown _ => failed
  | Returned menuItems =>
      match search with
      | QMissing => (MenuResponse.mk 200 (MenuJson menuItems), this)
      | QString s =>
          if String.eqb s "" || String.eqb (trim s) "" then
            (MenuResponse.mk 200 (MenuJson menuItems), this)
          else
            let searchTerm := trim (toLowerCase s) in
            (MenuResponse.mk 200 (MenuJson (filter (matches_search searchTerm) menuItems)),
             this)
      | QOther => failed
      end
  end.

End Text.

(* ------------------------------------------------------------------ *)
(** *** Menu routes of the admin *)

(** The body of [POST /api/menu] and [PUT /api/menu/:id]. *)
Module MenuBody.
Record t := mk {
  name : field string;
  description : field string;
  price : field number;
  imageUrl : field (option string);
  category : field string;
  isPopular : field (option bool)
}.
End MenuBody.

(** [insertMenuItemSchema.parse(req.body)]: [None] is a ZodError. *)
Definition insertMenuItemSchema_parse (body : MenuBody.t) : option InsertMenuItem.t :=
  match required (MenuBody.name body), required (MenuBody.description body),
        required (MenuBody.price body), optional (MenuBody.imageUrl body),
        required (MenuBody.category body), optional (MenuBody.isPopular body) with
  | Some name, Some description, Some price, Some imageUrl, Some category,
    Some isPopular =>
      Some (InsertMenuItem.mk name description price imageUrl category isPopular)
  | _, _, _, _, _, _ => None
  end.

(** The [isAdmin] middleware in front of a menu handler. *)
Definition isAdmin_menu (req : Session.t) (this : MemStorage)
    (next : MenuResponse.t * MemStorage) : MenuResponse.t * MemStorage :=
  if admin_session req then next
  else (MenuResponse.mk 403 (Plain (Message "Forbidden: Admin access required")), this).

Definition post_menu (req : Session.t) (now : Date) (body : MenuBody.t)
    (this : MemStorage) : MenuResponse.t * MemStorage :=
  isAdmin_menu req this
    (match insertMenuItemSchema_parse body with
     | None => (MenuResponse.mk 400 (Plain InvalidData), this)
     | Some validatedData =>
         let (menuItem, this') := createMenuItem this now validatedData in
         (MenuResponse.mk 201 (MenuItemJson menuItem), this')
     end).

Definition put_menu (req : Session.t) (id : option Z) (body : MenuBody.t)
    (this : MemStorage) : MenuResponse.t * MemStorage :=
  isAdmin_menu req this
    (match insertMenuItemSchema_parse body with
     | None => (MenuResponse.mk 400 (Plain InvalidData), this)
     | Some validatedData =>
         let (menuItem, this') :=
           match id with
           | Some id => updateMenuItem this id validatedData
           | None => (None, this)
           end in
         match menuItem with
         | None => (MenuResponse.mk 404 (Plain (Message "Menu item not found")), this')
         | Some menuItem => (MenuResponse.mk 200 (MenuItemJson menuItem), this')
         end
     end).

Definition delete_menu (req : Session.t) (id : option Z) (this : MemStorage)
  : MenuResponse.t * MemStorage :=
  isAdmin_menu req this
    (let (success, this') :=
       match id with
       | Some id => deleteMenuItem this id
       | None => (false, this)
       end in
     if negb success then
       (MenuResponse.mk 404 (Plain (Message "Menu item not found")), this')
     else (MenuResponse.mk 204 (Plain NoContent), this')).

(* ------------------------------------------------------------------ *)
(** *** Requests that can write to the store *)

Inductive request : Type :=
| PostMenu (req : Session.t) (now : Date) (body : MenuBody.t)
| PutMenu (req : Session.t) (id : option Z) (body : MenuBody.t)
| DeleteMenu (req : Session.t) (id : option Z)
| GetCart (req : Session.t)
| PostCart (req : Session.t) (body : CartBody.t)
| DeleteCart (req : Session.t) (id : option Z)
| PutCart (req : Session.t) (id : option Z) (quantity : field number)
| PostOrders (req : Session.t) (now : Date) (body : OrderBody.t)
| GetOrdersOf (req : Session.t) (userId : option Z)
| GetOrders (req : Session.t)
| PatchOrder (req : Session.t) (id : option Z) (status : option json).

(** Who sent the request. *)
Definition session_of (r : request) : Session.t :=
  match r with
  | PostMenu req _ _ | PutMenu req _ _ | DeleteMenu req _
  | GetCart req | PostCart req _ | DeleteCart req _ | PutCart req _ _
  | PostOrders req _ _ | GetOrdersOf req _ | GetOrders req
  | PatchOrder req _ _ => req
  end.

(** The store after the handler of the request has answered. *)
Definition handle (r : request) (this : MemStorage) : MemStorage :=
  match r with
  | PostMenu req now body => snd (post_menu req now body this)
  | PutMenu req id body => snd (put_menu req id body this)
  | DeleteMenu req id => snd (delete_menu req id this)
  | GetCart req => snd (get_cart req this)
  | PostCart req body => snd (post_cart req body this)
  | DeleteCart req id => snd (delete_cart req id this)
  | PutCart req id quantity => snd (put_cart req id quantity this)
  | PostOrders req now body => snd (post_orders req now body this)
  | GetOrdersOf req userId => snd (get_orders_of req userId this)
  | GetOrders req => snd (get_orders req this)
  | PatchOrder req id status => snd (patch_order req id status this)
  end.

(** The HTTP status of the answer, whatever its payload. *)
Definition status_of (r : request) (this : MemStorage) : Z :=
  match r with
  | PostMenu req now body => MenuResponse.status (fst (post_menu req now body this))
  | PutMenu req id body => MenuResponse.status (fst (put_menu req id body this))
  | DeleteMenu req id => MenuResponse.status (fst (delete_menu req id this))
  | GetCart req => Response.status (fst (get_cart req this))
  | PostCart req body => Response.status (fst (post_cart req body this))
  | DeleteCart req id => Response.status (fst (delete_cart req id this))
  | PutCart req id quantity => Response.status (fst (put_cart req id quantity this))
  | PostOrders req now body => Response.status (fst (post_orders req now body this))
  | GetOrdersOf req userId => Response.status (fst (get_orders_of req userId this))
  | GetOrders req => Response.status (fst (get_orders req this))
  | PatchOrder req id status => Response.status (fst (patch_order req id status this))
  end.

Definition serve (requests : list request) (this : MemStorage) : MemStorage :=
  fold_left (fun st r => handle r st) requests this.

(** The routes behind the [isAdmin] middleware. *)
Definition admin_route (r : request) : bool :=
  match r with
  | PostMenu _ _ _ | PutMenu _ _ _ | DeleteMenu _ _ | GetOrders _ | PatchOrder _ _ _ => true
  | _ => false
  end.

(** The value an entry of an order's items holds under a key: only an
    object holds one. *)
Definition prop_of (item : json) (key : string) : option json :=
  match item with
  | JObj props => lookup_prop key props
  | _ => None
  end.

(** The lines of an order read against the menu as it is now. *)
Definition lines_of (this : MemStorage) (items : json) : list OrderLine.t :=
  match items with
  | JArr l =>
      map (fun item =>
             OrderLine.mk (getMenuItemById_json this (prop_of item "menuItemId"))
                          (prop_of item "quantity"))
          l
  | _ => []
  end.

(** A menu item with the fields that
    [updateMenuItemsWithEnhancedFeatures] never writes. *)
Definition plain_fields (m : MenuItem.t)
  : Z * string * string * number * option string * string * option number
    * option Z * option bool * option bool * option bool * json * json
    * option number * option Date :=
  (MenuItem.id m, MenuItem.name m, MenuItem.description m, MenuItem.price m,
   MenuItem.imageUrl m, MenuItem.category m, MenuItem.rating m,
   MenuItem.reviewCount m, MenuItem.isPopular m, MenuItem.isSeasonal m,
   MenuItem.isCombo m, MenuItem.availableAddons m, MenuItem.comboItems m,
   MenuItem.discountPercentage m, MenuItem.createdAt m).

(* ------------------------------------------------------------------ *)
(** *** The progress of an order on the orders page
    ([client/src/pages/checkout-page.tsx]) *)

Module OrderProgress.
Record t := mk {
  progress : Z;
  currentStep : Z;
  estimatedTime : string
}.
End OrderProgress.

(** [getOrderProgress]: a [switch] on the status, a string when the
    code runs. *)
Definition getOrderProgress (status : string) : OrderProgress.t :=
  if String.eqb status "pending" then OrderProgress.mk 20 1 "15-20 mins"
  else if String.eqb status "processing" then OrderProgress.mk 50 2 "10-15 mins"
  else if String.eqb status "delivering" then OrderProgress.mk 80 3 "5-10 mins"
  else if String.eqb status "delivered" then OrderProgress.mk 100 4 "Delivered"
  else if String.eqb status "cancelled" then OrderProgress.mk 0 0 "Cancelled"
  else OrderProgress.mk 0 0 "Unknown".

(** A tracking step, without its icon. *)
Module Step.
Record t := mk {
  id : Z;
  name : string;
  description : string
}.
End Step.

Definition trackingSteps : list Step.t :=
  [ Step.mk 1 "Order Placed" "Your order has been received";
    Step.mk 2 "Preparing" "Chef is preparing your food";
    Step.mk 3 "Out for Delivery" "Your order is on the way";
    Step.mk 4 "Delivered" "Enjoy your meal!" ].

(** The classes of the circle of a step, as the callback of
    [trackingSteps.map] chooses them for an order of the given status. *)
Definition stepCircleClass (step : Step.t) (status : string) : string :=
  let isCompleted := Step.id step <=? OrderProgress.currentStep (getOrderProgress status) in
  let isCurrent := Step.id step =? OrderProgress.currentStep (getOrderProgress status) in
  if isCompleted then "bg-green-500 text-white"
  else if isCurrent then "bg-primary text-primary-foreground animate-pulse"
  else "bg-muted text-muted-foreground".

(** The session is that of the user with this id. *)
Definition acts_for (req : Session.t) (userId : Z) : bool :=
  match ensureUser req with
  | Some user => User.id user =? userId
  | None => false
  end.

(** What a session may ask of the storage interface: an admin the
    writes to the menu and a status of the enumeration for an order; a
    signed-in user the cart calls and the order in their own name;
    nobody a new user. *)
Definition permitted (req : Session.t) (c : call) : bool :=
  match c with
  | CreateUser _ => false
  | CreateMenuItem _ _ | UpdateMenuItem _ _ | DeleteMenuItem _ => admin_session req
  | AddToCart c => acts_for req (InsertCartItem.userId c)
  | RemoveFromCart _ userId | UpdateCartItemQuantity _ userId _ | ClearCart userId =>
      acts_for req userId
  | CreateOrder _ o => acts_for req (InsertOrder.userId o)
  | UpdateOrderStatus _ status =>
      admin_session req && existsb (String.eqb status) OrderStatus
  end.

(** What a request of the session may have made of the store [this]:
    the users are as they were, and unless the session is an admin's so
    are the menu and every order that was stored, an order that was not
    being the session user's own and pending. *)
Definition gated (req : Session.t) (this st : MemStorage) : Prop :=
  users st = users this /\ userIdCounter st = userIdCounter this
  /\ (admin_session req = false ->
        menuItems st = menuItems this
        /\ menuItemIdCounter st = menuItemIdCounter this
        /\ (forall id order,
              getOrderById this id = Some order -> getOrderById st id = Some order)
        /\ (forall id order,
              getOrderById st id = Some order ->
              getOrderById this id = Some order
              \/ (acts_for req (Order.userId order) = true
                  /\ Order.status order = "pending"))).

(** Every stored order has a status of the enumeration. *)
Definition statuses_ok (this : MemStorage) : bool :=
  forallb (fun order => existsb (String.eqb (Order.status order)) OrderStatus)
          (JsMap.values (orders this)).

(** A menu item with the fields that [updateMenuItem] never writes. *)
Definition kept_fields (m : MenuItem.t)
  : Z * option number * option Z * option bool * option bool
    * json * json * json * json * option number * option Date :=
  (MenuItem.id m, MenuItem.rating m, MenuItem.reviewCount m,
   MenuItem.isSeasonal m, MenuItem.isCombo m,
   MenuItem.dietaryPreferences m, MenuItem.nutritionalInfo m,
   MenuItem.availableAddons m, MenuItem.comboItems m,
   MenuItem.discountPercentage m, MenuItem.createdAt m).

(** A closed statement about concrete stores, settled by running the code. *)
Ltac evaluate :=
  repeat match goal with |- _ /\ _ => split end; vm_compute; reflexivity.

(* ================================================================== *)
(** * Properties *)

(** ** Numbers that hold integers

    The operations on numbers are specified through [Prim2SF], the
    sign, mantissa and exponent of a number.  The facts below say when
    rounding loses nothing: on the integers of at most 53 bits and on
    2^53. *)


Lemma iter_xO (m d : positive) : Z.pos (Pos.iter xO m d) = Z.pos m * 2 ^ Z.pos d.
Proof.
  induction d as [|d IH] using Pos.peano_ind.
  - simpl. lia.
  - rewrite Pos.iter_succ, Pos2Z.inj_xO, IH, Pos2Z.inj_succ, Z.pow_succ_r by lia. ring.
Qed.

Lemma digits2_iter_xO (m d : positive) :
  digits2_pos (Pos.iter xO m d) = (digits2_pos m + d)%positive.
Proof.
  induction d as [|d IH] using Pos.peano_ind.
  - simpl. lia.
  - rewrite Pos.iter_succ. simpl. rewrite IH. lia.
Qed.

Lemma digits2_bounds (p : positive) :
  2 ^ (Z.pos (digits2_pos p) - 1) <= Z.pos p < 2 ^ Z.pos (digits2_pos p).
Proof.
  induction p as [p IH|p IH|]; simpl digits2_pos.
  - rewrite Pos2Z.inj_succ, Z.pow_succ_r by lia.
    replace (Z.succ (Z.pos (digits2_pos p)) - 1) with (Z.succ (Z.pos (digits2_pos p) - 1)) by lia.
    rewrite Z.pow_succ_r by lia. lia.
  - rewrite Pos2Z.inj_succ, Z.pow_succ_r by lia.
    replace (Z.succ (Z.pos (digits2_pos p)) - 1) with (Z.succ (Z.pos (digits2_pos p) - 1)) by lia.
    rewrite Z.pow_succ_r by lia. lia.
  - simpl. lia.
Qed.

Lemma iter_pos_iter {A : Type} (f : A -> A) (n : positive) (x : A) :
  iter_pos f n x = Pos.iter f x n.
Proof.
  revert x. induction n as [n IH|n IH|]; intros x; simpl.
  - now rewrite !IH, !Pos.iter_swap.
  - now rewrite !IH.
  - reflexivity.
Qed.

Lemma shr_exact (m d : positive) :
  iter_pos shr_1 d (Build_shr_record (Z.pos (Pos.iter xO m d)) false false)
  = Build_shr_record (Z.pos m) false false.
Proof.
  rewrite iter_pos_iter. induction d as [|d IH] using Pos.peano_ind.
  - reflexivity.
  - rewrite (Pos.iter_succ d _ xO), Pos.iter_succ, <- Pos.iter_swap. exact IH.
Qed.

Lemma fexp_eq (x : Z) : fexp prec emax x = Z.max (x - 53) (-1074).
Proof. reflexivity. Qed.

Lemma bounded_spec (m : positive) (e : Z) :
  bounded prec emax m e = true <->
  fexp prec emax (Z.pos (digits2_pos m) + e) = e /\ e <= 971.
Proof.
  unfold bounded, canonical_mantissa. rewrite andb_true_iff, Z.eqb_eq, Z.leb_le.
  reflexivity.
Qed.

Lemma binary_round_aux_canonical (s : bool) (mc : positive) (E : Z) :
  bounded prec emax mc E = true ->
  binary_round_aux prec emax s (Z.pos mc) E loc_Exact = S754_finite s mc E.
Proof.
  intros H. apply bounded_spec in H. destruct H as [Hc Hb].
  unfold binary_round_aux, shr_fexp, Zdigits2, shr_record_of_loc.
  rewrite Hc, Z.sub_diag. cbn [shr shr_m loc_of_shr_record round_nearest_even].
  rewrite Hc, Z.sub_diag. cbn [shr shr_m].
  apply Z.leb_le in Hb. change (emax - prec) with 971. now rewrite Hb.
Qed.

Lemma binary_round_aux_shift (s : bool) (mc d : positive) (E : Z) :
  bounded prec emax mc E = true ->
  binary_round_aux prec emax s (Z.pos (Pos.iter xO mc d)) (E - Z.pos d) loc_Exact
  = S754_finite s mc E.
Proof.
  intros H. pose proof H as H'. apply bounded_spec in H. destruct H as [Hc Hb].
  unfold binary_round_aux at 1. unfold shr_fexp at 1. unfold Zdigits2, shr_record_of_loc.
  rewrite digits2_iter_xO.
  replace (Z.pos (digits2_pos mc + d) + (E - Z.pos d))
    with (Z.pos (digits2_pos mc) + E) by lia.
  rewrite Hc. replace (E - (E - Z.pos d)) with (Z.pos d) by lia.
  cbn [shr]. rewrite shr_exact.
  replace (E - Z.pos d + Z.pos d) with E by lia.
  cbn [shr_m loc_of_shr_record round_nearest_even].
  pose proof (binary_round_aux_canonical s mc E H') as A.
  unfold binary_round_aux in A. unfold shr_fexp at 1 in A.
  unfold Zdigits2, shr_record_of_loc in A. rewrite Hc, Z.sub_diag in A.
  cbn [shr shr_m loc_of_shr_record round_nearest_even] in A. exact A.
Qed.

(** Rounding a mantissa and exponent whose value a valid float has
    gives that float. *)
Lemma binary_round_value (s : bool) (m mc : positive) (e E K : Z) :
  bounded prec emax mc E = true ->
  0 <= e + K -> 0 <= E + K ->
  Z.pos m * 2 ^ (e + K) = Z.pos mc * 2 ^ (E + K) ->
  binary_round prec emax s m e = S754_finite s mc E.
Proof.
  intros Hb He HE Hv. pose proof Hb as Hb'. apply bounded_spec in Hb'.
  destruct Hb' as [Hc _]. unfold binary_round.
  destruct (E - e) as [|d|d] eqn:D.
  - assert (e = E) by lia. subst e.
    assert (m = mc).
    { apply Pos2Z.inj. assert (0 < 2 ^ (E + K)) by (apply Z.pow_pos_nonneg; lia). nia. }
    subst mc. rewrite Hc. unfold shl_align. rewrite Z.sub_diag.
    now apply binary_round_aux_canonical.
  - assert (Ee : e = E - Z.pos d) by lia.
    assert (Hm : m = Pos.iter xO mc d).
    { apply Pos2Z.inj. rewrite iter_xO.
      replace (E + K) with (Z.pos d + (e + K)) in Hv by lia.
      rewrite (Z.pow_add_r 2 (Z.pos d) (e + K)) in Hv by lia.
      assert (0 < 2 ^ (e + K)) by (apply Z.pow_pos_nonneg; lia). nia. }
    subst m e.
    replace (fexp prec emax (Z.pos (digits2_pos (Pos.iter xO mc d)) + (E - Z.pos d)))
      with E.
    + unfold shl_align. rewrite D. now apply binary_round_aux_shift.
    + rewrite <- Hc at 1. f_equal. rewrite digits2_iter_xO. lia.
  - assert (Ee : e = E + Z.pos d) by lia.
    assert (Hm : mc = Pos.iter xO m d).
    { apply Pos2Z.inj. rewrite iter_xO.
      replace (e + K) with (Z.pos d + (E + K)) in Hv by lia.
      rewrite (Z.pow_add_r 2 (Z.pos d) (E + K)) in Hv by lia.
      assert (0 < 2 ^ (E + K)) by (apply Z.pow_pos_nonneg; lia). nia. }
    subst e.
    replace (fexp prec emax (Z.pos (digits2_pos m) + (E + Z.pos d))) with E.
    + unfold shl_align. rewrite D. rewrite <- Hm. now apply binary_round_aux_canonical.
    + rewrite <- Hc at 1. f_equal. rewrite Hm, digits2_iter_xO. lia.
Qed.

(** An integer of at most 53 bits, or 2^53, as a valid float. *)
Lemma int_canonical (n : positive) :
  Z.pos n <= 2 ^ 53 ->
  exists mc E, bounded prec emax mc E = true /\ -52 <= E <= 1
               /\ Z.pos mc * 2 ^ (E + 52) = Z.pos n * 2 ^ 52.
Proof.
  intros Hn. pose proof (digits2_bounds n) as Hd.
  set (d := Z.pos (digits2_pos n)) in *.
  assert (Hd1 : 1 <= d) by (unfold d; lia).
  destruct (Z_le_gt_dec d 52) as [H52|H52]; [|destruct (Z.eq_dec d 53) as [H53|H53]].
  - exists (Pos.iter xO n (Z.to_pos (53 - d))), (d - 53). split; [|split].
    + apply bounded_spec. rewrite digits2_iter_xO, fexp_eq, Pos2Z.inj_add, Z2Pos.id by lia.
      fold d. lia.
    + lia.
    + rewrite iter_xO, Z2Pos.id by lia.
      rewrite <- Z.mul_assoc, <- Z.pow_add_r by lia. f_equal. f_equal. lia.
  - exists n, 0. split; [|split].
    + apply bounded_spec. rewrite fexp_eq. fold d. lia.
    + lia.
    + reflexivity.
  - assert (H54 : d = 54).
    { destruct (Z_le_gt_dec d 54) as [|Hgt]; [lia|]. exfalso.
      assert (2 ^ 54 <= 2 ^ (d - 1)) by (apply Z.pow_le_mono_r; lia).
      assert (2 ^ 53 < 2 ^ 54) by (apply Z.pow_lt_mono_r; lia). lia. }
    rewrite H54 in Hd. change (54 - 1) with 53 in Hd.
    assert (Z.pos n = 2 ^ 53) by lia.
    exists (2 ^ 52)%positive, 1. split; [reflexivity|]. split; [lia|].
    rewrite H. reflexivity.
Qed.

Lemma signed_cases (s : bool) (n : positive) :
  signed s n = if s then - Z.pos n else Z.pos n.
Proof. now destruct s. Qed.

Lemma signed_to_pos (s : bool) (q : Z) :
  0 < q -> signed s (Z.to_pos q) = if s then - q else q.
Proof. intros H. rewrite signed_cases, Z2Pos.id by lia. reflexivity. Qed.

Lemma float_to_Z_finite (x : number) (s : bool) (m n : positive) (e : Z) :
  Prim2SF x = S754_finite s m e ->
  -52 <= e ->
  Z.pos m * 2 ^ (e + 52) = Z.pos n * 2 ^ 52 ->
  float_to_Z x = Some (signed s n).
Proof.
  intros Hx He Hv. unfold float_to_Z. rewrite Hx. cbv zeta.
  fold (signed s m).
  destruct (Z.leb_spec 0 e) as [H0|H0].
  - rewrite (Z.pow_add_r 2 e 52) in Hv by lia.
    assert (Z.pos m * 2 ^ e = Z.pos n) by lia.
    f_equal. rewrite !signed_cases. destruct s; lia.
  - assert (Hm : Z.pos m = Z.pos n * 2 ^ (- e)).
    { replace 52 with ((- e) + (e + 52)) in Hv at 2 by lia.
      rewrite (Z.pow_add_r 2 (- e) (e + 52)) in Hv by lia.
      assert (0 < 2 ^ (e + 52)) by (apply Z.pow_pos_nonneg; lia). nia. }
    assert (Hp : 0 < 2 ^ (- e)) by (apply Z.pow_pos_nonneg; lia).
    rewrite !signed_cases, Hm, Z.mod_mul by lia. rewrite Z.eqb_refl.
    f_equal. destruct s.
    + now rewrite <- Z.mul_opp_l, Z.div_mul by lia.
    + now rewrite Z.div_mul by lia.
Qed.

Lemma float_to_Z_zero (x : number) :
  float_to_Z x = Some 0 -> exists s, Prim2SF x = S754_zero s.
Proof.
  unfold float_to_Z. destruct (Prim2SF x) as [s| | |s m e]; try discriminate.
  - now exists s.
  - cbv zeta. destruct (Z.leb_spec 0 e) as [H0|H0].
    + intros [= H]. exfalso.
      assert (0 < 2 ^ e) by (apply Z.pow_pos_nonneg; lia).
      fold (signed s m) in H. rewrite signed_cases in H. destruct s; nia.
    + destruct (Z.eqb_spec (Z.pos m mod 2 ^ (- e)) 0) as [Hmod|]; [|discriminate].
      intros [= H]. exfalso.
      assert (Hp : 0 < 2 ^ (- e)) by (apply Z.pow_pos_nonneg; lia).
      apply Z.mod_divide in Hmod; [|lia]. destruct Hmod as [q Hq].
      fold (signed s m) in H. rewrite signed_cases, Hq in H. destruct s.
      * rewrite <- Z.mul_opp_l, Z.div_mul in H by lia. nia.
      * rewrite Z.div_mul in H by lia. nia.
Qed.

(** A number that holds a nonzero integer of at most 53 bits, or 2^53. *)
Lemma float_to_Z_inv (x : number) (a : Z) :
  float_to_Z x = Some a -> a <> 0 -> Z.abs a <= 2 ^ 53 ->
  exists s m e n,
    Prim2SF x = S754_finite s m e /\ -52 <= e <= 1
    /\ Z.pos m * 2 ^ (e + 52) = Z.pos n * 2 ^ 52 /\ a = signed s n.
Proof.
  intros Hx Ha Hb. pose proof (Prim2SF_valid x) as Hv.
  unfold float_to_Z in Hx. destruct (Prim2SF x) as [s| | |s m e]; try discriminate.
  - now injection Hx as <-.
  - simpl in Hv. apply bounded_spec in Hv. destruct Hv as [Hc _].
    rewrite fexp_eq in Hc. pose proof (digits2_bounds m) as Hd.
    set (d := Z.pos (digits2_pos m)) in *.
    cbv zeta in Hx. fold (signed s m) in Hx.
    destruct (Z.leb_spec 0 e) as [H0|H0].
    + injection Hx as Hx.
      assert (Hp : 0 < 2 ^ e) by (apply Z.pow_pos_nonneg; lia).
      assert (Habs : Z.abs a = Z.pos m * 2 ^ e).
      { subst a. rewrite Z.abs_mul, (Z.abs_eq (2 ^ e)) by lia. now destruct s. }
      assert (Hd53 : d = 53) by lia. rewrite Hd53 in Hd. change (53 - 1) with 52 in Hd.
      assert (He : e <= 1).
      { destruct (Z_le_gt_dec e 1) as [|Hgt]; [assumption|]. exfalso.
        assert (2 ^ 2 <= 2 ^ e) by (apply Z.pow_le_mono_r; lia).
        change (2 ^ 2) with 4 in *. change (2 ^ 53) with (2 * 2 ^ 52) in Hb. nia. }
      exists s, m, e, (Z.to_pos (Z.pos m * 2 ^ e)).
      split; [reflexivity|]. split; [lia|]. split.
      * rewrite Z2Pos.id by nia. rewrite (Z.pow_add_r 2 e 52) by lia. ring.
      * subst a. rewrite signed_to_pos by nia. rewrite signed_cases.
        destruct s; ring.
    + destruct (Z.eqb_spec (Z.pos m mod 2 ^ (- e)) 0) as [Hmod|]; [|discriminate].
      injection Hx as Hx.
      assert (Hp : 0 < 2 ^ (- e)) by (apply Z.pow_pos_nonneg; lia).
      apply Z.mod_divide in Hmod; [|lia]. destruct Hmod as [q Hq].
      assert (Hq0 : 0 < q) by nia.
      assert (Hae : a = (if s then - q else q)).
      { subst a. rewrite signed_cases, Hq. destruct s.
        - now rewrite <- Z.mul_opp_l, Z.div_mul by lia.
        - now rewrite Z.div_mul by lia. }
      assert (He : -52 <= e).
      { destruct (Z_le_gt_dec (-52) e) as [|Hlt]; [assumption|]. exfalso.
        assert (2 ^ (- e) <= Z.pos m) by nia.
        assert (Hlt' : 2 ^ (- e) < 2 ^ d) by lia.
        apply Z.pow_lt_mono_r_iff in Hlt'; lia. }
      exists s, m, e, (Z.to_pos q).
      split; [reflexivity|]. split; [lia|]. split.
      * rewrite Z2Pos.id by lia. rewrite Hq.
        rewrite <- Z.mul_assoc, <- Z.pow_add_r by lia. f_equal. f_equal. lia.
      * now rewrite Hae, signed_to_pos.
Qed.

(** The float of a mantissa and exponent that stand for an integer of
    at most 53 bits, or 2^53, holds that integer. *)
Lemma normalize_int (z : number) (M ez n : Z) :
  Prim2SF z = binary_normalize prec emax M ez false ->
  -52 <= ez -> Z.abs n <= 2 ^ 53 ->
  M * 2 ^ (ez + 52) = n * 2 ^ 52 ->
  float_to_Z z = Some n.
Proof.
  intros Hz He Hn Hv.
  assert (Hp : 0 < 2 ^ (ez + 52)) by (apply Z.pow_pos_nonneg; lia).
  assert (H52 : 0 < 2 ^ 52) by (apply Z.pow_pos_nonneg; lia).
  destruct M as [|p|p]; simpl in Hz.
  - assert (n = 0) by nia. subst n. unfold float_to_Z. now rewrite Hz.
  - destruct n as [|n|n]; try nia.
    destruct (int_canonical n Hn) as (mc & E & Hb & HE & Hc).
    rewrite (binary_round_value false p mc ez E 52 Hb) in Hz by lia.
    apply (float_to_Z_finite z false mc n E Hz); [lia|exact Hc].
  - destruct n as [|n|n]; try nia.
    destruct (int_canonical n Hn) as (mc & E & Hb & HE & Hc).
    rewrite (binary_round_value true p mc ez E 52 Hb) in Hz.
    + apply (float_to_Z_finite z true mc n E Hz); [lia|exact Hc].
    + lia.
    + lia.
    + change (Z.neg p) with (- Z.pos p) in Hv.
      change (Z.neg n) with (- Z.pos n) in Hv. lia.
Qed.

Lemma float_to_Z_opp (x : number) (a : Z) :
  float_to_Z x = Some a -> float_to_Z (- x)%float = Some (- a).
Proof.
  unfold float_to_Z. rewrite opp_spec.
  destruct (Prim2SF x) as [s| | |s m e]; cbn [SFopp]; try discriminate.
  - now intros [= <-].
  - cbv zeta. fold (signed s m). fold (signed (negb s) m).
    assert (Hs : signed (negb s) m = - signed s m) by now destruct s.
    rewrite Hs. destruct (0 <=? e).
    + intros [= <-]. f_equal. ring.
    + destruct (Z.eqb_spec (Z.pos m mod 2 ^ (- e)) 0) as [Hmod|]; [|discriminate].
      intros [= <-]. f_equal.
      assert (Hp : 0 < 2 ^ (- e)).
      { destruct (Z_le_gt_dec 0 (- e)); [apply Z.pow_pos_nonneg; lia|].
        rewrite Z.pow_neg_r, Z.mod_0_r in Hmod by lia. lia. }
      apply Z.mod_divide in Hmod; [|lia]. destruct Hmod as [q Hq].
      assert (HX : signed s m = (if s then - q else q) * 2 ^ (- e)).
      { rewrite signed_cases, Hq. destruct s; ring. }
      rewrite HX, <- Z.mul_opp_l, !Z.div_mul by lia. reflexivity.
Qed.

(** An integer of at most 53 bits, or 2^53, is a number. *)
Lemma Z_to_float_exact (n : Z) :
  Z.abs n <= 2 ^ 53 -> float_to_Z (Z_to_float n) = Some n.
Proof.
  intros Hn.
  assert (Hpos : forall k, 0 <= k <= 2 ^ 53 ->
                           float_to_Z (of_uint63 (Uint63.of_Z k)) = Some k).
  { intros k Hk. apply (normalize_int _ k 0 k); [| lia | lia | reflexivity].
    rewrite of_uint63_spec, Uint63.of_Z_spec, Z.mod_small; [reflexivity|].
    change Uint63.wB with (2 ^ 63).
    assert (2 ^ 53 < 2 ^ 63) by (apply Z.pow_lt_mono_r; lia). lia. }
  unfold Z_to_float. destruct (Z.ltb_spec n 0) as [H0|H0].
  - replace n with (- (- n)) at 2 by lia. apply float_to_Z_opp, Hpos. lia.
  - apply Hpos. lia.
Qed.

Lemma shl_align_value (m : positive) (e ez : Z) :
  ez <= e -> Z.pos (fst (shl_align m e ez)) = Z.pos m * 2 ^ (e - ez).
Proof.
  intros H. unfold shl_align. destruct (ez - e) as [|d|d] eqn:D; try lia.
  - replace (e - ez) with 0 by lia. simpl. lia.
  - simpl fst. rewrite iter_xO. f_equal. f_equal. lia.
Qed.

Lemma aligned_value (s : bool) (m n : positive) (e ez : Z) :
  ez <= e -> -52 <= ez ->
  Z.pos m * 2 ^ (e + 52) = Z.pos n * 2 ^ 52 ->
  cond_Zopp s (Z.pos (fst (shl_align m e ez))) * 2 ^ (ez + 52) = signed s n * 2 ^ 52.
Proof.
  intros H He Hv. rewrite shl_align_value, signed_cases by assumption.
  assert (Hm : Z.pos m * 2 ^ (e - ez) * 2 ^ (ez + 52) = Z.pos n * 2 ^ 52).
  { rewrite <- Z.mul_assoc, <- Z.pow_add_r by lia.
    now replace (e - ez + (ez + 52)) with (e + 52) by lia. }
  destruct s; unfold cond_Zopp; lia.
Qed.

(** The sum of two numbers that hold integers is exact as long as the
    integers and their sum have at most 53 bits, or are 2^53. *)
Lemma add_exact (x y : number) (a b : Z) :
  float_to_Z x = Some a -> float_to_Z y = Some b ->
  Z.abs a <= 2 ^ 53 -> Z.abs b <= 2 ^ 53 -> Z.abs (a + b) <= 2 ^ 53 ->
  float_to_Z (x + y)%float = Some (a + b).
Proof.
  intros Hx Hy Ha Hb Hab.
  destruct (Z.eq_dec a 0) as [->|Ha0]; [|destruct (Z.eq_dec b 0) as [->|Hb0]].
  - destruct (float_to_Z_zero x Hx) as [sx Ex].
    unfold float_to_Z in Hy |- *. rewrite add_spec, Ex. unfold SF64add.
    destruct (Prim2SF y) as [sy| | |sy my ey]; try discriminate.
    + injection Hy as <-. now destruct sx, sy.
    + exact Hy.
  - destruct (float_to_Z_zero y Hy) as [sy Ey].
    unfold float_to_Z in Hx |- *. rewrite add_spec, Ey. unfold SF64add.
    rewrite Z.add_0_r.
    destruct (Prim2SF x) as [sx| | |sx mx ex]; try discriminate.
    + injection Hx as <-. now destruct sx, sy.
    + exact Hx.
  - destruct (float_to_Z_inv x a Hx Ha0 Ha) as (sa & ma & ea & na & Ex & Hea & Hva & ->).
    destruct (float_to_Z_inv y b Hy Hb0 Hb) as (sb & mb & eb & nb & Ey & Heb & Hvb & ->).
    apply (normalize_int _
             (cond_Zopp sa (Z.pos (fst (shl_align ma ea (Z.min ea eb))))
              + cond_Zopp sb (Z.pos (fst (shl_align mb eb (Z.min ea eb)))))
             (Z.min ea eb)).
    + rewrite add_spec, Ex, Ey. reflexivity.
    + lia.
    + assumption.
    + rewrite !Z.mul_add_distr_r.
      rewrite (aligned_value sa ma na ea), (aligned_value sb mb nb eb) by lia.
      reflexivity.
Qed.

Lemma mantissa_bound (x : number) (s : bool) (m : positive) (e : Z) :
  Prim2SF x = S754_finite s m e -> Z.pos m < 2 ^ 53.
Proof.
  intros E. pose proof (Prim2SF_valid x) as Hv. rewrite E in Hv. simpl in Hv.
  apply bounded_spec in Hv. destruct Hv as [Hc _]. rewrite fexp_eq in Hc.
  pose proof (digits2_bounds m) as Hd.
  assert (2 ^ Z.pos (digits2_pos m) <= 2 ^ 53) by (apply Z.pow_le_mono_r; lia).
  lia.
Qed.

(** [Math.round] of a finite number is an integer, the closest one,
    the upper one of two that are equally close. *)
Lemma Math_round_nearest (x : number) (v : Q) :
  number_to_Q x = Some v ->
  exists n : Z,
    float_to_Z (Math_round x) = Some n
    /\ (v - (1 # 2) < inject_Z n)%Q /\ (inject_Z n <= v + (1 # 2))%Q.
Proof.
  unfold number_to_Q, Math_round.
  destruct (Prim2SF x) as [s| | |s m e] eqn:E; try discriminate.
  - intros [= <-]. exists 0. split; [|split].
    + unfold float_to_Z. now rewrite E.
    + reflexivity.
    + discriminate.
  - cbv zeta. fold (signed s m). pose proof (mantissa_bound x s m e E) as Hm.
    destruct (Z.leb_spec 0 e) as [H0|H0].
    + intros [= <-]. exists (signed s m * 2 ^ e). split; [|split].
      * unfold float_to_Z. rewrite E. cbv zeta. fold (signed s m).
        destruct (Z.leb_spec 0 e); [reflexivity|lia].
      * unfold Qlt, Qminus, Qplus, Qopp, inject_Z. cbn [Qnum Qden]. lia.
      * unfold Qle, Qplus, inject_Z. cbn [Qnum Qden]. lia.
    + intros [= <-].
      assert (Hp : 0 < 2 ^ (- e)) by (apply Z.pow_pos_nonneg; lia).
      assert (Hp2 : 2 ^ (1 - e) = 2 * 2 ^ (- e)).
      { replace (1 - e) with (Z.succ (- e)) by lia. apply Z.pow_succ_r. lia. }
      assert (Hk : 2 <= 2 ^ (- e)).
      { change 2 with (2 ^ 1) at 1. apply Z.pow_le_mono_r; lia. }
      set (P := 2 ^ (- e)) in *. rewrite Hp2.
      set (n := (2 * signed s m + P) / (2 * P)).
      pose proof (Z.mul_div_le (2 * signed s m + P) (2 * P) ltac:(lia)) as Hlo.
      pose proof (Z.mul_succ_div_gt (2 * signed s m + P) (2 * P) ltac:(lia)) as Hhi.
      fold n in Hlo, Hhi.
      assert (Hs : - Z.pos m <= signed s m <= Z.pos m)
        by (rewrite signed_cases; destruct s; lia).
      assert (Hn : Z.abs n <= 2 ^ 53).
      { change (2 ^ 53) with 9007199254740992 in *. nia. }
      exists n. split; [|split].
      * destruct ((n =? 0) && s) eqn:Ez.
        -- apply andb_true_iff in Ez. destruct Ez as [Ez _].
           apply Z.eqb_eq in Ez. now rewrite Ez.
        -- now apply Z_to_float_exact.
      * unfold Qlt, Qminus, Qplus, Qopp, inject_Z. cbn [Qnum Qden].
        rewrite Pos2Z.inj_mul, Z2Pos.id by lia. lia.
      * unfold Qle, Qplus, inject_Z. cbn [Qnum Qden].
        rewrite Pos2Z.inj_mul, Z2Pos.id by lia. lia.
Qed.

(** ** Facts about [Map] *)

Section JsMapFacts.
Context {V : Type}.
Implicit Types (m : JsMap.t V) (k : Z) (v : V).

Lemma get_None_keys m k :
  JsMap.get m k = None <-> ~ In k (JsMap.keys m).
Proof.
  induction m as [|[k' v'] m IH]; simpl.
  - tauto.
  - destruct (Z.eqb_spec k' k) as [->|Hne].
    + split; [discriminate | intros H; exfalso; apply H; now left].
    + rewrite IH. split; [intros H [E|E]; [congruence | tauto] | tauto].
Qed.

Lemma get_In m k v : JsMap.get m k = Some v -> In (k, v) m.
Proof.
  induction m as [|[k' v'] m IH]; simpl; [discriminate|].
  destruct (Z.eqb_spec k' k) as [->|Hne].
  - intros [= ->]. now left.
  - intros H. right. now apply IH.
Qed.

Lemma In_get m k v :
  NoDup (JsMap.keys m) -> In (k, v) m -> JsMap.get m k = Some v.
Proof.
  induction m as [|[k' v'] m IH]; simpl; [tauto|].
  intros Hnd [E|Hin].
  - injection E as -> ->. now rewrite Z.eqb_refl.
  - inversion Hnd as [|? ? Hk' Hnd']; subst.
    destruct (Z.eqb_spec k' k) as [->|Hne].
    + exfalso. apply Hk'. unfold JsMap.keys.
      change k with (fst (k, v)). now apply in_map.
    + now apply IH.
Qed.

Lemma get_split m k v :
  JsMap.get m k = Some v ->
  exists m1 m2, m = m1 ++ (k, v) :: m2 /\ ~ In k (JsMap.keys m1).
Proof.
  induction m as [|[k' v'] m IH]; simpl; [discriminate|].
  destruct (Z.eqb_spec k' k) as [->|Hne].
  - intros [= ->]. exists [], m. simpl. tauto.
  - intros H. destruct (IH H) as (m1 & m2 & -> & Hn).
    exists ((k', v') :: m1), m2. split; [reflexivity|].
    simpl. intros [E|E]; [congruence | tauto].
Qed.

Lemma get_at m1 m2 k v :
  ~ In k (JsMap.keys m1) -> JsMap.get (m1 ++ (k, v) :: m2) k = Some v.
Proof.
  induction m1 as [|[k' v'] m1 IH]; simpl; intros Hn.
  - now rewrite Z.eqb_refl.
  - destruct (Z.eqb_spec k' k) as [->|Hne]; [exfalso; apply Hn; now left|].
    apply IH. tauto.
Qed.

Lemma set_absent m k v :
  JsMap.get m k = None -> JsMap.set m k v = m ++ [(k, v)].
Proof.
  induction m as [|[k' v'] m IH]; simpl; [reflexivity|].
  destruct (Z.eqb_spec k' k) as [->|Hne]; [discriminate|].
  intros H. now rewrite IH.
Qed.

Lemma set_at m1 m2 k v v' :
  ~ In k (JsMap.keys m1) ->
  JsMap.set (m1 ++ (k, v) :: m2) k v' = m1 ++ (k, v') :: m2.
Proof.
  induction m1 as [|[k1 v1] m1 IH]; simpl; intros Hn.
  - now rewrite Z.eqb_refl.
  - destruct (Z.eqb_spec k1 k) as [->|Hne]; [exfalso; apply Hn; now left|].
    rewrite IH; tauto.
Qed.

Lemma remove_at m1 m2 k v :
  ~ In k (JsMap.keys m1) ->
  JsMap.remove (m1 ++ (k, v) :: m2) k = m1 ++ m2.
Proof.
  induction m1 as [|[k1 v1] m1 IH]; simpl; intros Hn.
  - now rewrite Z.eqb_refl.
  - destruct (Z.eqb_spec k1 k) as [->|Hne]; [exfalso; apply Hn; now left|].
    rewrite IH; tauto.
Qed.

Lemma remove_absent m k : JsMap.get m k = None -> JsMap.remove m k = m.
Proof.
  induction m as [|[k' v'] m IH]; simpl; [reflexivity|].
  destruct (Z.eqb_spec k' k) as [->|Hne]; [discriminate|].
  intros H. now rewrite IH.
Qed.

(** With distinct keys, [delete] takes out every entry under the key. *)
Lemma remove_filter m k :
  NoDup (JsMap.keys m) ->
  JsMap.remove m k = filter (fun e => negb (fst e =? k)) m.
Proof.
  induction m as [|[k' v'] m IH]; simpl; [reflexivity|].
  intros Hnd. inversion Hnd as [|? ? Hk' Hnd']; subst.
  destruct (Z.eqb_spec k' k) as [->|Hne]; simpl.
  - symmetry. apply forallb_filter_id. apply forallb_forall.
    intros [k1 v1] Hin. simpl.
    destruct (Z.eqb_spec k1 k) as [->|]; [|reflexivity].
    exfalso. apply Hk'. unfold JsMap.keys.
    change k with (fst (k, v1)). now apply in_map.
  - now rewrite IH.
Qed.

Lemma keys_app m1 m2 :
  JsMap.keys (m1 ++ m2) = JsMap.keys m1 ++ JsMap.keys m2.
Proof. unfold JsMap.keys. apply map_app. Qed.

Lemma values_app m1 m2 :
  JsMap.values (m1 ++ m2) = JsMap.values m1 ++ JsMap.values m2.
Proof. unfold JsMap.values. apply map_app. Qed.

End JsMapFacts.

(** ** The invariant, as a proposition and as a test *)

Lemma existsb_In {A : Type} (eqb : A -> A -> bool)
    (eqb_eq : forall x y, eqb x y = true <-> x = y) (x : A) (l : list A) :
  existsb (eqb x) l = true <-> In x l.
Proof.
  rewrite existsb_exists. split.
  - intros (y & Hin & E). apply eqb_eq in E. now subst.
  - intros Hin. exists x. split; [assumption | now apply eqb_eq].
Qed.

Lemma distinctb_NoDup {A : Type} (eqb : A -> A -> bool)
    (eqb_eq : forall x y, eqb x y = true <-> x = y) (l : list A) :
  distinctb eqb l = true <-> NoDup l.
Proof.
  induction l as [|x l IH]; simpl.
  - split; [constructor | reflexivity].
  - rewrite andb_true_iff, negb_true_iff, IH. split.
    + intros [Hx Hl]. constructor; [|assumption].
      intros Hin. apply (existsb_In eqb eqb_eq) in Hin. congruence.
    + intros H. inversion H as [|? ? Hx Hl]; subst. split; [|assumption].
      destruct (existsb (eqb x) l) eqn:E; [|reflexivity].
      apply (existsb_In eqb eqb_eq) in E. contradiction.
Qed.

Lemma pair_eqb_eq (p q : Z * Z) : pair_eqb p q = true <-> p = q.
Proof.
  destruct p as [a b], q as [c d]. unfold pair_eqb. simpl.
  rewrite andb_true_iff, !Z.eqb_eq. split.
  - intros [-> ->]. reflexivity.
  - intros [= -> ->]. tauto.
Qed.

Section TableFacts.
Context {V : Type} (id_of : V -> Z).
Implicit Types (m : JsMap.t V) (k c : Z) (v : V).

Lemma entry_okb_spec c (e : Z * V) :
  entry_okb id_of c e = true <-> Entry_ok id_of c e.
Proof.
  unfold entry_okb, Entry_ok.
  rewrite !andb_true_iff, Z.eqb_eq, Z.leb_le, Z.ltb_lt. tauto.
Qed.

Lemma table_okb_spec c m :
  table_okb id_of c m = true <-> Table_ok id_of c m.
Proof.
  unfold table_okb, Table_ok.
  rewrite !andb_true_iff, Z.leb_le, forallb_forall, Forall_forall.
  rewrite (distinctb_NoDup Z.eqb Z.eqb_eq).
  split.
  - intros [[H1 H2] H3]. split; [assumption|]. split; [|assumption].
    intros e He. apply entry_okb_spec. now apply H2.
  - intros (H1 & H2 & H3). split; [split|]; try assumption.
    intros e He. apply entry_okb_spec. now apply H2.
Qed.

Lemma Table_ok_entry c m k v :
  Table_ok id_of c m -> In (k, v) m -> id_of v = k /\ 1 <= k < c.
Proof.
  intros (_ & Hall & _) Hin.
  rewrite Forall_forall in Hall. exact (Hall _ Hin).
Qed.

Lemma Table_ok_get c m k v :
  Table_ok id_of c m -> JsMap.get m k = Some v -> id_of v = k /\ 1 <= k < c.
Proof. intros H Hg. eapply Table_ok_entry; eauto using get_In. Qed.

(** The counter is the key of no entry. *)
Lemma Table_ok_fresh c m k :
  Table_ok id_of c m -> c <= k -> JsMap.get m k = None.
Proof.
  intros H Hk. destruct (JsMap.get m k) as [v|] eqn:E; [|reflexivity].
  destruct (Table_ok_get _ _ _ _ H E). lia.
Qed.

(** A row of the table is found under its own id. *)
Lemma Table_ok_value c m v :
  Table_ok id_of c m -> In v (JsMap.values m) -> JsMap.get m (id_of v) = Some v.
Proof.
  intros H Hin. unfold JsMap.values in Hin.
  apply in_map_iff in Hin. destruct Hin as ([k v'] & E & Hin). simpl in E. subst v'.
  destruct (Table_ok_entry _ _ _ _ H Hin) as [-> _].
  apply In_get; [apply H | assumption].
Qed.

Lemma Table_ok_ids c m :
  Table_ok id_of c m -> map id_of (JsMap.values m) = JsMap.keys m.
Proof.
  intros (_ & Hall & _). unfold JsMap.values, JsMap.keys.
  rewrite map_map. apply map_ext_in. intros e He.
  rewrite Forall_forall in Hall. now destruct (Hall _ He).
Qed.

Lemma Table_ok_set_new c m v :
  Table_ok id_of c m -> id_of v = c ->
  Table_ok id_of (c + 1) (JsMap.set m c v).
Proof.
  intros H Hid. rewrite set_absent by (eapply Table_ok_fresh; eauto; lia).
  destruct H as (Hc & Hall & Hnd). repeat split.
  - lia.
  - apply Forall_app. split.
    + eapply Forall_impl; [|exact Hall].
      intros e [He1 He2]. split; [assumption | lia].
    + constructor; [|constructor]. split; simpl; [assumption | lia].
  - rewrite keys_app. simpl.
    apply NoDup_app; [assumption | constructor; [tauto | constructor] |].
    intros k Hin [<-|[]].
    unfold JsMap.keys in Hin. apply in_map_iff in Hin.
    destruct Hin as (e & <- & Hin).
    rewrite Forall_forall in Hall. destruct (Hall _ Hin). lia.
Qed.

Lemma Table_ok_set_old c m k v0 v :
  Table_ok id_of c m -> JsMap.get m k = Some v0 -> id_of v = k ->
  Table_ok id_of c (JsMap.set m k v).
Proof.
  intros H Hg Hid.
  destruct (Table_ok_get _ _ _ _ H Hg) as [_ Hk].
  destruct (get_split _ _ _ Hg) as (m1 & m2 & -> & Hn).
  rewrite set_at by assumption.
  destruct H as (Hc & Hall & Hnd). repeat split; try assumption.
  - apply Forall_app in Hall. destruct Hall as [H1 H2].
    inversion H2; subst.
    apply Forall_app. split; [assumption|].
    constructor; [|assumption]. split; simpl; [reflexivity | assumption].
  - rewrite keys_app in *. exact Hnd.
Qed.

Lemma Table_ok_remove c m k :
  Table_ok id_of c m -> Table_ok id_of c (JsMap.remove m k).
Proof.
  intros H. destruct (JsMap.get m k) as [v|] eqn:Hg.
  - destruct (get_split _ _ _ Hg) as (m1 & m2 & -> & Hn).
    rewrite (remove_at m1 m2 k v) by assumption.
    destruct H as (Hc & Hall & Hnd). repeat split; try assumption.
    + apply Forall_app in Hall. destruct Hall as [H1 H2].
      inversion H2; subst. apply Forall_app. now split.
    + rewrite keys_app in *. simpl in Hnd.
      now apply NoDup_remove_1 in Hnd.
  - now rewrite remove_absent.
Qed.

End TableFacts.

Lemma wf_spec (this : MemStorage) : wf this = true <-> WF this.
Proof.
  unfold wf, WF, Cart_ok.
  rewrite !andb_true_iff, !table_okb_spec.
  rewrite (distinctb_NoDup pair_eqb pair_eqb_eq). tauto.
Qed.

Lemma pairs_app (m1 m2 : JsMap.t CartItem.t) :
  pairs (m1 ++ m2) = pairs m1 ++ pairs m2.
Proof. unfold pairs. now rewrite values_app, map_app. Qed.

Lemma pairs_remove (m : JsMap.t CartItem.t) (k : Z) :
  NoDup (pairs m) -> NoDup (pairs (JsMap.remove m k)).
Proof.
  intros H. destruct (JsMap.get m k) as [v|] eqn:Hg.
  - destruct (get_split _ _ _ Hg) as (m1 & m2 & -> & Hn).
    rewrite (remove_at m1 m2 k v) by assumption.
    rewrite pairs_app in *. simpl in H. now apply NoDup_remove_1 in H.
  - now rewrite remove_absent.
Qed.

(** ** Every method keeps the invariant *)

Lemma createUser_WF this u : WF this -> WF (snd (createUser this u)).
Proof.
  intros (Hu & Hm & Ho & Hc). unfold createUser, WF, Cart_ok; simpl.
  split; [|split; [assumption | split; assumption]].
  apply (Table_ok_set_new User.id); [assumption | reflexivity].
Qed.

Lemma createMenuItem_WF this now i : WF this -> WF (snd (createMenuItem this now i)).
Proof.
  intros (Hu & Hm & Ho & Hc). unfold createMenuItem, WF, Cart_ok; simpl.
  split; [assumption|]. split; [|split; assumption].
  apply (Table_ok_set_new MenuItem.id); [assumption | reflexivity].
Qed.

Lemma updateMenuItem_WF this id i : WF this -> WF (snd (updateMenuItem this id i)).
Proof.
  intros (Hu & Hm & Ho & Hc). unfold updateMenuItem.
  destruct (JsMap.get (menuItems this) id) as [old|] eqn:Hg; simpl.
  - unfold WF, Cart_ok; simpl.
    split; [assumption|]. split; [|split; assumption].
    eapply (Table_ok_set_old MenuItem.id); eauto. simpl.
    now destruct (Table_ok_get _ _ _ _ _ Hm Hg).
  - unfold WF. tauto.
Qed.

Lemma deleteMenuItem_WF this id : WF this -> WF (snd (deleteMenuItem this id)).
Proof.
  intros (Hu & Hm & Ho & Hc). unfold deleteMenuItem, JsMap.delete, WF, Cart_ok; simpl.
  split; [assumption|]. split; [|split; assumption].
  now apply Table_ok_remove.
Qed.

Lemma createOrder_WF this now o : WF this -> WF (snd (createOrder this now o)).
Proof.
  intros (Hu & Hm & Ho & Hc). unfold createOrder, WF, Cart_ok; simpl.
  split; [assumption|]. split; [assumption|]. split; [|assumption].
  apply (Table_ok_set_new Order.id); [assumption | reflexivity].
Qed.

Lemma updateOrderStatus_WF this id st : WF this -> WF (snd (updateOrderStatus this id st)).
Proof.
  intros (Hu & Hm & Ho & Hc). unfold updateOrderStatus.
  destruct (JsMap.get (orders this) id) as [old|] eqn:Hg; simpl.
  - unfold WF, Cart_ok; simpl.
    split; [assumption|]. split; [assumption|]. split; [|assumption].
    eapply (Table_ok_set_old Order.id); eauto. simpl.
    now destruct (Table_ok_get _ _ _ _ _ Ho Hg).
  - unfold WF. tauto.
Qed.

(** ** The cart methods *)

Lemma find_filter {A : Type} (p : A -> bool) (l : list A) :
  find p l = hd_error (filter p l).
Proof.
  induction l as [|x l IH]; simpl; [reflexivity|].
  destruct (p x); [reflexivity | assumption].
Qed.

Lemma filter_none {A : Type} (p : A -> bool) (l : list A) :
  (forall x, In x l -> p x = false) -> filter p l = [].
Proof.
  induction l as [|x l IH]; simpl; intros H; [reflexivity|].
  rewrite (H x) by now left. apply IH. intros y Hy. apply H. now right.
Qed.

Lemma filter_and {A : Type} (p q : A -> bool) (l : list A) :
  filter p (filter q l) = filter (fun x => q x && p x) l.
Proof.
  induction l as [|x l IH]; simpl; [reflexivity|].
  destruct (q x); simpl; [destruct (p x)|]; now rewrite IH.
Qed.

Lemma values_filter {V : Type} (p : V -> bool) (m : JsMap.t V) :
  JsMap.values (filter (fun e => p (snd e)) m) = filter p (JsMap.values m).
Proof.
  induction m as [|[k v] m IH]; simpl; [reflexivity|].
  destruct (p v); simpl; now rewrite IH.
Qed.

Lemma keys_filter_NoDup {V : Type} (p : Z * V -> bool) (m : JsMap.t V) :
  NoDup (JsMap.keys m) -> NoDup (JsMap.keys (filter p m)).
Proof.
  induction m as [|e m IH]; simpl; intros H; [constructor|].
  inversion H as [|? ? Hn Hnd]; subst.
  destruct (p e); simpl; [|now apply IH].
  constructor; [|now apply IH].
  intros Hin. apply Hn. unfold JsMap.keys in *.
  apply in_map_iff in Hin. destruct Hin as (e' & E & Hin).
  apply filter_In in Hin. rewrite <- E. apply in_map. tauto.
Qed.

(** With one line per pair, the lines for the pair of a line are that
    line alone. *)
Lemma lines_at (m1 m2 : JsMap.t CartItem.t) (k : Z) (e : CartItem.t) (p : Z * Z) :
  NoDup (pairs (m1 ++ (k, e) :: m2)) -> pair_of e = p ->
  filter (fun item => pair_eqb (pair_of item) p)
         (JsMap.values (m1 ++ (k, e) :: m2)) = [e].
Proof.
  intros Hnd He. rewrite pairs_app in Hnd.
  change (pairs ((k, e) :: m2)) with (pair_of e :: pairs m2) in Hnd.
  pose proof (NoDup_remove_2 _ _ _ Hnd) as Hout.
  rewrite values_app, filter_app. simpl.
  assert (Hp : pair_eqb (pair_of e) p = true) by now apply pair_eqb_eq.
  rewrite Hp.
  rewrite !filter_none; [reflexivity | |].
  - intros x Hx. destruct (pair_eqb (pair_of x) p) eqn:E; [|reflexivity].
    apply pair_eqb_eq in E. exfalso. apply Hout. apply in_or_app. right.
    unfold pairs. rewrite He, <- E. now apply in_map.
  - intros x Hx. destruct (pair_eqb (pair_of x) p) eqn:E; [|reflexivity].
    apply pair_eqb_eq in E. exfalso. apply Hout. apply in_or_app. left.
    unfold pairs. rewrite He, <- E. now apply in_map.
Qed.

Lemma updateCartItemQuantity_miss this id userId quantity :
  owner this id <> Some userId ->
  updateCartItemQuantity this id userId quantity = (None, this).
Proof.
  unfold owner, updateCartItemQuantity.
  destruct (JsMap.get (cartItems this) id) as [c|]; simpl; [|reflexivity].
  destruct (Z.eqb_spec (CartItem.userId c) userId) as [->|]; simpl;
    [intros H; now elim H | reflexivity].
Qed.

Lemma updateCartItemQuantity_hit this id quantity (c : CartItem.t) :
  JsMap.get (cartItems this) id = Some c ->
  updateCartItemQuantity this id (CartItem.userId c) quantity =
  (Some (with_quantity c quantity),
   with_cartItems this (JsMap.set (cartItems this) id (with_quantity c quantity))
                  (cartItemIdCounter this)).
Proof.
  intros Hg. unfold updateCartItemQuantity. now rewrite Hg, Z.eqb_refl.
Qed.

Lemma removeFromCart_miss this id userId :
  owner this id <> Some userId -> removeFromCart this id userId = (false, this).
Proof.
  unfold owner, removeFromCart.
  destruct (JsMap.get (cartItems this) id) as [c|]; simpl; [|reflexivity].
  destruct (Z.eqb_spec (CartItem.userId c) userId) as [->|]; simpl;
    [intros H; now elim H | reflexivity].
Qed.

Lemma updateCartItemQuantity_Cart_ok this id userId quantity :
  Cart_ok this -> Cart_ok (snd (updateCartItemQuantity this id userId quantity)).
Proof.
  intros [Ht Hp]. unfold updateCartItemQuantity.
  destruct (JsMap.get (cartItems this) id) as [c|] eqn:Hg; [|now split].
  destruct (negb (CartItem.userId c =? userId)); [now split|].
  unfold Cart_ok; simpl.
  destruct (Table_ok_get _ _ _ _ _ Ht Hg) as [Hid _].
  split; [eapply (Table_ok_set_old CartItem.id); eauto|].
  destruct (get_split _ _ _ Hg) as (m1 & m2 & E & Hn).
  rewrite E in *. rewrite set_at by assumption.
  rewrite pairs_app in *. exact Hp.
Qed.

Lemma removeFromCart_Cart_ok this id userId :
  Cart_ok this -> Cart_ok (snd (removeFromCart this id userId)).
Proof.
  intros [Ht Hp]. unfold removeFromCart.
  destruct (JsMap.get (cartItems this) id) as [c|] eqn:Hg; [|now split].
  destruct (negb (CartItem.userId c =? userId)); [now split|].
  unfold Cart_ok, JsMap.delete; simpl.
  split; [now apply Table_ok_remove | now apply pairs_remove].
Qed.

(** [addToCart] looks for the line of the pair. *)
Lemma addToCart_find this userId menuItemId quantity :
  addToCart this (InsertCartItem.mk userId menuItemId quantity) =
  match hd_error (lines_for this userId menuItemId) with
  | Some existing =>
      updateCartItemQuantity this (CartItem.id existing) userId
        (CartItem.quantity existing + quantity_or_1 quantity)%float
  | None =>
      let id := cartItemIdCounter this in
      let cartItem :=
        CartItem.mk id userId menuItemId (quantity_or_1 quantity) JNull None in
      (Some cartItem,
       with_cartItems this (JsMap.set (cartItems this) id cartItem) (id + 1))
  end.
Proof. unfold addToCart. rewrite find_filter. reflexivity. Qed.

(** No line for the pair: a line is appended under the counter's value. *)
Lemma addToCart_fresh this userId menuItemId quantity :
  Cart_ok this -> lines_for this userId menuItemId = [] ->
  let id := cartItemIdCounter this in
  let line := CartItem.mk id userId menuItemId (quantity_or_1 quantity) JNull None in
  addToCart this (InsertCartItem.mk userId menuItemId quantity) =
  (Some line, with_cartItems this (cartItems this ++ [(id, line)]) (id + 1)).
Proof.
  intros [Ht _] Hnil. rewrite addToCart_find, Hnil. simpl.
  rewrite set_absent; [reflexivity|].
  eapply Table_ok_fresh; [exact Ht | lia].
Qed.

(** A line for the pair: it is the only one, and its quantity grows in place. *)
Lemma addToCart_merge this userId menuItemId quantity existing rest :
  Cart_ok this -> lines_for this userId menuItemId = existing :: rest ->
  let line := with_quantity existing
                (CartItem.quantity existing + quantity_or_1 quantity)%float in
  rest = [] /\
  exists m1 m2,
    cartItems this = m1 ++ (CartItem.id existing, existing) :: m2 /\
    addToCart this (InsertCartItem.mk userId menuItemId quantity) =
    (Some line,
     with_cartItems this (m1 ++ (CartItem.id existing, line) :: m2)
                    (cartItemIdCounter this)).
Proof.
  intros [Ht Hp] Hl line.
  assert (Hin : In existing (lines_for this userId menuItemId))
    by (rewrite Hl; now left).
  apply filter_In in Hin. destruct Hin as [Hin Hpair].
  apply pair_eqb_eq in Hpair.
  pose proof (Table_ok_value _ _ _ _ Ht Hin) as Hg.
  destruct (get_split _ _ _ Hg) as (m1 & m2 & E & Hn).
  assert (Hone : lines_for this userId menuItemId = [existing]).
  { unfold lines_for. rewrite E. apply lines_at; [now rewrite <- E | assumption]. }
  split; [rewrite Hl in Hone; now injection Hone|].
  exists m1, m2. split; [assumption|].
  rewrite addToCart_find, Hl. simpl.
  assert (Hu : userId = CartItem.userId existing)
    by (unfold pair_of in Hpair; congruence).
  rewrite Hu, (updateCartItemQuantity_hit _ _ _ _ Hg).
  rewrite E, set_at by assumption. reflexivity.
Qed.

Lemma addToCart_Cart_ok this c : Cart_ok this -> Cart_ok (snd (addToCart this c)).
Proof.
  intros H. destruct c as [u mi q]. rewrite addToCart_find.
  destruct (lines_for this u mi) as [|e rest] eqn:Hl; simpl.
  - destruct H as [Ht Hp]. unfold Cart_ok; simpl. split.
    + apply (Table_ok_set_new CartItem.id); [assumption | reflexivity].
    + rewrite set_absent by (eapply Table_ok_fresh; [exact Ht | lia]).
      rewrite pairs_app. simpl.
      apply NoDup_app; [assumption | constructor; [tauto | constructor] |].
      intros p Hin [<-|[]].
      unfold pairs in Hin. apply in_map_iff in Hin.
      destruct Hin as (x & Hx & Hin).
      assert (Hf : In x (lines_for this u mi)).
      { apply filter_In. split; [assumption|]. now apply pair_eqb_eq. }
      rewrite Hl in Hf. destruct Hf.
  - now apply updateCartItemQuantity_Cart_ok.
Qed.

(** One call of [addToCart]: afterwards the pair has exactly one line,
    the one returned, holding what the cart held before for the pair
    plus the quantity asked for. *)
Lemma addToCart_line this userId menuItemId quantity :
  Cart_ok this ->
  exists line,
    let r := addToCart this (InsertCartItem.mk userId menuItemId quantity) in
    fst r = Some line
    /\ lines_for (snd r) userId menuItemId = [line]
    /\ CartItem.quantity line =
       match quantity_for this userId menuItemId with
       | Some held => (held + quantity_or_1 quantity)%float
       | None => quantity_or_1 quantity
       end.
Proof.
  intros H. unfold quantity_for.
  destruct (lines_for this userId menuItemId) as [|e rest] eqn:Hl.
  - eexists. rewrite (addToCart_fresh _ _ _ _ H Hl). simpl.
    split; [reflexivity|]. split; [|reflexivity].
    unfold lines_for. simpl. rewrite values_app, filter_app.
    fold (lines_for this userId menuItemId). rewrite Hl. simpl.
    unfold pair_eqb. simpl. now rewrite !Z.eqb_refl.
  - destruct (addToCart_merge _ _ _ quantity _ _ H Hl) as (-> & m1 & m2 & E & ->).
    eexists. simpl. split; [reflexivity|]. split; [|reflexivity].
    unfold lines_for. simpl. apply lines_at.
    + destruct H as [_ Hp]. rewrite E, pairs_app in Hp. now rewrite pairs_app.
    + assert (Hin : In e (lines_for this userId menuItemId))
        by (rewrite Hl; now left).
      apply filter_In in Hin. destruct Hin as [_ Hpair].
      now apply pair_eqb_eq in Hpair.
Qed.

(** *** [clearCart] *)

(** The loop of [clearCart] touches the cart table alone. *)
Lemma clearCart_loop (items : list CartItem.t) (this : MemStorage) :
  fold_left
    (fun (st : MemStorage) (item : CartItem.t) =>
       with_cartItems st (snd (JsMap.delete (cartItems st) (CartItem.id item)))
                      (cartItemIdCounter st))
    items this =
  with_cartItems this
    (fold_left (fun m item => JsMap.remove m (CartItem.id item)) items (cartItems this))
    (cartItemIdCounter this).
Proof.
  revert this. induction items as [|item items IH]; intros this; simpl.
  - now destruct this.
  - rewrite IH. reflexivity.
Qed.

(** Deleting the ids of [items] one by one leaves the entries filed
    under none of them. *)
Lemma remove_all {V : Type} (ids : list Z) (m : JsMap.t V) :
  NoDup (JsMap.keys m) ->
  fold_left (fun m id => JsMap.remove m id) ids m =
  filter (fun e => negb (existsb (Z.eqb (fst e)) ids)) m.
Proof.
  revert m. induction ids as [|id ids IH]; intros m Hnd; simpl.
  - symmetry. apply forallb_filter_id. now apply forallb_forall.
  - rewrite remove_filter by assumption.
    rewrite IH by now apply keys_filter_NoDup.
    rewrite filter_and. apply filter_ext. intros [k v]. simpl.
    now rewrite negb_orb.
Qed.

Lemma fold_left_map {A B C : Type} (f : A -> C -> A) (g : B -> C) (l : list B) (a : A) :
  fold_left (fun x b => f x (g b)) l a = fold_left f (map g l) a.
Proof. revert a. induction l as [|b l IH]; intros a; simpl; [reflexivity | apply IH]. Qed.

(** The cart table after [clearCart]: the entries of the other users,
    in their order. *)
Lemma clearCart_cartItems this userId :
  Table_ok CartItem.id (cartItemIdCounter this) (cartItems this) ->
  snd (clearCart this userId) =
  with_cartItems this
    (filter (fun e => negb (CartItem.userId (snd e) =? userId)) (cartItems this))
    (cartItemIdCounter this).
Proof.
  intros Ht. unfold clearCart. simpl. rewrite clearCart_loop. f_equal.
  rewrite (fold_left_map (fun m id => JsMap.remove m id) CartItem.id).
  rewrite remove_all by apply Ht.
  apply filter_ext_in. intros [k v] Hin. simpl. f_equal.
  destruct (Table_ok_entry _ _ _ _ _ Ht Hin) as [Hid _].
  destruct (Z.eqb_spec (CartItem.userId v) userId) as [Hu|Hu].
  - apply existsb_exists. exists k. split; [|apply Z.eqb_refl].
    apply in_map_iff. exists v. split; [assumption|].
    unfold getCartItems. apply filter_In. split.
    + unfold JsMap.values. change v with (snd (k, v)). now apply in_map.
    + now apply Z.eqb_eq.
  - destruct (existsb (Z.eqb k) (map CartItem.id (getCartItems this userId))) eqn:E;
      [|reflexivity].
    exfalso. apply existsb_exists in E. destruct E as (k' & Hk' & E).
    apply Z.eqb_eq in E. subst k'.
    apply in_map_iff in Hk'. destruct Hk' as (v' & Hid' & Hv').
    unfold getCartItems in Hv'. apply filter_In in Hv'. destruct Hv' as [Hv' Hu'].
    apply Z.eqb_eq in Hu'.
    pose proof (Table_ok_value _ _ _ _ Ht Hv') as Hg'.
    rewrite Hid' in Hg'.
    pose proof (In_get _ _ _ (proj2 (proj2 Ht)) Hin) as Hg.
    congruence.
Qed.

Lemma clearCart_Cart_ok this userId :
  Cart_ok this -> Cart_ok (snd (clearCart this userId)).
Proof.
  intros H. unfold clearCart. simpl.
  generalize (getCartItems this userId) as items. intros items.
  revert this H. induction items as [|item items IH]; intros this H; simpl.
  - assumption.
  - apply IH. destruct H as [Ht Hp]. unfold Cart_ok; simpl.
    split; [now apply Table_ok_remove | now apply pairs_remove].
Qed.

Lemma clearCart_frame this userId :
  let st := snd (clearCart this userId) in
  users st = users this /\ menuItems st = menuItems this /\ orders st = orders this
  /\ userIdCounter st = userIdCounter this
  /\ menuItemIdCounter st = menuItemIdCounter this
  /\ cartItemIdCounter st = cartItemIdCounter this
  /\ orderIdCounter st = orderIdCounter this.
Proof.
  unfold clearCart. simpl. rewrite clearCart_loop. simpl. tauto.
Qed.

Lemma clearCart_WF this userId : WF this -> WF (snd (clearCart this userId)).
Proof.
  intros (Hu & Hm & Ho & Hc).
  pose proof (clearCart_Cart_ok this userId Hc) as Hc'.
  destruct (clearCart_frame this userId) as (E1 & E2 & E3 & E4 & E5 & E6 & E7).
  unfold WF. rewrite E1, E2, E3, E4, E5, E7. tauto.
Qed.

(** ** The stores the interface reaches *)

Lemma exec_WF (c : call) (this : MemStorage) : WF this -> WF (exec c this).
Proof.
  intros H. destruct c; simpl.
  - now apply createUser_WF.
  - now apply createMenuItem_WF.
  - now apply updateMenuItem_WF.
  - now apply deleteMenuItem_WF.
  - destruct H as (Hu & Hm & Ho & Hc).
    pose proof (addToCart_Cart_ok this insertCartItem Hc) as Hc'.
    assert (F : users (snd (addToCart this insertCartItem)) = users this
                /\ menuItems (snd (addToCart this insertCartItem)) = menuItems this
                /\ orders (snd (addToCart this insertCartItem)) = orders this
                /\ userIdCounter (snd (addToCart this insertCartItem)) = userIdCounter this
                /\ menuItemIdCounter (snd (addToCart this insertCartItem)) = menuItemIdCounter this
                /\ orderIdCounter (snd (addToCart this insertCartItem)) = orderIdCounter this).
    { unfold addToCart, updateCartItemQuantity.
      repeat match goal with
             | |- context [match ?x with _ => _ end] => destruct x; simpl
             end; tauto. }
    destruct F as (E1 & E2 & E3 & E4 & E5 & E6).
    unfold WF. rewrite E1, E2, E3, E4, E5, E6. tauto.
  - destruct H as (Hu & Hm & Ho & Hc).
    pose proof (removeFromCart_Cart_ok this id userId Hc) as Hc'.
    unfold WF. revert Hc'. unfold removeFromCart, JsMap.delete.
    repeat match goal with
           | |- context [match ?x with _ => _ end] => destruct x; simpl
           end; tauto.
  - destruct H as (Hu & Hm & Ho & Hc).
    pose proof (updateCartItemQuantity_Cart_ok this id userId quantity Hc) as Hc'.
    unfold WF. revert Hc'. unfold updateCartItemQuantity.
    repeat match goal with
           | |- context [match ?x with _ => _ end] => destruct x; simpl
           end; tauto.
  - now apply clearCart_WF.
  - now apply createOrder_WF.
  - now apply updateOrderStatus_WF.
Qed.

Lemma run_WF (calls : list call) (this : MemStorage) : WF this -> WF (run calls this).
Proof.
  unfold run. revert this.
  induction calls as [|c calls IH]; intros this H; simpl;
    [assumption | apply IH; now apply exec_WF].
Qed.

(** The store after start-up: the admin and the eight menu items, of
    which the first alone got its dietary and nutritional data. *)
Example new_MemStorage_example :
  let s0 := new_MemStorage (fun _ => 0) in
  counters s0 = (2, 9, 1, 1)
  /\ JsMap.keys (users s0) = [1]
  /\ JsMap.keys (menuItems s0) = [1; 2; 3; 4; 5; 6; 7; 8]
  /\ map MenuItem.dietaryPreferences (getAllMenuItems s0) =
     [JArr [JStr "vegetarian"]; JNull; JNull; JNull; JNull; JNull; JNull; JNull]
  /\ cartItems s0 = [] /\ orders s0 = [].
Proof. intros s0. evaluate. Qed.

Lemma new_MemStorage_wf (clock : nat -> Date) : wf (new_MemStorage clock) = true.
Proof. reflexivity. Qed.

(** Every store that calls of the interface reach from the constructed
    one satisfies the invariant. *)
Lemma reachable_wf (clock : nat -> Date) (calls : list call) :
  wf (run calls (new_MemStorage clock)) = true.
Proof. apply wf_spec, run_WF, wf_spec, new_MemStorage_wf. Qed.

(** ** Adding to the cart *)

Example addToCart_twice_example :
  let s0 := new_MemStorage (fun _ => 0) in
  let s1 := snd (addToCart s0 (InsertCartItem.mk 1 2 (Some 2%float))) in
  let s2 := snd (addToCart s1 (InsertCartItem.mk 1 2 (Some 3%float))) in
  JsMap.values (cartItems s1) = [CartItem.mk 1 1 2 2%float JNull None]
  /\ JsMap.values (cartItems s2) = [CartItem.mk 1 1 2 5%float JNull None]
  /\ cartItemIdCounter s2 = 2.
Proof. intros s0 s1 s2. evaluate. Qed.

Lemma lines_for_quantity this userId menuItemId line :
  lines_for this userId menuItemId = [line] ->
  quantity_for this userId menuItemId = Some (CartItem.quantity line).
Proof. unfold quantity_for. now intros ->. Qed.

(** A number of at least 1 is neither NaN nor 0. *)
Lemma at_least_1 (q : number) : (1 <=? q)%float = true -> falsy_number q = false.
Proof.
  unfold falsy_number, is_nan, is_zero. rewrite leb_spec, !eqb_spec.
  change (Prim2SF 1%float) with (S754_finite false 4503599627370496 (-52)).
  change (Prim2SF zero) with (S754_zero false).
  destruct (Prim2SF q) as [s|s| |s m e]; try discriminate.
  - now destruct s.
  - intros _. unfold SFeqb, SFcompare.
    rewrite Z.compare_refl, Pos.compare_cont_refl. now destruct s.
Qed.

Lemma quantity_or_1_positive (q : number) :
  (1 <=? q)%float = true -> quantity_or_1 (Some q) = q.
Proof. intros H. unfold quantity_or_1. now rewrite (at_least_1 q H). Qed.

(** The integer that a number of at least 1 holds is positive. *)
Lemma at_least_1_int (q : number) (a : Z) :
  (1 <=? q)%float = true -> float_to_Z q = Some a -> 1 <= a.
Proof.
  rewrite leb_spec. unfold float_to_Z.
  change (Prim2SF 1%float) with (S754_finite false 4503599627370496 (-52)).
  destruct (Prim2SF q) as [s|s| |s m e]; try discriminate.
  destruct s; [discriminate|]. intros _.
  destruct (Z.leb_spec 0 e) as [H0|H0].
  - intros [= <-]. assert (0 < 2 ^ e) by (apply Z.pow_pos_nonneg; lia).
    apply (Z.mul_le_mono_nonneg 1 (Z.pos m) 1 (2 ^ e)); lia.
  - destruct (Z.eqb_spec (Z.pos m mod 2 ^ (- e)) 0) as [Hmod|]; [|discriminate].
    intros [= <-].
    assert (Hp : 0 < 2 ^ (- e)) by (apply Z.pow_pos_nonneg; lia).
    apply Z.mod_divide in Hmod; [|lia]. destruct Hmod as [k Hk].
    rewrite Hk, Z.div_mul by lia.
    assert (0 < k * 2 ^ (- e)) by lia.
    destruct (Z_le_gt_dec 1 k) as [|Hk0]; [assumption|]. exfalso.
    assert (k * 2 ^ (- e) <= 0) by (apply Z.mul_nonpos_nonneg; lia). lia.
Qed.

(** C1, as amended.  For every user U and menu item M, two calls of
    add-to-cart for (U, M) with quantities q1 and q2, both at least 1,
    leave exactly one cart line for (U, M).  Its quantity is the sum, as
    JavaScript adds numbers, of what the cart held for the pair before
    the two calls, of q1 and of q2, hence of q1 and q2 when the cart had
    no line for the pair.  That sum is the exact one whenever the
    quantities are integers and the exact sum is at most 2^53.  The
    second call creates no line: the keys of the cart table and the
    cart counter stay as the first call left them.  The store is one
    that satisfies the invariant [wf], as every store reached from the
    constructor does. *)
Theorem addToCart_twice_merges (this : MemStorage) (U M : Z) (q1 q2 : number) :
  wf this = true -> (1 <=? q1)%float = true -> (1 <=? q2)%float = true ->
  let r1 := addToCart this (InsertCartItem.mk U M (Some q1)) in
  let r2 := addToCart (snd r1) (InsertCartItem.mk U M (Some q2)) in
  exists line,
    fst r2 = Some line
    /\ lines_for (snd r2) U M = [line]
    /\ CartItem.quantity line =
       match quantity_for this U M with
       | Some held => (held + q1 + q2)%float
       | None => (q1 + q2)%float
       end
    /\ (forall a b : Z,
          lines_for this U M = [] ->
          float_to_Z q1 = Some a -> float_to_Z q2 = Some b ->
          a + b <= 2 ^ 53 ->
          float_to_Z (CartItem.quantity line) = Some (a + b))
    /\ (forall (held : number) (c a b : Z),
          quantity_for this U M = Some held ->
          float_to_Z held = Some c -> 0 <= c ->
          float_to_Z q1 = Some a -> float_to_Z q2 = Some b ->
          c + a + b <= 2 ^ 53 ->
          float_to_Z (CartItem.quantity line) = Some (c + a + b))
    /\ JsMap.keys (cartItems (snd r2)) = JsMap.keys (cartItems (snd r1))
    /\ cartItemIdCounter (snd r2) = cartItemIdCounter (snd r1).
Proof.
  intros Hwf Hq1 Hq2 r1 r2.
  apply wf_spec in Hwf. destruct Hwf as (_ & _ & _ & Hc).
  destruct (addToCart_line this U M (Some q1) Hc) as (l1 & _ & Hl1 & Hn1).
  fold r1 in Hl1.
  assert (Hc1 : Cart_ok (snd r1)) by now apply addToCart_Cart_ok.
  destruct (addToCart_merge (snd r1) U M (Some q2) l1 [] Hc1 Hl1)
    as (_ & m1 & m2 & E & Hr2).
  fold r2 in Hr2.
  destruct (addToCart_line (snd r1) U M (Some q2) Hc1) as (l2 & Hf2 & Hl2 & Hn2).
  fold r2 in Hf2, Hl2.
  rewrite (lines_for_quantity _ _ _ _ Hl1), Hn1 in Hn2.
  rewrite !quantity_or_1_positive in Hn2 by assumption.
  assert (Hsum : CartItem.quantity l2 =
                 match quantity_for this U M with
                 | Some held => (held + q1 + q2)%float
                 | None => (q1 + q2)%float
                 end)
    by (rewrite Hn2; now destruct (quantity_for this U M)).
  exists l2. split; [assumption|]. split; [assumption|].
  split; [exact Hsum|]. split; [|split].
  - intros a b Hnil Ha Hb Hab. unfold quantity_for in Hsum.
    rewrite Hnil in Hsum. rewrite Hsum.
    pose proof (at_least_1_int q1 a Hq1 Ha).
    pose proof (at_least_1_int q2 b Hq2 Hb).
    apply add_exact; try assumption; lia.
  - intros held c a b Hheld Hc0 Hc' Ha Hb Hab. rewrite Hsum, Hheld.
    pose proof (at_least_1_int q1 a Hq1 Ha).
    pose proof (at_least_1_int q2 b Hq2 Hb).
    apply add_exact; try assumption; try lia.
    apply add_exact; try assumption; lia.
  - rewrite Hr2, E. simpl. now rewrite !keys_app.
Qed.

Lemma addToCart_twice_merges_witness :
  let s0 := new_MemStorage (fun _ => 0) in
  let r1 := addToCart s0 (InsertCartItem.mk 1 2 (Some 2%float)) in
  let r2 := addToCart (snd r1) (InsertCartItem.mk 1 2 (Some 3%float)) in
  wf s0 = true /\
  exists line,
    fst r2 = Some line
    /\ lines_for (snd r2) 1 2 = [line]
    /\ CartItem.quantity line = (2 + 3)%float
    /\ float_to_Z (CartItem.quantity line) = Some 5
    /\ JsMap.keys (cartItems (snd r2)) = JsMap.keys (cartItems (snd r1))
    /\ cartItemIdCounter (snd r2) = cartItemIdCounter (snd r1).
Proof.
  intros s0 r1 r2. split; [reflexivity|].
  destruct (addToCart_twice_merges s0 1 2 2%float 3%float)
    as (line & Hf & Hl & Hq & Hint & _ & Hk & Hn);
    [reflexivity | reflexivity | reflexivity |].
  exists line. split; [exact Hf|]. split; [exact Hl|].
  split; [etransitivity; [exact Hq | vm_compute; reflexivity]|].
  split; [|split; assumption].
  apply (Hint 2 3); [reflexivity | reflexivity | reflexivity | vm_compute; discriminate].
Defined.

(** C1 as it was stated fails where the exact sum is no number.  On
    the constructed store, which has no cart line, adding 2^53 and then
    1 of an item leaves one line for the pair, and it holds 2^53, not
    2^53 + 1.  Through the routes: once [PUT /api/cart/:id] has set a
    line to 2^53, [POST /api/cart] with quantity 1 is answered 201 and
    the line still holds 2^53. *)
Lemma addToCart_twice_beyond_2_53 :
  let s0 := new_MemStorage (fun _ => 0) in
  let admin := Session.mk true (getUser s0 1) in
  let q1 := 9007199254740992%float in
  let q2 := 1%float in
  let r1 := addToCart s0 (InsertCartItem.mk 1 2 (Some q1)) in
  let r2 := addToCart (snd r1) (InsertCartItem.mk 1 2 (Some q2)) in
  let add := PostCart admin (CartBody.mk Missing (Given 2) (Given q2)) in
  let st := serve [add; PutCart admin (Some 1) (Given q1); add] s0 in
  (1 <=? q1)%float = true /\ (1 <=? q2)%float = true
  /\ float_to_Z q1 = Some (2 ^ 53) /\ float_to_Z q2 = Some 1
  /\ lines_for s0 1 2 = []
  /\ ~ (exists line,
          lines_for (snd r2) 1 2 = [line]
          /\ float_to_Z (CartItem.quantity line) = Some (2 ^ 53 + 1))
  /\ map (fun line => float_to_Z (CartItem.quantity line)) (lines_for (snd r2) 1 2)
     = [Some (2 ^ 53)]
  /\ status_of add (serve [add; PutCart admin (Some 1) (Given q1)] s0) = 201
  /\ map (fun line => float_to_Z (CartItem.quantity line)) (lines_for st 1 2)
     = [Some (2 ^ 53)].
Proof.
  intros s0 admin q1 q2 r1 r2 add st.
  assert (Hl : map (fun line => float_to_Z (CartItem.quantity line))
                   (lines_for (snd r2) 1 2) = [Some (2 ^ 53)])
    by (vm_compute; reflexivity).
  do 5 (split; [vm_compute; reflexivity|]).
  split.
  - intros (line & E & Hq). rewrite E in Hl. simpl in Hl. rewrite Hq in Hl.
    discriminate.
  - split; [exact Hl|]. split; vm_compute; reflexivity.
Qed.

(** ** Creating an order *)

Lemma get_set_same {V : Type} (m : JsMap.t V) (k : Z) (v : V) :
  JsMap.get (JsMap.set m k v) k = Some v.
Proof.
  induction m as [|[k' v'] m IH]; simpl.
  - now rewrite Z.eqb_refl.
  - destruct (Z.eqb_spec k' k) as [->|Hne]; simpl.
    + now rewrite Z.eqb_refl.
    + destruct (Z.eqb_spec k' k); [contradiction | assumption].
Qed.

Lemma authenticated_user {A : Type} (req : Session.t) (this : A)
    (next : User.t -> Response.t * A) (user : User.t) :
  ensureUser req = Some user -> authenticated req this next = next user.
Proof.
  unfold authenticated. intros H. rewrite H.
  unfold ensureUser in H. destruct (Session.isAuthenticated req);
    [reflexivity | discriminate].
Qed.

Lemma post_orders_ok (req : Session.t) (now : Date) (body : OrderBody.t)
    (this : MemStorage) (user : User.t) (o : InsertOrder.t) :
  ensureUser req = Some user ->
  insertOrderSchema_parse body (User.id user) = Some o ->
  post_orders req now body this =
  (Response.mk 201 (OrderJson (fst (createOrder this now o))),
   snd (clearCart (snd (createOrder this now o)) (User.id user))).
Proof.
  intros Hu Ho. unfold post_orders.
  rewrite (authenticated_user _ _ _ _ Hu), Ho.
  destruct (createOrder this now o) as [order this1]. simpl.
  now destruct (clearCart this1 (User.id user)).
Qed.

Example post_orders_example :
  let s0 := new_MemStorage (fun _ => 0) in
  let req := Session.mk true (getUser s0 1) in
  let body := OrderBody.mk (Given 7) (Given (JArr [])) (Given 39.96%float)
                           (Given (Some "")) Missing (Some (JStr "delivered")) in
  fst (post_orders req 5 body s0) =
  Response.mk 201 (OrderJson (Order.mk 1 1 (JArr []) "pending" 39.96%float
                                       (Some 5) None None)).
Proof. reflexivity. Qed.

(** C2. [createOrder] always produces an order whose status is
    [pending], whatever the request body carries under [status]; the
    other fields of the created order are the request's: the user of
    the session, and the body's items, total, address and paymentId (an
    address or paymentId that is left out, null or empty is stored as
    null).  The order is stored under its id. *)
Theorem createOrder_status_pending (req : Session.t) (now : Date)
    (body : OrderBody.t) (this : MemStorage) (user : User.t)
    (items : json) (total : number) :
  ensureUser req = Some user ->
  OrderBody.items body = Given items ->
  OrderBody.total body = Given total ->
  OrderBody.address body <> Malformed ->
  OrderBody.paymentId body <> Malformed ->
  exists order this',
    post_orders req now body this = (Response.mk 201 (OrderJson order), this')
    /\ Order.status order = "pending"
    /\ Order.userId order = User.id user
    /\ Order.items order = items
    /\ Order.total order = total
    /\ Order.address order = stored_string (OrderBody.address body)
    /\ Order.paymentId order = stored_string (OrderBody.paymentId body)
    /\ getOrderById this' (Order.id order) = Some order
    /\ (forall status,
          post_orders req now (with_body_status body status) this =
          post_orders req now body this)
    /\ (forall o, Order.status (fst (createOrder this now o)) = "pending").
Proof.
  intros Hu Hi Ht Ha Hp.
  assert (Hparse : forall status,
            exists o, insertOrderSchema_parse (with_body_status body status)
                        (User.id user) = Some o
                      /\ insertOrderSchema_parse body (User.id user) = Some o
                      /\ InsertOrder.userId o = User.id user
                      /\ InsertOrder.items o = items
                      /\ InsertOrder.total o = total
                      /\ string_or_null (InsertOrder.address o) =
                         stored_string (OrderBody.address body)
                      /\ string_or_null (InsertOrder.paymentId o) =
                         stored_string (OrderBody.paymentId body)).
  { intros status. unfold insertOrderSchema_parse. simpl. rewrite Hi, Ht. simpl.
    destruct (OrderBody.address body) as [| |a]; [|contradiction|];
      destruct (OrderBody.paymentId body) as [| |p]; try contradiction;
      simpl; eexists; repeat split. }
  destruct (Hparse None) as (o & _ & Ho & Eu & Ei & Et & Ea & Ep).
  exists (fst (createOrder this now o)),
         (snd (clearCart (snd (createOrder this now o)) (User.id user))).
  split; [now apply post_orders_ok|].
  split; [reflexivity|]. split; [exact Eu|]. split; [exact Ei|].
  split; [exact Et|]. split; [exact Ea|]. split; [exact Ep|].
  split.
  - unfold getOrderById.
    destruct (clearCart_frame (snd (createOrder this now o)) (User.id user))
      as (_ & _ & -> & _).
    simpl. apply get_set_same.
  - split; [|reflexivity].
    intros status. destruct (Hparse status) as (o' & Ho' & Ho2 & _).
    rewrite Ho in Ho2. injection Ho2 as <-.
    now rewrite !(post_orders_ok _ _ _ _ _ o Hu).
Qed.

Lemma createOrder_status_pending_witness :
  let s0 := new_MemStorage (fun _ => 0) in
  let req := Session.mk true (getUser s0 1) in
  let body := OrderBody.mk (Given 7) (Given (JArr [])) (Given 39.96%float)
                           (Given (Some "12 Main St")) Missing
                           (Some (JStr "delivered")) in
  exists order this',
    post_orders req 5 body s0 = (Response.mk 201 (OrderJson order), this')
    /\ Order.status order = "pending"
    /\ Order.userId order = 1
    /\ Order.items order = JArr []
    /\ Order.total order = 39.96%float
    /\ Order.address order = Some "12 Main St"
    /\ Order.paymentId order = None
    /\ getOrderById this' (Order.id order) = Some order
    /\ (forall status,
          post_orders req 5 (with_body_status body status) s0 =
          post_orders req 5 body s0)
    /\ (forall o, Order.status (fst (createOrder s0 5 o)) = "pending").
Proof.
  intros s0 req body.
  refine (createOrder_status_pending req 5 body s0
            (User.mk 1 "admin" "admin_password" (Some "Admin User")
                     (Some "admin@quickbite.com") (Some true))
            (JArr []) 39.96%float eq_refl eq_refl eq_refl _ _);
    discriminate.
Defined.

(** ** Quantities below 1 on [POST /api/cart] *)

(** The handler answers 201 to every body with a menu item id and a
    quantity, whatever the quantity. *)
Lemma post_cart_any_quantity (req : Session.t) (this : MemStorage)
    (user : User.t) (menuItemId : Z) (quantity : number) (ignored : field Z) :
  ensureUser req = Some user ->
  Response.status
    (fst (post_cart req (CartBody.mk ignored (Given menuItemId) (Given quantity)) this))
  = 201.
Proof.
  intros Hu. unfold post_cart. rewrite (authenticated_user _ _ _ _ Hu).
  unfold insertCartItemSchema_parse. simpl.
  now destruct (addToCart this _).
Qed.

(** C3, evaluated on the code.  [POST /api/cart] with quantity -2 is
    answered 201 and files a line of quantity -2; with quantity 0 it is
    answered 201 and files a line of quantity 1; on a cart that holds 3
    of the item, quantity -2 is answered 201 and leaves 1.  The sibling
    route [PUT /api/cart/:id] answers 400 to each of these quantities,
    and changes nothing. *)
Theorem post_cart_quantity_below_1 :
  let s0 := new_MemStorage (fun _ => 0) in
  let req := Session.mk true (getUser s0 1) in
  let body q := CartBody.mk Missing (Given 1) (Given q) in
  let s3 := snd (post_cart req (body 3%float) s0) in
  post_cart req (body (-2)%float) s0 =
    (Response.mk 201 (CartItemJson (Some (CartItem.mk 1 1 1 (-2)%float JNull None))),
     with_cartItems s0 [(1, CartItem.mk 1 1 1 (-2)%float JNull None)] 2)
  /\ post_cart req (body 0%float) s0 =
    (Response.mk 201 (CartItemJson (Some (CartItem.mk 1 1 1 1%float JNull None))),
     with_cartItems s0 [(1, CartItem.mk 1 1 1 1%float JNull None)] 2)
  /\ post_cart req (body (-2)%float) s3 =
    (Response.mk 201 (CartItemJson (Some (CartItem.mk 1 1 1 1%float JNull None))),
     with_cartItems s0 [(1, CartItem.mk 1 1 1 1%float JNull None)] 2)
  /\ put_cart req (Some 1) (Given (-2)%float) s3 =
    (Response.mk 400 (Message "Quantity must be a positive number"), s3)
  /\ put_cart req (Some 1) (Given 0%float) s3 =
    (Response.mk 400 (Message "Quantity must be a positive number"), s3).
Proof. intros s0 req body s3. evaluate. Qed.

(** ** Order status *)

Lemma isAdmin_pass {A : Type} (req : Session.t) (this : A) (next : Response.t * A) :
  admin_session req = true -> isAdmin req this next = next.
Proof. unfold isAdmin. now intros ->. Qed.

Lemma includes_status_In (s : string) :
  In s OrderStatus -> includes_status (Some (JStr s)) = Some s.
Proof.
  unfold OrderStatus. simpl.
  intros [<-|[<-|[<-|[<-|[<-|[]]]]]]; reflexivity.
Qed.

(** C4. [updateOrderStatus] of an id under which no order is stored
    returns nothing and changes nothing, and [PATCH /api/orders/:id]
    answers 404.  When an order is stored under the id, any status of
    the enumeration is accepted whatever the status of the order: the
    order is returned and stored with the new status and its other
    fields as they were, and the route answers 200.  In particular a
    delivered order can be set back to pending. *)
Theorem updateOrderStatus_any_transition (this : MemStorage) (id : Z)
    (newStatus : string) (req : Session.t) :
  In newStatus OrderStatus ->
  admin_session req = true ->
  (getOrderById this id = None ->
     updateOrderStatus this id newStatus = (None, this)
     /\ patch_order req (Some id) (Some (JStr newStatus)) this =
        (Response.mk 404 (Message "Order not found"), this))
  /\ (forall order,
        getOrderById this id = Some order ->
        let updated := with_status order newStatus in
        let this' := snd (updateOrderStatus this id newStatus) in
        fst (updateOrderStatus this id newStatus) = Some updated
        /\ getOrderById this' id = Some updated
        /\ Order.status updated = newStatus
        /\ patch_order req (Some id) (Some (JStr newStatus)) this =
           (Response.mk 200 (OrderJson updated), this')).
Proof.
  intros Hin Hadmin. unfold patch_order, getOrderById.
  rewrite (isAdmin_pass _ _ _ Hadmin), (includes_status_In _ Hin).
  unfold updateOrderStatus. split.
  - intros ->. split; reflexivity.
  - intros order ->. simpl. repeat split. apply get_set_same.
Qed.

Lemma updateOrderStatus_any_transition_witness :
  let s0 := new_MemStorage (fun _ => 0) in
  let req := Session.mk true (getUser s0 1) in
  let s1 := run [CreateOrder 5 (InsertOrder.mk 1 (JArr []) 39.96%float None None);
                 UpdateOrderStatus 1 "delivered"] s0 in
  option_map Order.status (getOrderById s1 1) = Some "delivered"
  /\ option_map Order.status
       (getOrderById (snd (updateOrderStatus s1 1 "pending")) 1) = Some "pending"
  /\ Response.status (fst (patch_order req (Some 1) (Some (JStr "pending")) s1)) = 200
  /\ Response.status (fst (patch_order req (Some 2) (Some (JStr "pending")) s1)) = 404.
Proof.
  intros s0 req s1.
  assert (Hin : In "pending" OrderStatus) by (now left).
  assert (Hadmin : admin_session req = true) by reflexivity.
  destruct (updateOrderStatus_any_transition s1 1 "pending" req Hin Hadmin)
    as [_ Hhit].
  destruct (updateOrderStatus_any_transition s1 2 "pending" req Hin Hadmin)
    as [Hmiss _].
  specialize (Hhit (Order.mk 1 1 (JArr []) "delivered" 39.96%float (Some 5) None None)
                   eq_refl).
  destruct Hhit as (_ & Hg & _ & Hp). destruct (Hmiss eq_refl) as [_ Hm].
  split; [reflexivity|]. split; [now rewrite Hg|].
  split; [now rewrite Hp | now rewrite Hm].
Defined.

(** ** Cart lines of another user *)

(** C5. When no line is filed under an id, or the line filed under it
    belongs to another user, [removeFromCart] returns false and
    [updateCartItemQuantity] returns nothing, for every quantity, and
    each leaves the whole store as it was; the routes [DELETE
    /api/cart/:id] and [PUT /api/cart/:id] (for a quantity that is not
    below 1) answer 404 with the store as it was. *)
Theorem cart_line_of_another_user (this : MemStorage) (id userId : Z)
    (quantity : number) :
  owner this id <> Some userId ->
  removeFromCart this id userId = (false, this)
  /\ updateCartItemQuantity this id userId quantity = (None, this)
  /\ (forall req user,
        ensureUser req = Some user -> User.id user = userId ->
        delete_cart req (Some id) this =
          (Response.mk 404 (Message "Cart item not found"), this)
        /\ snd (put_cart req (Some id) (Given quantity) this) = this
        /\ ((quantity <? 1)%float = false ->
            put_cart req (Some id) (Given quantity) this =
              (Response.mk 404 (Message "Cart item not found"), this))).
Proof.
  intros Hown.
  pose proof (removeFromCart_miss this id userId Hown) as Hr.
  pose proof (updateCartItemQuantity_miss this id userId quantity Hown) as Hq.
  split; [assumption|]. split; [assumption|].
  intros req user Hu <-.
  unfold delete_cart, put_cart. rewrite !(authenticated_user _ _ _ _ Hu).
  rewrite Hr, Hq. simpl. split; [reflexivity|].
  destruct (quantity <? 1)%float; split; try reflexivity; discriminate.
Qed.

Lemma cart_line_of_another_user_witness :
  let s0 := new_MemStorage (fun _ => 0) in
  let s1 := run [AddToCart (InsertCartItem.mk 1 2 (Some 2%float))] s0 in
  owner s1 1 = Some 1
  /\ removeFromCart s1 1 7 = (false, s1)
  /\ updateCartItemQuantity s1 1 7 5%float = (None, s1)
  /\ removeFromCart s1 3 1 = (false, s1).
Proof.
  intros s0 s1. split; [reflexivity|].
  destruct (cart_line_of_another_user s1 1 7 5%float) as (H1 & H2 & _);
    [discriminate|].
  destruct (cart_line_of_another_user s1 3 1 5%float) as (H3 & _);
    [discriminate|].
  now rewrite H1, H2, H3.
Defined.

(** ** Clearing the cart *)

Lemma getCartItems_filtered this userId other :
  getCartItems
    (with_cartItems this
       (filter (fun e => negb (CartItem.userId (snd e) =? userId)) (cartItems this))
       (cartItemIdCounter this))
    other =
  filter (fun item => negb (CartItem.userId item =? userId))
         (getCartItems this other).
Proof.
  unfold getCartItems. simpl.
  rewrite (values_filter (fun item => negb (CartItem.userId item =? userId))).
  rewrite !filter_and. apply filter_ext. intros item. apply andb_comm.
Qed.

(** After [clearCart] the user's cart reads empty and every other
    user's cart reads as before. *)
Lemma clearCart_getCartItems this userId :
  Table_ok CartItem.id (cartItemIdCounter this) (cartItems this) ->
  getCartItems (snd (clearCart this userId)) userId = []
  /\ (forall other, other <> userId ->
        getCartItems (snd (clearCart this userId)) other = getCartItems this other).
Proof.
  intros Ht. rewrite (clearCart_cartItems this userId Ht). split.
  - rewrite getCartItems_filtered. apply filter_none.
    intros item Hin. unfold getCartItems in Hin. apply filter_In in Hin.
    destruct Hin as [_ ->]. reflexivity.
  - intros other Hne. rewrite getCartItems_filtered.
    apply forallb_filter_id. apply forallb_forall.
    intros item Hin. unfold getCartItems in Hin. apply filter_In in Hin.
    destruct Hin as [_ Hu]. apply Z.eqb_eq in Hu. rewrite Hu.
    destruct (Z.eqb_spec other userId); [contradiction | reflexivity].
Qed.

(** C10. [clearCart] of a user reports success and deletes exactly the
    cart lines of that user: the cart table keeps the entries of every
    other user, in their order, so each other user's cart reads as
    before and the user's own cart reads empty; users, menu items,
    orders and the four counters are unchanged.  On a cart that is
    already empty the call reports success too, and changes nothing. *)
Theorem clearCart_deletes_exactly (this : MemStorage) (userId : Z) :
  wf this = true ->
  let this' := snd (clearCart this userId) in
  fst (clearCart this userId) = true
  /\ cartItems this' =
     filter (fun e => negb (CartItem.userId (snd e) =? userId)) (cartItems this)
  /\ getCartItems this' userId = []
  /\ (forall other, other <> userId ->
        getCartItems this' other = getCartItems this other)
  /\ users this' = users this
  /\ menuItems this' = menuItems this
  /\ orders this' = orders this
  /\ counters this' = counters this
  /\ (getCartItems this userId = [] -> clearCart this userId = (true, this)).
Proof.
  intros Hwf this'. apply wf_spec in Hwf. destruct Hwf as (_ & _ & _ & Ht & _).
  pose proof (clearCart_cartItems this userId Ht) as E. fold this' in E.
  destruct (clearCart_frame this userId) as (E1 & E2 & E3 & E4 & E5 & E6 & E7).
  fold this' in E1, E2, E3, E4, E5, E6, E7.
  destruct (clearCart_getCartItems this userId Ht) as [Hown Hothers].
  fold this' in Hown, Hothers.
  split; [reflexivity|]. split; [now rewrite E|]. split; [|split].
  - exact Hown.
  - exact Hothers.
  - repeat (split; [assumption|]). split.
    + unfold counters. now rewrite E4, E5, E6, E7.
    + intros Hnil. unfold clearCart. now rewrite Hnil.
Qed.

Lemma clearCart_deletes_exactly_witness :
  let s0 := new_MemStorage (fun _ => 0) in
  let s1 := run [AddToCart (InsertCartItem.mk 1 2 (Some 2%float));
                 AddToCart (InsertCartItem.mk 7 2 (Some 1%float));
                 AddToCart (InsertCartItem.mk 1 3 None)] s0 in
  let s2 := snd (clearCart s1 1) in
  map CartItem.id (getCartItems s1 1) = [1; 3]
  /\ getCartItems s2 1 = []
  /\ getCartItems s2 7 = getCartItems s1 7
  /\ map CartItem.id (getCartItems s2 7) = [2]
  /\ clearCart s2 1 = (true, s2).
Proof.
  intros s0 s1 s2.
  destruct (clearCart_deletes_exactly s1 1) as (_ & _ & H1 & H2 & _);
    [vm_compute; reflexivity|].
  destruct (clearCart_deletes_exactly s2 1) as (_ & _ & _ & _ & _ & _ & _ & _ & H3);
    [vm_compute; reflexivity|].
  split; [vm_compute; reflexivity|]. split; [exact H1|].
  split; [apply H2; discriminate|]. split; [vm_compute; reflexivity|].
  apply H3. exact H1.
Defined.

(** ** The cart after an order *)

(** C6. When [POST /api/orders] has created an order for a user (201)
    and so cleared the cart, the cart of that user read with its details
    is empty, and [GET /api/cart] answers with the empty list; so does
    [clearCart] after [createOrder] at the storage interface. *)
Theorem cart_empty_after_order (req : Session.t) (now : Date) (body : OrderBody.t)
    (this this' : MemStorage) (order : Order.t) :
  wf this = true ->
  post_orders req now body this = (Response.mk 201 (OrderJson order), this') ->
  getCartItemsWithDetails this' (Order.userId order) = []
  /\ get_cart req this' = (Response.mk 200 (CartJson []), this')
  /\ (forall o,
        getCartItemsWithDetails
          (snd (clearCart (snd (createOrder this now o)) (InsertOrder.userId o)))
          (InsertOrder.userId o) = []).
Proof.
  intros Hwf Hpost.
  assert (Hclear : forall o u,
            getCartItemsWithDetails
              (snd (clearCart (snd (createOrder this now o)) u)) u = []).
  { intros o u.
    assert (Hwf1 : WF (snd (createOrder this now o)))
      by (apply createOrder_WF, wf_spec, Hwf).
    destruct Hwf1 as (_ & _ & _ & Ht & _).
    destruct (clearCart_getCartItems _ u Ht) as [Hnil _].
    unfold getCartItemsWithDetails. now rewrite Hnil. }
  assert (Hauth : exists user o,
            ensureUser req = Some user
            /\ insertOrderSchema_parse body (User.id user) = Some o).
  { unfold post_orders, authenticated in Hpost.
    destruct (Session.isAuthenticated req); [|discriminate].
    destruct (ensureUser req) as [user|]; [|discriminate].
    destruct (insertOrderSchema_parse body (User.id user)) as [o|] eqn:Ho;
      [|discriminate].
    now exists user, o. }
  destruct Hauth as (user & o & Hu & Ho).
  assert (Eu : InsertOrder.userId o = User.id user).
  { unfold insertOrderSchema_parse in Ho.
    destruct (required (OrderBody.items body)); [|discriminate].
    destruct (required (OrderBody.total body)); [|discriminate].
    destruct (optional (OrderBody.address body)); [|discriminate].
    destruct (optional (OrderBody.paymentId body)); [|discriminate].
    now injection Ho as <-. }
  rewrite (post_orders_ok _ _ _ _ _ _ Hu Ho) in Hpost.
  assert (E1 : order = fst (createOrder this now o)) by congruence.
  assert (E2 : this' = snd (clearCart (snd (createOrder this now o)) (User.id user)))
    by congruence.
  rewrite E1, E2.
  change (Order.userId (fst (createOrder this now o))) with (InsertOrder.userId o).
  unfold get_cart. rewrite (authenticated_user _ _ _ _ Hu).
  rewrite Eu, Hclear. split; [reflexivity|]. split; [reflexivity|].
  intros o'. apply Hclear.
Qed.

Lemma cart_empty_after_order_witness :
  let s0 := new_MemStorage (fun _ => 0) in
  let req := Session.mk true (getUser s0 1) in
  let s1 := run [AddToCart (InsertCartItem.mk 1 1 (Some 2%float));
                 AddToCart (InsertCartItem.mk 1 2 (Some 1%float))] s0 in
  let body := OrderBody.mk Missing
                (Given (JArr [JObj [("menuItemId", JNum 1%float);
                                    ("quantity", JNum 2%float)];
                              JObj [("menuItemId", JNum 2%float);
                                    ("quantity", JNum 1%float)]]))
                (Given 39.96%float) (Given (Some "12 Main St")) Missing None in
  List.length (getCartItemsWithDetails s1 1) = 2%nat
  /\ Response.status (fst (post_orders req 5 body s1)) = 201
  /\ getCartItemsWithDetails (snd (post_orders req 5 body s1)) 1 = [].
Proof.
  intros s0 req s1 body.
  split; [vm_compute; reflexivity|]. split; [vm_compute; reflexivity|].
  refine (proj1 (cart_empty_after_order req 5 body s1
                   (snd (post_orders req 5 body s1))
                   (Order.mk 1 1 _ "pending" 39.96%float (Some 5)
                             (Some "12 Main St") None) _ _));
    vm_compute; reflexivity.
Defined.

(** ** Identifiers *)

Lemma counters_le_refl this : counters_le this this.
Proof. unfold counters_le. lia. Qed.

Lemma counters_le_trans a b c : counters_le a b -> counters_le b c -> counters_le a c.
Proof. unfold counters_le. lia. Qed.

(** No call of the interface lowers a counter. *)
Lemma exec_counters_le (c : call) (this : MemStorage) : counters_le this (exec c this).
Proof.
  destruct c; cbn [exec].
  - unfold counters_le; simpl; lia.
  - unfold counters_le; simpl; lia.
  - unfold updateMenuItem. destruct (JsMap.get _ _); unfold counters_le; simpl; lia.
  - unfold counters_le; simpl; lia.
  - unfold addToCart, updateCartItemQuantity.
    repeat match goal with
           | |- context [match ?x with _ => _ end] => destruct x; simpl
           end; unfold counters_le; simpl; lia.
  - unfold removeFromCart, JsMap.delete.
    repeat match goal with
           | |- context [match ?x with _ => _ end] => destruct x; simpl
           end; unfold counters_le; simpl; lia.
  - unfold updateCartItemQuantity.
    repeat match goal with
           | |- context [match ?x with _ => _ end] => destruct x; simpl
           end; unfold counters_le; simpl; lia.
  - destruct (clearCart_frame this userId) as (_ & _ & _ & E4 & E5 & E6 & E7).
    unfold counters_le. rewrite E4, E5, E6, E7. lia.
  - unfold counters_le; simpl; lia.
  - unfold updateOrderStatus. destruct (JsMap.get _ _); unfold counters_le; simpl; lia.
Qed.

Lemma run_counters_le (calls : list call) (this : MemStorage) :
  counters_le this (run calls this).
Proof.
  unfold run. revert this. induction calls as [|c calls IH]; intros this; simpl.
  - apply counters_le_refl.
  - eapply counters_le_trans; [apply exec_counters_le | apply IH].
Qed.

Lemma Table_ok_ids_NoDup {V : Type} (id_of : V -> Z) (c : Z) (m : JsMap.t V) :
  Table_ok id_of c m -> NoDup (map id_of (JsMap.values m)).
Proof. intros H. rewrite (Table_ok_ids id_of c m H). apply H. Qed.

(** C7. Each of the four tables has a counter of its own, and the four
    start at 1.  Every create operation gives the new row the value of
    its table's counter as id, adds 1 to that counter and leaves the
    other three alone ([addToCart] creates a row when the cart has no
    line for the pair).  No call of the interface lowers a counter, so
    of two rows created in one table the later has the greater id,
    whatever calls come between.  In every store reached from the
    constructor the rows of a table have pairwise distinct ids. *)
Theorem ids_from_counters :
  counters empty_storage = (1, 1, 1, 1)
  /\ (forall this u,
        User.id (fst (createUser this u)) = userIdCounter this
        /\ counters (snd (createUser this u)) =
           (userIdCounter this + 1, menuItemIdCounter this,
            cartItemIdCounter this, orderIdCounter this))
  /\ (forall this now i,
        MenuItem.id (fst (createMenuItem this now i)) = menuItemIdCounter this
        /\ counters (snd (createMenuItem this now i)) =
           (userIdCounter this, menuItemIdCounter this + 1,
            cartItemIdCounter this, orderIdCounter this))
  /\ (forall this c,
        lines_for this (InsertCartItem.userId c) (InsertCartItem.menuItemId c) = [] ->
        option_map CartItem.id (fst (addToCart this c)) = Some (cartItemIdCounter this)
        /\ counters (snd (addToCart this c)) =
           (userIdCounter this, menuItemIdCounter this,
            cartItemIdCounter this + 1, orderIdCounter this))
  /\ (forall this now o,
        Order.id (fst (createOrder this now o)) = orderIdCounter this
        /\ counters (snd (createOrder this now o)) =
           (userIdCounter this, menuItemIdCounter this,
            cartItemIdCounter this, orderIdCounter this + 1))
  /\ (forall c this, counters_le this (exec c this))
  /\ (forall this calls u1 u2,
        User.id (fst (createUser this u1))
        < User.id (fst (createUser (run calls (snd (createUser this u1))) u2)))
  /\ (forall this calls now1 i1 now2 i2,
        MenuItem.id (fst (createMenuItem this now1 i1))
        < MenuItem.id
            (fst (createMenuItem (run calls (snd (createMenuItem this now1 i1))) now2 i2)))
  /\ (forall this calls c1 c2 line1 line2,
        let this' := run calls (snd (addToCart this c1)) in
        lines_for this (InsertCartItem.userId c1) (InsertCartItem.menuItemId c1) = [] ->
        lines_for this' (InsertCartItem.userId c2) (InsertCartItem.menuItemId c2) = [] ->
        fst (addToCart this c1) = Some line1 ->
        fst (addToCart this' c2) = Some line2 ->
        CartItem.id line1 < CartItem.id line2)
  /\ (forall this calls now1 o1 now2 o2,
        Order.id (fst (createOrder this now1 o1))
        < Order.id (fst (createOrder (run calls (snd (createOrder this now1 o1))) now2 o2)))
  /\ (forall clock calls,
        let this := run calls (new_MemStorage clock) in
        NoDup (map User.id (JsMap.values (users this)))
        /\ NoDup (map MenuItem.id (JsMap.values (menuItems this)))
        /\ NoDup (map CartItem.id (JsMap.values (cartItems this)))
        /\ NoDup (map Order.id (JsMap.values (orders this)))).
Proof.
  assert (Hadd : forall this c,
            lines_for this (InsertCartItem.userId c) (InsertCartItem.menuItemId c) = [] ->
            option_map CartItem.id (fst (addToCart this c)) = Some (cartItemIdCounter this)
            /\ counters (snd (addToCart this c)) =
               (userIdCounter this, menuItemIdCounter this,
                cartItemIdCounter this + 1, orderIdCounter this)).
  { intros this [u m q] Hnil. simpl in Hnil.
    rewrite addToCart_find, Hnil. split; reflexivity. }
  split; [reflexivity|]. split; [intros; split; reflexivity|].
  split; [intros; split; reflexivity|]. split; [exact Hadd|].
  split; [intros; split; reflexivity|]. split; [exact exec_counters_le|].
  split; [|split; [|split; [|split]]].
  - intros this calls u1 u2.
    destruct (run_counters_le calls (snd (createUser this u1))) as (H & _).
    simpl in *. lia.
  - intros this calls now1 i1 now2 i2.
    destruct (run_counters_le calls (snd (createMenuItem this now1 i1)))
      as (_ & H & _).
    simpl in *. lia.
  - intros this calls c1 c2 line1 line2 this' Hn1 Hn2 E1 E2.
    destruct (Hadd this c1 Hn1) as [I1 C1]. destruct (Hadd this' c2 Hn2) as [I2 _].
    rewrite E1 in I1. rewrite E2 in I2. simpl in I1, I2.
    injection I1 as ->. injection I2 as ->.
    destruct (run_counters_le calls (snd (addToCart this c1))) as (_ & _ & H & _).
    fold this' in H. unfold counters in C1. injection C1 as _ _ C1 _.
    rewrite C1 in H. lia.
  - intros this calls now1 o1 now2 o2.
    destruct (run_counters_le calls (snd (createOrder this now1 o1)))
      as (_ & _ & _ & H).
    simpl in *. lia.
  - intros clock calls this.
    pose proof (proj1 (wf_spec _) (reachable_wf clock calls)) as H.
    fold this in H. destruct H as (Hu & Hm & Ho & Hc & _).
    repeat split; eapply Table_ok_ids_NoDup; eassumption.
Qed.

Lemma ids_from_counters_witness :
  let s0 := new_MemStorage (fun _ => 0) in
  let c1 := InsertCartItem.mk 1 1 (Some 2%float) in
  let c2 := InsertCartItem.mk 1 2 None in
  let calls := [AddToCart c1; AddToCart c1; ClearCart 1; CreateUser adminUser] in
  let s1 := run calls s0 in
  counters s0 = (2, 9, 1, 1)
  /\ option_map CartItem.id (fst (addToCart s0 c1)) = Some 1
  /\ option_map CartItem.id (fst (addToCart s1 c2)) = Some 2
  /\ counters (snd (addToCart s1 c2)) = (3, 9, 3, 1)
  /\ NoDup (map User.id (JsMap.values (users s1))).
Proof.
  intros s0 c1 c2 calls s1.
  destruct ids_from_counters as (_ & _ & _ & Hadd & _ & _ & _ & _ & _ & _ & Hnd).
  destruct (Hadd s0 c1) as [I1 _]; [vm_compute; reflexivity|].
  destruct (Hadd s1 c2) as [I2 C2]; [vm_compute; reflexivity|].
  split; [vm_compute; reflexivity|]. split; [exact I1|].
  split; [rewrite I2; vm_compute; reflexivity|].
  split; [rewrite C2; vm_compute; reflexivity|].
  exact (proj1 (Hnd (fun _ => 0) calls)).
Defined.

(** ** Reading the orders of a user *)

Lemma Promise_all_returned {A B : Type} (f : A -> Exc B) (l : list A) :
  (forall a, In a l -> exists b, f a = Returned b) ->
  exists bs, Promise_all f l = Returned bs
             /\ Forall2 (fun a b => f a = Returned b) l bs.
Proof.
  induction l as [|a l IH]; intros H; simpl.
  - exists []. split; [reflexivity | constructor].
  - destruct (H a (or_introl eq_refl)) as [b Hb].
    destruct IH as (bs & Hbs & Hall); [intros x Hx; apply H; now right|].
    exists (b :: bs). rewrite Hb, Hbs. split; [reflexivity | now constructor].
Qed.

Lemma Promise_all_thrown {A B : Type} (f : A -> Exc B) (l : list A) (a : A) (e : string) :
  In a l -> f a = Thrown e -> exists e', Promise_all f l = Thrown e'.
Proof.
  induction l as [|x l IH]; simpl; [tauto|].
  intros [->|Hin] Ha.
  - rewrite Ha. eauto.
  - destruct (IH Hin Ha) as [e' ->]. destruct (f x); eauto.
Qed.

Lemma itemsWithDetails_ok this items :
  items_ok items = true -> exists lines, itemsWithDetails this items = Returned lines.
Proof.
  destruct items as [| | | |l|]; try discriminate. simpl. intros H.
  destruct (Promise_all_returned (orderLine this) l) as (lines & E & _);
    [|eauto].
  intros item Hin. rewrite forallb_forall in H. specialize (H item Hin).
  unfold orderLine, get_prop. destruct item; try discriminate; eauto.
Qed.

Lemma itemsWithDetails_bad this items :
  items_ok items = false -> exists e, itemsWithDetails this items = Thrown e.
Proof.
  destruct items as [| | | |l|]; simpl; eauto. intros H.
  assert (Hex : existsb (fun item => match item with JNull => true | _ => false end) l
                = true).
  { clear -H. induction l as [|x l IH]; simpl in *; [discriminate|].
    destruct x; simpl in *; auto. }
  apply existsb_exists in Hex. destruct Hex as (item & Hin & Hnull).
  destruct item; try discriminate.
  eapply Promise_all_thrown; [exact Hin | reflexivity].
Qed.

(** [getOrdersByUserId] returns the orders of the user, each with its
    lines, when every one of them can be decorated, and throws otherwise. *)
Lemma getOrdersByUserId_spec this userId :
  let own := filter (fun o => Order.userId o =? userId) (JsMap.values (orders this)) in
  (forallb (fun o => items_ok (Order.items o)) own = true ->
     exists l, getOrdersByUserId this userId = Returned l
               /\ map OrderWithItems.order l = own)
  /\ (forallb (fun o => items_ok (Order.items o)) own = false ->
        exists e, getOrdersByUserId this userId = Thrown e).
Proof.
  intros own. unfold getOrdersByUserId. fold own. split; intros H.
  - match goal with |- context [Promise_all ?f own] =>
      destruct (Promise_all_returned f own) as (l & E & Hall) end.
    + intros o Hin. rewrite forallb_forall in H.
      destruct (itemsWithDetails_ok this _ (H o Hin)) as [lines ->]. eauto.
    + exists l. split; [assumption|].
      clear -Hall. induction Hall as [|o b own l Hb _ IH]; simpl; [reflexivity|].
      rewrite IH. f_equal.
      destruct (itemsWithDetails this (Order.items o)); [|discriminate].
      now injection Hb as <-.
  - assert (Hex : existsb (fun o => negb (items_ok (Order.items o))) own = true).
    { clear -H. induction own as [|o own IH]; simpl in *; [discriminate|].
      destruct (items_ok (Order.items o)); simpl in *; auto. }
    apply existsb_exists in Hex. destruct Hex as (o & Hin & Hbad).
    apply negb_true_iff in Hbad.
    destruct (itemsWithDetails_bad this _ Hbad) as [e He].
    eapply Promise_all_thrown; [exact Hin|]. simpl. rewrite He. reflexivity.
Qed.

(** C8, as the code has it.  A signed-in user who is no admin and asks
    for the orders of another user id is answered 403 with a message
    and no order.  When the id is the requester's own, or the requester
    is an admin, the orders of that user are returned with 200 provided
    each of them stores an array without null entries as its items; when
    one of them does not, the answer is 500. *)
Theorem get_orders_of_authorization (req : Session.t) (userId : Z)
    (this : MemStorage) (user : User.t) :
  ensureUser req = Some user ->
  let own := filter (fun o => Order.userId o =? userId) (JsMap.values (orders this)) in
  (userId <> User.id user -> truthy (User.isAdmin user) = false ->
     get_orders_of req (Some userId) this =
       (Response.mk 403 (Message "Forbidden"), this))
  /\ (userId = User.id user \/ truthy (User.isAdmin user) = true ->
        (forallb (fun o => items_ok (Order.items o)) own = true ->
           exists l,
             get_orders_of req (Some userId) this =
               (Response.mk 200 (OrdersJson l), this)
             /\ map OrderWithItems.order l = own)
        /\ (forallb (fun o => items_ok (Order.items o)) own = false ->
              get_orders_of req (Some userId) this =
                (Response.mk 500 (Message "Error fetching orders"), this))).
Proof.
  intros Hu own. unfold get_orders_of. rewrite (authenticated_user _ _ _ _ Hu).
  split.
  - intros Hne Hna. rewrite Hna.
    destruct (Z.eqb_spec userId (User.id user)); [contradiction | reflexivity].
  - intros Hallowed.
    assert (Hgate : negb (userId =? User.id user)
                    && negb (truthy (User.isAdmin user)) = false).
    { destruct Hallowed as [->| ->];
        [now rewrite Z.eqb_refl | apply andb_false_r]. }
    rewrite Hgate.
    destruct (getOrdersByUserId_spec this userId) as [Hok Hbad]. fold own in Hok, Hbad.
    split; intros H.
    + destruct (Hok H) as (l & -> & E). eauto.
    + destruct (Hbad H) as (e & ->). reflexivity.
Qed.

Lemma get_orders_of_authorization_witness :
  let s0 := new_MemStorage (fun _ => 0) in
  let s1 := run [CreateUser (InsertUser.mk "ann" "pw" None None None);
                 CreateOrder 5 (InsertOrder.mk 2
                                  (JArr [JObj [("menuItemId", JNum 1%float);
                                               ("quantity", JNum 2%float)]])
                                  28.97%float None None)] s0 in
  let ann := Session.mk true (getUser s1 2) in
  let admin := Session.mk true (getUser s1 1) in
  Response.status (fst (get_orders_of ann (Some 1) s1)) = 403
  /\ Response.status (fst (get_orders_of ann (Some 2) s1)) = 200
  /\ Response.status (fst (get_orders_of admin (Some 2) s1)) = 200.
Proof.
  intros s0 s1 ann admin.
  destruct (get_orders_of_authorization ann 1 s1
              (User.mk 2 "ann" "pw" None None (Some false)) eq_refl) as [H403 _].
  destruct (get_orders_of_authorization ann 2 s1
              (User.mk 2 "ann" "pw" None None (Some false)) eq_refl) as [_ Hown].
  destruct (get_orders_of_authorization admin 2 s1
              (User.mk 1 "admin" "admin_password" (Some "Admin User")
                       (Some "admin@quickbite.com") (Some true)) eq_refl)
    as [_ Hadm].
  rewrite H403 by (discriminate || reflexivity).
  destruct Hown as [Hown _]; [now left|].
  destruct Hown as (l1 & -> & _); [vm_compute; reflexivity|].
  destruct Hadm as [Hadm _]; [now right|].
  destruct Hadm as (l2 & -> & _); [vm_compute; reflexivity|].
  repeat split.
Defined.

(** C8 as the claim has it fails: a user whose stored order has items
    that are no array gets 500 for their own orders.  The store is the
    one [POST /api/orders] leaves when a user who is no admin sends the
    number 5 as the body's items. *)
Lemma get_orders_of_own_orders_500 :
  ~ (forall (this : MemStorage) (req : Session.t) (user : User.t) (userId : Z),
       wf this = true ->
       ensureUser req = Some user ->
       userId = User.id user \/ truthy (User.isAdmin user) = true ->
       Response.status (fst (get_orders_of req (Some userId) this)) = 200).
Proof.
  intros H.
  pose (s0 := run [CreateUser (InsertUser.mk "ann" "pw" None None None)]
                  (new_MemStorage (fun _ => 0))).
  pose (ann := Session.mk true (getUser s0 2)).
  pose (body := OrderBody.mk Missing (Given (JNum 5%float)) (Given 10%float)
                             Missing Missing None).
  pose (s1 := snd (post_orders ann 5 body s0)).
  specialize (H s1 ann (User.mk 2 "ann" "pw" None None (Some false)) 2).
  assert (E201 : Response.status (fst (post_orders ann 5 body s0)) = 201)
    by (vm_compute; reflexivity).
  assert (E : Response.status (fst (get_orders_of ann (Some 2) s1)) = 500)
    by (vm_compute; reflexivity).
  rewrite H in E; [discriminate | vm_compute; reflexivity | reflexivity | now left].
Qed.

(** ** Payments *)

(** A number above 0 is neither NaN nor 0, and is not at most 0. *)
Lemma positive_number (x : number) :
  (0 <? x)%float = true ->
  falsy_number x = false /\ (x <=? 0)%float = false.
Proof.
  unfold falsy_number, is_nan, is_zero.
  rewrite ltb_spec, leb_spec, !eqb_spec.
  change (Prim2SF 0%float) with (S754_zero false).
  change (Prim2SF zero) with (S754_zero false).
  destruct (Prim2SF x) as [s|s| |s m e]; try discriminate.
  - destruct s; [discriminate|]. intros _. split; reflexivity.
  - destruct s; [discriminate|]. intros _.
    unfold SFeqb, SFleb, SFcompare.
    rewrite Z.compare_refl, Pos.compare_cont_refl. split; reflexivity.
Qed.

Example Math_round_examples :
  Math_round (39.96 * 100)%float = 3996%float
  /\ Math_round (1.005 * 100)%float = 100%float
  /\ Math_round 2.5%float = 3%float
  /\ Math_round (-2.5)%float = (-2)%float.
Proof. repeat split; vm_compute; reflexivity. Qed.

(** C9. [POST /api/payment] answers 400 whenever the amount supplied is
    at most 0, and calls the provider for no such amount.  For an
    amount above 0 it calls the provider once, with the amount times
    100, rounded, in [usd]; the client secret of the intent the provider
    returns is the answer, with 200.  Rounded: whenever the product, a
    number, is finite, the amount sent is an integer, the closest one
    to the product, the upper one of two that are equally close. *)
Theorem post_payment_amount
    (create : PaymentIntentParams.t -> Exc PaymentIntent.t)
    (req : Session.t) (user : User.t) (amount : number) :
  ensureUser req = Some user ->
  ((amount <=? 0)%float = true ->
     post_payment create req (Some amount) =
       (Response.mk 400 (Message "Invalid amount"), []))
  /\ ((0 <? amount)%float = true ->
        let params :=
          PaymentIntentParams.mk (Math_round (amount * 100)%float) "usd"
                                 (User.id user) in
        snd (post_payment create req (Some amount)) = [params]
        /\ (forall paymentIntent,
              create params = Returned paymentIntent ->
              fst (post_payment create req (Some amount)) =
                Response.mk 200
                  (ClientSecret (PaymentIntent.client_secret paymentIntent)))
        /\ (forall product : Q,
              number_to_Q (amount * 100)%float = Some product ->
              exists cents : Z,
                float_to_Z (PaymentIntentParams.amount params) = Some cents
                /\ (product - (1 # 2) < inject_Z cents)%Q
                /\ (inject_Z cents <= product + (1 # 2))%Q)).
Proof.
  intros Hu. unfold post_payment. rewrite (authenticated_user _ _ _ _ Hu).
  split.
  - intros ->. now rewrite orb_true_r.
  - intros Hpos. destruct (positive_number amount Hpos) as [-> ->].
    simpl. split; [|split].
    + now destruct (create _).
    + now intros intent ->.
    + intros product Hp. now apply Math_round_nearest.
Qed.

Lemma post_payment_amount_witness :
  let s0 := new_MemStorage (fun _ => 0) in
  let req := Session.mk true (getUser s0 1) in
  let create (p : PaymentIntentParams.t) :=
    Returned (PaymentIntent.mk "pi_1" (Some "pi_1_secret")) in
  post_payment create req (Some (-1)%float) =
    (Response.mk 400 (Message "Invalid amount"), [])
  /\ (19.99 * 100)%float = 1998.9999999999998%float
  /\ post_payment create req (Some 19.99%float) =
    (Response.mk 200 (ClientSecret (Some "pi_1_secret")),
     [PaymentIntentParams.mk 1999%float "usd" 1])
  /\ (exists cents : Z,
        float_to_Z (Math_round (19.99 * 100)%float) = Some cents
        /\ cents = 1999).
Proof.
  intros s0 req create.
  pose (admin := User.mk 1 "admin" "admin_password" (Some "Admin User")
                         (Some "admin@quickbite.com") (Some true)).
  destruct (post_payment_amount create req admin (-1)%float eq_refl) as [H400 _].
  destruct (post_payment_amount create req admin 19.99%float eq_refl) as [_ H200].
  split; [apply H400; reflexivity|].
  split; [vm_compute; reflexivity|].
  destruct H200 as (Hcalls & Hres & Hnear); [reflexivity|].
  split.
  - apply injective_projections.
    + etransitivity; [exact (Hres _ eq_refl) | reflexivity].
    + etransitivity; [exact Hcalls | vm_compute; reflexivity].
  - destruct (Hnear (8791694975696895 # 4398046511104)%Q eq_refl)
      as (cents & Hc & Hlo & Hhi).
    exists cents. split; [exact Hc|].
    revert Hlo Hhi. unfold Qlt, Qle, Qminus, Qplus, Qopp, inject_Z.
    cbn [Qnum Qden]. lia.
Defined.

(* ================================================================== *)
(** * Further properties of the store and of the routes *)

(** ** More facts about [Map] *)

Lemma get_set_other {V : Type} (m : JsMap.t V) (k k' : Z) (v : V) :
  k <> k' -> JsMap.get (JsMap.set m k v) k' = JsMap.get m k'.
Proof.
  intros Hne. induction m as [|[k1 v1] m IH]; simpl.
  - destruct (Z.eqb_spec k k'); [contradiction | reflexivity].
  - destruct (Z.eqb_spec k1 k) as [->|Hk]; simpl.
    + destruct (Z.eqb_spec k k'); [contradiction | reflexivity].
    + now rewrite IH.
Qed.

Lemma get_remove_other {V : Type} (m : JsMap.t V) (k k' : Z) :
  k <> k' -> JsMap.get (JsMap.remove m k) k' = JsMap.get m k'.
Proof.
  intros Hne. induction m as [|[k1 v1] m IH]; simpl; [reflexivity|].
  destruct (Z.eqb_spec k1 k) as [->|Hk]; simpl.
  - destruct (Z.eqb_spec k k'); [contradiction | reflexivity].
  - now rewrite IH.
Qed.

Lemma get_remove_same {V : Type} (m : JsMap.t V) (k : Z) :
  NoDup (JsMap.keys m) -> JsMap.get (JsMap.remove m k) k = None.
Proof.
  intros Hnd. rewrite remove_filter by assumption.
  apply get_None_keys. unfold JsMap.keys. intros Hin.
  apply in_map_iff in Hin. destruct Hin as ([k1 v1] & E & Hin).
  apply filter_In in Hin. simpl in *. subst k1.
  destruct Hin as [_ Hin]. now rewrite Z.eqb_refl in Hin.
Qed.

Lemma keys_set_present {V : Type} (m : JsMap.t V) (k : Z) (v0 v : V) :
  JsMap.get m k = Some v0 -> JsMap.keys (JsMap.set m k v) = JsMap.keys m.
Proof.
  intros Hg. destruct (get_split _ _ _ Hg) as (m1 & m2 & -> & Hn).
  rewrite set_at by assumption. now rewrite !keys_app.
Qed.

Lemma has_get {V : Type} (m : JsMap.t V) (k : Z) :
  JsMap.has m k = match JsMap.get m k with Some _ => true | None => false end.
Proof. reflexivity. Qed.

Lemma In_values_set {V : Type} (m : JsMap.t V) (k : Z) (v x : V) :
  In x (JsMap.values (JsMap.set m k v)) -> x = v \/ In x (JsMap.values m).
Proof.
  induction m as [|[k1 v1] m IH]; simpl.
  - intros [<-|[]]. now left.
  - destruct (Z.eqb_spec k1 k); simpl.
    + intros [<-|H]; [now left | right; now right].
    + intros [<-|H]; [right; now left|].
      destruct (IH H); [now left | right; now right].
Qed.

Lemma In_values_remove {V : Type} (m : JsMap.t V) (k : Z) (x : V) :
  In x (JsMap.values (JsMap.remove m k)) -> In x (JsMap.values m).
Proof.
  induction m as [|[k1 v1] m IH]; simpl; [tauto|].
  destruct (Z.eqb_spec k1 k); simpl; [tauto|].
  intros [<-|H]; [now left | right; now apply IH].
Qed.

(** ** What each cart method leaves alone *)

Lemma updateCartItemQuantity_frame this id userId quantity :
  let st := snd (updateCartItemQuantity this id userId quantity) in
  users st = users this /\ menuItems st = menuItems this /\ orders st = orders this
  /\ counters st = counters this.
Proof.
  unfold updateCartItemQuantity.
  destruct (JsMap.get (cartItems this) id) as [c|]; simpl; [|tauto].
  destruct (negb (CartItem.userId c =? userId)); simpl; tauto.
Qed.

Lemma addToCart_frame this c :
  let st := snd (addToCart this c) in
  users st = users this /\ menuItems st = menuItems this /\ orders st = orders this.
Proof.
  destruct c as [u m q]. rewrite addToCart_find.
  destruct (hd_error (lines_for this u m)) as [e|].
  - pose proof (updateCartItemQuantity_frame this (CartItem.id e) u
                  (CartItem.quantity e + quantity_or_1 q)%float) as F.
    cbv zeta in F |- *. tauto.
  - simpl. tauto.
Qed.

Lemma removeFromCart_frame this id userId :
  let st := snd (removeFromCart this id userId) in
  users st = users this /\ menuItems st = menuItems this /\ orders st = orders this
  /\ counters st = counters this.
Proof.
  unfold removeFromCart.
  destruct (JsMap.get (cartItems this) id) as [c|]; simpl; [|tauto].
  destruct (negb (CartItem.userId c =? userId)); simpl; tauto.
Qed.

Lemma isAdmin_menu_pass req this next :
  admin_session req = true -> isAdmin_menu req this next = next.
Proof. unfold isAdmin_menu. now intros ->. Qed.

(** ** Every handler keeps the invariant *)

Lemma insertCartItemSchema_parse_userId body userId c :
  insertCartItemSchema_parse body userId = Some c -> InsertCartItem.userId c = userId.
Proof.
  unfold insertCartItemSchema_parse.
  destruct (required (CartBody.menuItemId body)); [|discriminate].
  destruct (optional (CartBody.quantity body)); [|discriminate].
  now intros [= <-].
Qed.

Lemma insertOrderSchema_parse_userId body userId o :
  insertOrderSchema_parse body userId = Some o -> InsertOrder.userId o = userId.
Proof.
  unfold insertOrderSchema_parse.
  destruct (required (OrderBody.items body)); [|discriminate].
  destruct (required (OrderBody.total body)); [|discriminate].
  destruct (optional (OrderBody.address body)); [|discriminate].
  destruct (optional (OrderBody.paymentId body)); [|discriminate].
  now intros [= <-].
Qed.

Lemma includes_status_enum status st :
  includes_status status = Some st -> existsb (String.eqb st) OrderStatus = true.
Proof.
  unfold includes_status. destruct status as [[| | |s| |]|]; try discriminate.
  destruct (String.eqb s ""); [discriminate|].
  destruct (existsb (String.eqb s) OrderStatus) eqn:E; [|discriminate].
  now intros [= <-].
Qed.

(** The storage calls behind a request: the handler's store is the one
    these calls leave, and each of them is permitted to the session. *)
Lemma handle_calls (r : request) (this : MemStorage) :
  exists calls,
    handle r this = run calls this
    /\ forallb (permitted (session_of r)) calls = true.
Proof.
  destruct r; cbn [handle session_of].
  - unfold post_menu, isAdmin_menu.
    destruct (admin_session req) eqn:Ha; [|now exists []].
    destruct (insertMenuItemSchema_parse body) as [i|]; [|now exists []].
    exists [CreateMenuItem now i]. cbn. rewrite Ha.
    now destruct (createMenuItem this now i).
  - unfold put_menu, isAdmin_menu.
    destruct (admin_session req) eqn:Ha; [|now exists []].
    destruct (insertMenuItemSchema_parse body) as [i|]; [|now exists []].
    destruct id as [id|].
    + exists [UpdateMenuItem id i]. cbn. rewrite Ha.
      destruct (updateMenuItem this id i) as [[m|] st]; now split.
    + now exists [].
  - unfold delete_menu, isAdmin_menu.
    destruct (admin_session req) eqn:Ha; [|now exists []].
    destruct id as [id|].
    + exists [DeleteMenuItem id]. unfold deleteMenuItem, JsMap.delete. cbn.
      rewrite Ha. destruct (JsMap.has (menuItems this) id); now split.
    + now exists [].
  - exists []. unfold get_cart, authenticated.
    destruct (Session.isAuthenticated req); [|now split].
    now destruct (ensureUser req).
  - unfold post_cart, authenticated.
    destruct (Session.isAuthenticated req); [|now exists []].
    destruct (ensureUser req) as [user|] eqn:Hu; [|now exists []].
    destruct (insertCartItemSchema_parse body (User.id user)) as [c|] eqn:Hc;
      [|now exists []].
    exists [AddToCart c]. cbn. unfold acts_for.
    rewrite Hu, (insertCartItemSchema_parse_userId _ _ _ Hc), Z.eqb_refl.
    now destruct (addToCart this c).
  - unfold delete_cart, authenticated.
    destruct (Session.isAuthenticated req); [|now exists []].
    destruct (ensureUser req) as [user|] eqn:Hu; [|now exists []].
    destruct id as [id|].
    + exists [RemoveFromCart id (User.id user)]. cbn. unfold acts_for.
      rewrite Hu, Z.eqb_refl.
      destruct (removeFromCart this id (User.id user)) as [[|] st]; now split.
    + now exists [].
  - unfold put_cart, authenticated.
    destruct (Session.isAuthenticated req); [|now exists []].
    destruct (ensureUser req) as [user|] eqn:Hu; [|now exists []].
    destruct quantity as [| |q]; try (now exists []).
    destruct (q <? 1)%float; [now exists []|].
    destruct id as [id|].
    + exists [UpdateCartItemQuantity id (User.id user) q]. cbn. unfold acts_for.
      rewrite Hu, Z.eqb_refl.
      destruct (updateCartItemQuantity this id (User.id user) q) as [[c|] st];
        now split.
    + now exists [].
  - unfold post_orders, authenticated.
    destruct (Session.isAuthenticated req); [|now exists []].
    destruct (ensureUser req) as [user|] eqn:Hu; [|now exists []].
    destruct (insertOrderSchema_parse body (User.id user)) as [o|] eqn:Ho;
      [|now exists []].
    exists [CreateOrder now o; ClearCart (User.id user)]. cbn. unfold acts_for.
    rewrite Hu, (insertOrderSchema_parse_userId _ _ _ Ho), Z.eqb_refl.
    destruct (createOrder this now o) as [order st]. cbn.
    now destruct (clearCart st (User.id user)).
  - exists []. unfold get_orders_of, authenticated.
    destruct (Session.isAuthenticated req); [|now split].
    destruct (ensureUser req) as [user|]; [|now split].
    destruct (_ && _); [now split|].
    now destruct (match userId with Some u => getOrdersByUserId this u
                                  | None => Returned [] end).
  - exists []. unfold get_orders, isAdmin. now destruct (admin_session req).
  - unfold patch_order, isAdmin.
    destruct (admin_session req) eqn:Ha; [|now exists []].
    destruct (includes_status status) as [st|] eqn:Hs; [|now exists []].
    destruct id as [id|].
    + exists [UpdateOrderStatus id st]. split.
      * cbn. now destruct (updateOrderStatus this id st) as [[o|] st'].
      * cbn [forallb permitted]. now rewrite Ha, (includes_status_enum _ _ Hs).
    + now exists [].
Qed.

Lemma handle_run (r : request) (this : MemStorage) :
  exists calls, handle r this = run calls this.
Proof. destruct (handle_calls r this) as (calls & E & _). now exists calls. Qed.

Lemma serve_run (requests : list request) (this : MemStorage) :
  exists calls, serve requests this = run calls this.
Proof.
  unfold serve. revert this.
  induction requests as [|r requests IH]; intros this; simpl.
  - now exists [].
  - destruct (handle_run r this) as [c1 ->].
    destruct (IH (run c1 this)) as [c2 ->].
    exists (c1 ++ c2). unfold run. now rewrite fold_left_app.
Qed.

Lemma lines_at_most_one (m : JsMap.t CartItem.t) (p : Z * Z) :
  NoDup (pairs m) ->
  (List.length (filter (fun item => pair_eqb (pair_of item) p) (JsMap.values m)) <= 1)%nat.
Proof.
  induction m as [|[k x] m IH]; simpl; intros Hnd; [lia|].
  inversion Hnd as [|? ? Hout Hnd']; subst.
  destruct (pair_eqb (pair_of x) p) eqn:E; [|now apply IH].
  apply pair_eqb_eq in E. simpl.
  rewrite filter_none; [simpl; lia|].
  intros y Hy. destruct (pair_eqb (pair_of y) p) eqn:Ey; [|reflexivity].
  apply pair_eqb_eq in Ey. exfalso. apply Hout.
  unfold pairs. rewrite E, <- Ey. now apply in_map.
Qed.

(** ** One cart line per user and menu item, through the routes *)

(** X1. Whatever requests the routes serve, from a store that satisfies
    the invariant, the store they leave satisfies it too; in particular
    the cart never holds two lines for one user and one menu item, and
    no counter has gone down. *)
Theorem serve_keeps_invariant (requests : list request) (this : MemStorage) :
  wf this = true ->
  let st := serve requests this in
  wf st = true
  /\ (forall userId menuItemId,
        (List.length (lines_for st userId menuItemId) <= 1)%nat)
  /\ counters_le this st.
Proof.
  intros Hwf st. destruct (serve_run requests this) as [calls E].
  fold st in E. rewrite E.
  assert (H : WF (run calls this)) by (apply run_WF, wf_spec, Hwf).
  split; [now apply wf_spec|]. split; [|apply run_counters_le].
  intros u m. unfold lines_for. apply lines_at_most_one.
  now destruct H as (_ & _ & _ & _ & Hp).
Qed.

Lemma serve_keeps_invariant_witness :
  let s0 := new_MemStorage (fun _ => 0) in
  let admin := Session.mk true (getUser s0 1) in
  let add q := PostCart admin (CartBody.mk Missing (Given 2) (Given q)) in
  let st := serve [add 1%float; add 4%float; PutCart admin (Some 1) (Given 2%float);
                    add (-1)%float] s0 in
  wf st = true
  /\ (List.length (lines_for st 1 2) <= 1)%nat
  /\ map CartItem.quantity (lines_for st 1 2) = [1%float].
Proof.
  intros s0 admin add st.
  destruct (serve_keeps_invariant
              [add 1%float; add 4%float; PutCart admin (Some 1) (Given 2%float);
                    add (-1)%float] s0)
    as (Hwf & Hone & _); [vm_compute; reflexivity|].
  split; [exact Hwf|]. split; [apply Hone|]. vm_compute. reflexivity.
Defined.

(** ** Removing and updating one's own cart line *)

(** X2. When the line filed under an id belongs to the user,
    [removeFromCart] returns true and takes out that entry alone: the
    id holds no line afterwards, every other id holds what it held, the
    entries keep their order, and the users, menu items, orders and
    counters are untouched.  A second call returns false and changes
    nothing; [DELETE /api/cart/:id] answers 204 the first time and 404
    the second. *)
Theorem removeFromCart_own_line (this : MemStorage) (id userId : Z)
    (req : Session.t) (user : User.t) :
  wf this = true ->
  owner this id = Some userId ->
  ensureUser req = Some user -> User.id user = userId ->
  let st := snd (removeFromCart this id userId) in
  fst (removeFromCart this id userId) = true
  /\ JsMap.get (cartItems st) id = None
  /\ (forall k, k <> id -> JsMap.get (cartItems st) k = JsMap.get (cartItems this) k)
  /\ cartItems st = filter (fun e => negb (fst e =? id)) (cartItems this)
  /\ users st = users this /\ menuItems st = menuItems this
  /\ orders st = orders this /\ counters st = counters this
  /\ removeFromCart st id userId = (false, st)
  /\ delete_cart req (Some id) this = (Response.mk 204 NoContent, st)
  /\ delete_cart req (Some id) st =
     (Response.mk 404 (Message "Cart item not found"), st).
Proof.
  intros Hwf Hown Hu Hid st.
  apply wf_spec in Hwf. destruct Hwf as (_ & _ & _ & (_ & _ & Hnd) & _).
  unfold owner in Hown.
  destruct (JsMap.get (cartItems this) id) as [line|] eqn:Hg; [|discriminate].
  injection Hown as Hline.
  assert (Er : removeFromCart this id userId =
               (true, with_cartItems this (JsMap.remove (cartItems this) id)
                                     (cartItemIdCounter this))).
  { unfold removeFromCart, JsMap.delete. rewrite Hg, Hline, Z.eqb_refl. simpl.
    now rewrite has_get, Hg. }
  assert (Est : st = with_cartItems this (JsMap.remove (cartItems this) id)
                                    (cartItemIdCounter this))
    by (unfold st; now rewrite Er).
  assert (Hgone : JsMap.get (cartItems st) id = None)
    by (rewrite Est; simpl; now apply get_remove_same).
  assert (Hagain : removeFromCart st id userId = (false, st)).
  { apply removeFromCart_miss. unfold owner. now rewrite Hgone. }
  split; [now rewrite Er|]. split; [exact Hgone|]. split.
  { intros k Hk. rewrite Est. simpl. apply get_remove_other. congruence. }
  split; [rewrite Est; simpl; now apply remove_filter|].
  rewrite Est at 1 2 3 4. simpl.
  repeat (split; [reflexivity|]).
  split; [exact Hagain|].
  unfold delete_cart. rewrite !(authenticated_user _ _ _ _ Hu), Hid, Hagain, Er.
  fold st. rewrite <- Est. split; reflexivity.
Qed.

Lemma removeFromCart_own_line_witness :
  let s0 := new_MemStorage (fun _ => 0) in
  let admin := Session.mk true (getUser s0 1) in
  let s1 := run [AddToCart (InsertCartItem.mk 1 2 (Some 2%float));
                 AddToCart (InsertCartItem.mk 1 3 (Some 1%float))] s0 in
  let s2 := snd (delete_cart admin (Some 1) s1) in
  JsMap.keys (cartItems s1) = [1; 2]
  /\ Response.status (fst (delete_cart admin (Some 1) s1)) = 204
  /\ JsMap.keys (cartItems s2) = [2]
  /\ Response.status (fst (delete_cart admin (Some 1) s2)) = 404.
Proof.
  intros s0 admin s1 s2.
  destruct (removeFromCart_own_line s1 1 1 admin
              (User.mk 1 "admin" "admin_password" (Some "Admin User")
                       (Some "admin@quickbite.com") (Some true)))
    as (_ & _ & _ & _ & _ & _ & _ & _ & _ & H204 & H404);
    try (vm_compute; reflexivity).
  split; [vm_compute; reflexivity|].
  split; [now rewrite H204|].
  split; [vm_compute; reflexivity|].
  unfold s2. rewrite H204. cbn [snd]. now rewrite H404.
Defined.

(** X3. When the line filed under an id belongs to the user,
    [updateCartItemQuantity] stores the quantity it is given, whatever
    it is, and changes nothing else: the line keeps its id, user and
    menu item, stays where it is in the table, every other id holds
    what it held, and the users, menu items, orders and counters are
    untouched.  [PUT /api/cart/:id] answers 200 with the updated line
    for a quantity that is not below 1. *)
Theorem updateCartItemQuantity_own_line (this : MemStorage) (id userId : Z)
    (quantity : number) (req : Session.t) (user : User.t) :
  owner this id = Some userId ->
  ensureUser req = Some user -> User.id user = userId ->
  exists line,
    let updated := with_quantity line quantity in
    let st := snd (updateCartItemQuantity this id userId quantity) in
    JsMap.get (cartItems this) id = Some line
    /\ fst (updateCartItemQuantity this id userId quantity) = Some updated
    /\ JsMap.get (cartItems st) id = Some updated
    /\ CartItem.quantity updated = quantity
    /\ (CartItem.id updated, CartItem.userId updated, CartItem.menuItemId updated)
       = (CartItem.id line, CartItem.userId line, CartItem.menuItemId line)
    /\ (forall k, k <> id -> JsMap.get (cartItems st) k = JsMap.get (cartItems this) k)
    /\ JsMap.keys (cartItems st) = JsMap.keys (cartItems this)
    /\ users st = users this /\ menuItems st = menuItems this
    /\ orders st = orders this /\ counters st = counters this
    /\ ((quantity <? 1)%float = false ->
        put_cart req (Some id) (Given quantity) this =
          (Response.mk 200 (CartItemJson (Some updated)), st)).
Proof.
  intros Hown Hu Hid. unfold owner in Hown.
  destruct (JsMap.get (cartItems this) id) as [line|] eqn:Hg; [|discriminate].
  injection Hown as Hline. exists line. intros updated st.
  pose proof (updateCartItemQuantity_hit this id quantity line Hg) as E.
  rewrite Hline in E. fold updated in E.
  destruct (updateCartItemQuantity_frame this id userId quantity)
    as (F1 & F2 & F3 & F4).
  fold st in F1, F2, F3, F4.
  assert (Est : st = with_cartItems this (JsMap.set (cartItems this) id updated)
                                    (cartItemIdCounter this))
    by (unfold st; now rewrite E).
  split; [reflexivity|]. split; [now rewrite E|].
  split; [rewrite Est; apply get_set_same|].
  split; [reflexivity|]. split; [reflexivity|].
  split; [intros k Hk; rewrite Est; simpl; apply get_set_other; congruence|].
  split; [rewrite Est; simpl; eapply keys_set_present; eassumption|].
  repeat (split; [assumption|]).
  intros Hq. unfold put_cart. rewrite (authenticated_user _ _ _ _ Hu), Hid.
  rewrite Hq, E. now rewrite Est.
Qed.

Lemma updateCartItemQuantity_own_line_witness :
  let s0 := new_MemStorage (fun _ => 0) in
  let admin := Session.mk true (getUser s0 1) in
  let s1 := run [AddToCart (InsertCartItem.mk 1 2 (Some 2%float));
                 AddToCart (InsertCartItem.mk 1 3 (Some 1%float))] s0 in
  let st := snd (put_cart admin (Some 1) (Given 7%float) s1) in
  Response.status (fst (put_cart admin (Some 1) (Given 7%float) s1)) = 200
  /\ map CartItem.quantity (getCartItems st 1) = [7%float; 1%float]
  /\ option_map CartItem.quantity
       (fst (updateCartItemQuantity s1 1 1 (-3)%float)) = Some (-3)%float.
Proof.
  intros s0 admin s1 st.
  destruct (updateCartItemQuantity_own_line s1 1 1 7%float admin
              (User.mk 1 "admin" "admin_password" (Some "Admin User")
                       (Some "admin@quickbite.com") (Some true)))
    as (l7 & _ & _ & _ & _ & _ & _ & _ & _ & _ & _ & _ & H200);
    try (vm_compute; reflexivity).
  destruct (updateCartItemQuantity_own_line s1 1 1 (-3)%float admin
              (User.mk 1 "admin" "admin_password" (Some "Admin User")
                       (Some "admin@quickbite.com") (Some true)))
    as (l3 & _ & Hr & _ & Hq & _);
    try (vm_compute; reflexivity).
  split; [exact (f_equal (fun r => Response.status (fst r)) (H200 eq_refl))|].
  split; [vm_compute; reflexivity|].
  cbv zeta in Hr, Hq. rewrite Hr. simpl. reflexivity.
Defined.

(** ** Creating rows and reading them back *)

Lemma set_new_values {V : Type} (id_of : V -> Z) (c : Z) (m : JsMap.t V) (v : V) :
  Table_ok id_of c m -> JsMap.values (JsMap.set m c v) = JsMap.values m ++ [v].
Proof.
  intros H. rewrite set_absent by (eapply Table_ok_fresh; [exact H | lia]).
  now rewrite values_app.
Qed.

(** X4. [createUser], [createMenuItem] and [createOrder] each append
    the row they return to their table and lose none: the listing is
    the listing before followed by the new row, the new row is found
    under its id, and every id that was in use still finds the row it
    found before. *)
Theorem create_appends (this : MemStorage) (now : Date)
    (u : InsertUser.t) (i : InsertMenuItem.t) (o : InsertOrder.t) :
  wf this = true ->
  (let r := createUser this u in
   JsMap.values (users (snd r)) = JsMap.values (users this) ++ [fst r]
   /\ getUser (snd r) (User.id (fst r)) = Some (fst r)
   /\ forall k user, getUser this k = Some user -> getUser (snd r) k = Some user)
  /\ (let r := createMenuItem this now i in
      getAllMenuItems (snd r) = getAllMenuItems this ++ [fst r]
      /\ getMenuItemById (snd r) (MenuItem.id (fst r)) = Some (fst r)
      /\ forall k item,
           getMenuItemById this k = Some item -> getMenuItemById (snd r) k = Some item)
  /\ (let r := createOrder this now o in
      getAllOrders (snd r) = getAllOrders this ++ [fst r]
      /\ getOrderById (snd r) (Order.id (fst r)) = Some (fst r)
      /\ forall k order,
           getOrderById this k = Some order -> getOrderById (snd r) k = Some order).
Proof.
  intros Hwf. apply wf_spec in Hwf. destruct Hwf as (Hu & Hm & Ho & _).
  split; [|split]; cbv zeta; simpl.
  - split; [now apply (set_new_values User.id)|]. split; [apply get_set_same|].
    intros k user Hg. unfold getUser in *. simpl.
    rewrite get_set_other; [assumption|].
    destruct (Table_ok_get _ _ _ _ _ Hu Hg). lia.
  - unfold getAllMenuItems, getMenuItemById. simpl.
    split; [now apply (set_new_values MenuItem.id)|]. split; [apply get_set_same|].
    intros k item Hg. rewrite get_set_other; [assumption|].
    destruct (Table_ok_get _ _ _ _ _ Hm Hg). lia.
  - unfold getAllOrders, getOrderById. simpl.
    split; [now apply (set_new_values Order.id)|]. split; [apply get_set_same|].
    intros k order Hg. rewrite get_set_other; [assumption|].
    destruct (Table_ok_get _ _ _ _ _ Ho Hg). lia.
Qed.

Lemma create_appends_witness :
  let s0 := new_MemStorage (fun _ => 0) in
  let r := createUser s0 (InsertUser.mk "ann" "pw" None None None) in
  map User.username (JsMap.values (users (snd r))) = ["admin"; "ann"]
  /\ getUser (snd r) 2 = Some (fst r)
  /\ option_map User.username (getUser (snd r) 1) = Some "admin".
Proof.
  intros s0 r.
  destruct (create_appends s0 0 (InsertUser.mk "ann" "pw" None None None)
              (InsertMenuItem.mk "x" "y" 1%float None "z" None)
              (InsertOrder.mk 1 JNull 1%float None None))
    as ((Hv & Hg & _) & _); [vm_compute; reflexivity|].
  split; [fold r in Hv; rewrite Hv; vm_compute; reflexivity|].
  split; [exact Hg | vm_compute; reflexivity].
Defined.

(** ** Editing and deleting menu items *)

(** X5. [updateMenuItem] of an id that holds no item returns nothing
    and changes nothing.  Of an id that holds one, it returns and
    stores the item with the name, description, price and category it
    was given, with the image and the popularity flag it was given or,
    when left out, the ones the item had, and with the id, the rating,
    the review count, the creation date and every other field of the
    item as they were.  The item stays where it is in the listing, the
    other ids hold what they held, and the counter does not move. *)
Theorem updateMenuItem_replaces (this : MemStorage) (id : Z) (i : InsertMenuItem.t) :
  (getMenuItemById this id = None -> updateMenuItem this id i = (None, this))
  /\ (forall old,
        getMenuItemById this id = Some old ->
        exists updated,
          let st := snd (updateMenuItem this id i) in
          fst (updateMenuItem this id i) = Some updated
          /\ getMenuItemById st id = Some updated
          /\ (MenuItem.name updated, MenuItem.description updated,
              MenuItem.price updated, MenuItem.category updated)
             = (InsertMenuItem.name i, InsertMenuItem.description i,
                InsertMenuItem.price i, InsertMenuItem.category i)
          /\ MenuItem.imageUrl updated =
             spread (MenuItem.imageUrl old) (InsertMenuItem.imageUrl i)
          /\ MenuItem.isPopular updated =
             spread (MenuItem.isPopular old) (InsertMenuItem.isPopular i)
          /\ kept_fields updated = kept_fields old
          /\ JsMap.keys (menuItems st) = JsMap.keys (menuItems this)
          /\ (forall k, k <> id -> getMenuItemById st k = getMenuItemById this k)
          /\ counters st = counters this
          /\ users st = users this /\ cartItems st = cartItems this
          /\ orders st = orders this).
Proof.
  unfold getMenuItemById, updateMenuItem. split.
  - now intros ->.
  - intros old Hg. rewrite Hg. eexists. cbv zeta. cbn [fst snd].
    split; [reflexivity|]. split; [simpl; apply get_set_same|].
    split; [reflexivity|]. split; [reflexivity|]. split; [reflexivity|].
    split; [reflexivity|].
    split; [simpl; eapply keys_set_present; eassumption|].
    split; [intros k Hk; simpl; apply get_set_other; congruence|].
    repeat split.
Qed.

Lemma updateMenuItem_replaces_witness :
  let s0 := new_MemStorage (fun _ => 0) in
  let i := InsertMenuItem.mk "Veggie Pizza" "No pepperoni" 11.5%float None "Pizza" None in
  let st := snd (updateMenuItem s0 1 i) in
  option_map MenuItem.name (getMenuItemById st 1) = Some "Veggie Pizza"
  /\ option_map MenuItem.isPopular (getMenuItemById st 1) = Some (Some true)
  /\ option_map MenuItem.dietaryPreferences (getMenuItemById st 1)
     = Some (JArr [JStr "vegetarian"])
  /\ map MenuItem.id (getAllMenuItems st) = [1; 2; 3; 4; 5; 6; 7; 8]
  /\ updateMenuItem s0 9 i = (None, s0).
Proof.
  intros s0 i st.
  destruct (updateMenuItem_replaces s0 9 i) as [Hmiss _].
  destruct (updateMenuItem_replaces s0 1 i) as [_ Hhit].
  assert (Hex : exists old, getMenuItemById s0 1 = Some old)
    by (vm_compute; eexists; reflexivity).
  destruct Hex as [old Hold].
  destruct (Hhit old Hold) as (updated & _ & Hg & Hn & _).
  split.
  - fold st in Hg. rewrite Hg. cbn [option_map].
    injection Hn as -> _ _ _. reflexivity.
  - split; [vm_compute; reflexivity|]. split; [vm_compute; reflexivity|].
    split; [vm_compute; reflexivity|].
    apply Hmiss. vm_compute. reflexivity.
Defined.

Lemma getCartItemsWithDetails_menu (this st : MemStorage) (userId : Z) :
  cartItems st = cartItems this ->
  getCartItemsWithDetails st userId =
  map (fun item => CartItemWithDetails.mk item
                     (getMenuItemById st (CartItem.menuItemId item)))
      (getCartItems this userId).
Proof.
  intros E. unfold getCartItemsWithDetails, getCartItems. now rewrite E.
Qed.

(** X6. [deleteMenuItem] returns whether the id held an item.
    Afterwards the id holds none, the other ids hold what they held,
    and a second call returns false.  The users, the carts and the
    orders are not touched: a cart line for the deleted item stays in
    the cart, and [getCartItemsWithDetails] gives it with no menu item,
    the other lines with the menu item they had. *)
Theorem deleteMenuItem_leaves_lines (this : MemStorage) (id : Z) :
  wf this = true ->
  let st := snd (deleteMenuItem this id) in
  fst (deleteMenuItem this id)
    = (match getMenuItemById this id with Some _ => true | None => false end)
  /\ getMenuItemById st id = None
  /\ (forall k, k <> id -> getMenuItemById st k = getMenuItemById this k)
  /\ fst (deleteMenuItem st id) = false
  /\ users st = users this /\ cartItems st = cartItems this
  /\ orders st = orders this /\ counters st = counters this
  /\ (forall userId,
        getCartItemsWithDetails st userId =
        map (fun d =>
               if CartItem.menuItemId (CartItemWithDetails.item d) =? id
               then CartItemWithDetails.mk (CartItemWithDetails.item d) None
               else d)
            (getCartItemsWithDetails this userId)).
Proof.
  intros Hwf st. apply wf_spec in Hwf. destruct Hwf as (_ & (_ & _ & Hnd) & _).
  assert (Hgone : getMenuItemById st id = None)
    by (unfold getMenuItemById; simpl; now apply get_remove_same).
  assert (Hother : forall k, k <> id -> getMenuItemById st k = getMenuItemById this k)
    by (intros k Hk; unfold getMenuItemById; simpl; apply get_remove_other; congruence).
  split; [reflexivity|]. split; [exact Hgone|]. split; [exact Hother|].
  split; [unfold deleteMenuItem, JsMap.delete; cbn [fst];
          rewrite has_get; unfold getMenuItemById in Hgone; now rewrite Hgone|].
  repeat (split; [reflexivity|]).
  intros userId. rewrite (getCartItemsWithDetails_menu this st userId eq_refl).
  unfold getCartItemsWithDetails. rewrite map_map. apply map_ext.
  intros item. simpl.
  destruct (Z.eqb_spec (CartItem.menuItemId item) id) as [->|Hne].
  - now rewrite Hgone.
  - now rewrite Hother.
Qed.

Lemma deleteMenuItem_leaves_lines_witness :
  let s0 := new_MemStorage (fun _ => 0) in
  let s1 := run [AddToCart (InsertCartItem.mk 1 2 (Some 2%float));
                 AddToCart (InsertCartItem.mk 1 3 (Some 1%float))] s0 in
  let st := snd (deleteMenuItem s1 2) in
  fst (deleteMenuItem s1 2) = true
  /\ map (fun d => option_map MenuItem.name (CartItemWithDetails.menuItem d))
         (getCartItemsWithDetails s1 1) = [Some "Deluxe Burger"; Some "Salmon Sushi Roll"]
  /\ map (fun d => option_map MenuItem.name (CartItemWithDetails.menuItem d))
         (getCartItemsWithDetails st 1) = [None; Some "Salmon Sushi Roll"]
  /\ fst (deleteMenuItem st 2) = false.
Proof.
  intros s0 s1 st.
  destruct (deleteMenuItem_leaves_lines s1 2) as (_ & _ & _ & Hagain & _);
    [vm_compute; reflexivity|].
  split; [vm_compute; reflexivity|]. split; [vm_compute; reflexivity|].
  split; [vm_compute; reflexivity|]. exact Hagain.
Defined.

(** ** The status of stored orders *)

Lemma statuses_ok_In this :
  statuses_ok this = true <->
  forall order, In order (JsMap.values (orders this)) ->
                existsb (String.eqb (Order.status order)) OrderStatus = true.
Proof. unfold statuses_ok. apply forallb_forall. Qed.

Lemma exec_statuses_ok (req : Session.t) (c : call) (this : MemStorage) :
  permitted req c = true -> statuses_ok this = true ->
  statuses_ok (exec c this) = true.
Proof.
  intros Hp H. destruct c; cbn [exec].
  - exact H.
  - exact H.
  - unfold updateMenuItem. now destruct (JsMap.get _ _).
  - exact H.
  - unfold statuses_ok. destruct (addToCart_frame this insertCartItem) as (_ & _ & ->).
    exact H.
  - unfold statuses_ok.
    destruct (removeFromCart_frame this id userId) as (_ & _ & -> & _). exact H.
  - unfold statuses_ok.
    destruct (updateCartItemQuantity_frame this id userId quantity)
      as (_ & _ & -> & _).
    exact H.
  - unfold statuses_ok. destruct (clearCart_frame this userId) as (_ & _ & -> & _).
    exact H.
  - apply statuses_ok_In. intros order Hin. simpl in Hin.
    apply In_values_set in Hin. destruct Hin as [->|Hin]; [reflexivity|].
    now apply (proj1 (statuses_ok_In this) H).
  - cbn in Hp. apply andb_true_iff in Hp. destruct Hp as [_ Hst].
    unfold updateOrderStatus. destruct (JsMap.get (orders this) id); [|exact H].
    apply statuses_ok_In. intros order Hin. simpl in Hin.
    apply In_values_set in Hin. destruct Hin as [->|Hin]; [exact Hst|].
    now apply (proj1 (statuses_ok_In this) H).
Qed.

Lemma run_statuses_ok (req : Session.t) (calls : list call) (this : MemStorage) :
  forallb (permitted req) calls = true -> statuses_ok this = true ->
  statuses_ok (run calls this) = true.
Proof.
  unfold run. revert this. induction calls as [|c calls IH]; intros this; simpl.
  - tauto.
  - intros Hp H. apply andb_true_iff in Hp. destruct Hp as [Hc Hcs].
    apply IH; [assumption|]. now apply (exec_statuses_ok req).
Qed.

(** X8. Through the routes the status of every stored order stays in
    the enumeration: if it is so before a list of requests is served,
    it is so after.  The check is the route's: [updateOrderStatus]
    itself stores any string it is given. *)
Theorem served_statuses_in_enumeration (requests : list request) (this : MemStorage) :
  statuses_ok this = true ->
  statuses_ok (serve requests this) = true
  /\ (forall id order status,
        getOrderById this id = Some order ->
        existsb (String.eqb status) OrderStatus = false ->
        statuses_ok (snd (updateOrderStatus this id status)) = false).
Proof.
  intros H. split.
  - unfold serve. revert this H.
    induction requests as [|r requests IH]; intros this H; simpl; [exact H|].
    apply IH. destruct (handle_calls r this) as (calls & -> & Hp).
    now apply (run_statuses_ok (session_of r)).
  - intros id order status Hg Hbad. unfold getOrderById in Hg.
    unfold updateOrderStatus. rewrite Hg. cbn [snd].
    match goal with |- ?x = false => destruct x eqn:E end; [|reflexivity].
    rewrite statuses_ok_In in E.
    specialize (E (with_status order status)). simpl in E.
    rewrite <- Hbad. symmetry. apply E.
    apply in_map_iff. exists (id, with_status order status). split; [reflexivity|].
    apply get_In, get_set_same.
Qed.

Lemma served_statuses_in_enumeration_witness :
  let s0 := new_MemStorage (fun _ => 0) in
  let admin := Session.mk true (getUser s0 1) in
  let body := OrderBody.mk Missing (Given (JArr [])) (Given 10%float)
                           Missing Missing (Some (JStr "bogus")) in
  let st := serve [PostOrders admin 5 body;
                   PatchOrder admin (Some 1) (Some (JStr "bogus"));
                   PatchOrder admin (Some 1) (Some (JStr "delivered"))] s0 in
  statuses_ok st = true
  /\ map Order.status (getAllOrders st) = ["delivered"]
  /\ statuses_ok (snd (updateOrderStatus st 1 "bogus")) = false.
Proof.
  intros s0 admin body st.
  destruct (served_statuses_in_enumeration
              [PostOrders admin 5 body;
               PatchOrder admin (Some 1) (Some (JStr "bogus"));
               PatchOrder admin (Some 1) (Some (JStr "delivered"))] s0)
    as [Hok _]; [vm_compute; reflexivity|].
  destruct (served_statuses_in_enumeration [] st) as [_ Hbad];
    [exact Hok|].
  split; [exact Hok|]. split; [vm_compute; reflexivity|].
  assert (Hex : exists order, getOrderById st 1 = Some order)
    by (vm_compute; eexists; reflexivity).
  destruct Hex as [order Hg].
  apply (Hbad 1 order "bogus" Hg). reflexivity.
Defined.

(** ** The carts of other users *)

Lemma getCartItems_at (this st : MemStorage) (m1 m2 : JsMap.t CartItem.t)
    (k : Z) (e e' : CartItem.t) (V : Z) :
  cartItems this = m1 ++ (k, e) :: m2 ->
  cartItems st = m1 ++ (k, e') :: m2 ->
  CartItem.userId e <> V -> CartItem.userId e' <> V ->
  getCartItems st V = getCartItems this V.
Proof.
  intros E E' H H'. unfold getCartItems. rewrite E, E', !values_app. simpl.
  rewrite !filter_app. simpl.
  destruct (Z.eqb_spec (CartItem.userId e) V); [contradiction|].
  destruct (Z.eqb_spec (CartItem.userId e') V); [contradiction|]. reflexivity.
Qed.

Lemma updateCartItemQuantity_other this id userId quantity V :
  userId <> V ->
  getCartItems (snd (updateCartItemQuantity this id userId quantity)) V
  = getCartItems this V.
Proof.
  intros Hne. unfold updateCartItemQuantity.
  destruct (JsMap.get (cartItems this) id) as [c|] eqn:Hg; [|reflexivity].
  destruct (Z.eqb_spec (CartItem.userId c) userId) as [Hu|]; [|reflexivity].
  cbn [negb snd]. destruct (get_split _ _ _ Hg) as (m1 & m2 & E & Hn).
  apply (getCartItems_at this _ m1 m2 id c (with_quantity c quantity));
    [assumption | simpl; rewrite E; now apply set_at | congruence | simpl; congruence].
Qed.

Lemma removeFromCart_other this id userId V :
  userId <> V ->
  getCartItems (snd (removeFromCart this id userId)) V = getCartItems this V.
Proof.
  intros Hne. unfold removeFromCart, JsMap.delete.
  destruct (JsMap.get (cartItems this) id) as [c|] eqn:Hg; [|reflexivity].
  destruct (Z.eqb_spec (CartItem.userId c) userId) as [Hu|]; [|reflexivity].
  cbn [negb snd]. destruct (get_split _ _ _ Hg) as (m1 & m2 & E & Hn).
  unfold getCartItems. simpl. rewrite E, (remove_at m1 m2 id c Hn), !values_app.
  simpl. rewrite !filter_app. simpl.
  destruct (Z.eqb_spec (CartItem.userId c) V); [congruence | reflexivity].
Qed.

Lemma addToCart_other this c V :
  Cart_ok this -> InsertCartItem.userId c <> V ->
  getCartItems (snd (addToCart this c)) V = getCartItems this V.
Proof.
  intros Hc Hne. destruct c as [u m q]. simpl in Hne.
  destruct (lines_for this u m) as [|e rest] eqn:Hl.
  - rewrite (addToCart_fresh _ _ _ q Hc Hl). unfold getCartItems. simpl.
    rewrite values_app, filter_app. simpl.
    destruct (Z.eqb_spec u V); [contradiction | apply app_nil_r].
  - destruct (addToCart_merge _ _ _ q _ _ Hc Hl) as (_ & m1 & m2 & E & ->).
    assert (Hu : CartItem.userId e = u).
    { assert (Hin : In e (lines_for this u m)) by (rewrite Hl; now left).
      apply filter_In in Hin. destruct Hin as [_ Hp].
      apply pair_eqb_eq in Hp. unfold pair_of in Hp. congruence. }
    eapply getCartItems_at; [exact E | reflexivity | congruence | simpl; congruence].
Qed.

Lemma exec_other_cart (req : Session.t) (c : call) (this : MemStorage) (V : Z) :
  WF this -> permitted req c = true -> acts_for req V = false ->
  getCartItems (exec c this) V = getCartItems this V.
Proof.
  intros (_ & _ & _ & Hc) Hp Hv.
  assert (Hne : forall u, acts_for req u = true -> u <> V)
    by (intros u Hu ->; congruence).
  destruct c; cbn [exec]; cbn in Hp; try reflexivity.
  - unfold updateMenuItem. now destruct (JsMap.get _ _).
  - apply addToCart_other; auto.
  - apply removeFromCart_other; auto.
  - apply updateCartItemQuantity_other; auto.
  - apply clearCart_getCartItems; [apply Hc|]. intros ->.
    now apply (Hne userId).
  - unfold updateOrderStatus. now destruct (JsMap.get _ _).
Qed.

Lemma run_other_cart (req : Session.t) (calls : list call) (this : MemStorage) (V : Z) :
  WF this -> forallb (permitted req) calls = true -> acts_for req V = false ->
  getCartItems (run calls this) V = getCartItems this V.
Proof.
  unfold run. revert this. induction calls as [|c calls IH]; intros this Hwf Hp Hv;
    simpl; [reflexivity|].
  simpl in Hp. apply andb_true_iff in Hp. destruct Hp as [Hc Hcs].
  rewrite IH by (try apply exec_WF; assumption).
  now apply (exec_other_cart req).
Qed.

(** X9. The cart of a user changes only through requests of that
    user's own session: after any list of requests none of which comes
    from a session of user V, the cart of V reads as before, whoever
    sent them, admins included. *)
Theorem carts_of_others_untouched (requests : list request) (this : MemStorage)
    (V : Z) :
  wf this = true ->
  (forall r, In r requests -> acts_for (session_of r) V = false) ->
  getCartItems (serve requests this) V = getCartItems this V.
Proof.
  intros Hwf. apply wf_spec in Hwf. unfold serve. revert this Hwf.
  induction requests as [|r requests IH]; intros this Hwf Hall; simpl;
    [reflexivity|].
  destruct (handle_calls r this) as (calls & E & Hp).
  rewrite IH.
  - rewrite E. apply (run_other_cart (session_of r)); try assumption.
    apply Hall. now left.
  - rewrite E. now apply run_WF.
  - intros r' Hr'. apply Hall. now right.
Qed.

Lemma carts_of_others_untouched_witness :
  let s0 := new_MemStorage (fun _ => 0) in
  let s1 := run [CreateUser (InsertUser.mk "ann" "pw" None None None);
                 AddToCart (InsertCartItem.mk 2 3 (Some 2%float))] s0 in
  let admin := Session.mk true (getUser s1 1) in
  let requests :=
    [PostCart admin (CartBody.mk (Given 2) (Given 3) (Given 5%float));
     DeleteCart admin (Some 1);
     PutCart admin (Some 1) (Given 9%float);
     DeleteMenu admin (Some 3);
     PostOrders admin 5 (OrderBody.mk (Given 2) (Given (JArr [])) (Given 1%float)
                                      Missing Missing None)] in
  map CartItem.quantity (getCartItems s1 2) = [2%float]
  /\ getCartItems (serve requests s1) 2 = getCartItems s1 2.
Proof.
  intros s0 s1 admin requests.
  split; [vm_compute; reflexivity|].
  apply carts_of_others_untouched; [vm_compute; reflexivity|].
  intros r Hr. simpl in Hr.
  repeat (destruct Hr as [<-|Hr]; [reflexivity|]). destruct Hr.
Defined.

(** ** Who may change what *)

Lemma authenticated_none {A : Type} (req : Session.t) (this : A)
    (next : User.t -> Response.t * A) :
  ensureUser req = None ->
  authenticated req this next = (Response.mk 401 (Message "Unauthorized"), this).
Proof.
  unfold authenticated. intros ->. now destruct (Session.isAuthenticated req).
Qed.

Lemma gated_refl (req : Session.t) (this : MemStorage) : gated req this this.
Proof. unfold gated. repeat split; auto. Qed.

Lemma gated_trans (req : Session.t) (a b c : MemStorage) :
  gated req a b -> gated req b c -> gated req a c.
Proof.
  intros (U1 & C1 & H1) (U2 & C2 & H2).
  split; [congruence|]. split; [congruence|].
  intros Ha. destruct (H1 Ha) as (M1 & N1 & K1 & O1).
  destruct (H2 Ha) as (M2 & N2 & K2 & O2).
  split; [congruence|]. split; [congruence|]. split; [auto|].
  intros id order Hg. destruct (O2 id order Hg) as [Hb|Hnew]; [auto | now right].
Qed.

(** A call that touches the cart table alone. *)
Lemma gated_cart (req : Session.t) (this st : MemStorage) :
  users st = users this -> menuItems st = menuItems this -> orders st = orders this ->
  userIdCounter st = userIdCounter this ->
  menuItemIdCounter st = menuItemIdCounter this ->
  gated req this st.
Proof.
  intros Hu Hm Ho Hcu Hcm. unfold gated, getOrderById. rewrite Ho.
  repeat split; auto.
Qed.

Lemma addToCart_counters this c :
  let st := snd (addToCart this c) in
  userIdCounter st = userIdCounter this
  /\ menuItemIdCounter st = menuItemIdCounter this
  /\ orderIdCounter st = orderIdCounter this.
Proof.
  unfold addToCart, updateCartItemQuantity.
  repeat match goal with
         | |- context [match ?x with _ => _ end] => destruct x; simpl
         end; tauto.
Qed.

Lemma exec_gated (req : Session.t) (c : call) (this : MemStorage) :
  WF this -> permitted req c = true -> gated req this (exec c this).
Proof.
  intros (_ & _ & Ho & _) Hp. destruct c; cbn [exec]; cbn in Hp.
  - discriminate.
  - split; [reflexivity|]. split; [reflexivity|]. congruence.
  - unfold updateMenuItem. destruct (JsMap.get (menuItems this) id);
      [|apply gated_refl].
    split; [reflexivity|]. split; [reflexivity|]. congruence.
  - split; [reflexivity|]. split; [reflexivity|]. congruence.
  - destruct (addToCart_frame this insertCartItem) as (E1 & E2 & E3).
    destruct (addToCart_counters this insertCartItem) as (E4 & E5 & _).
    now apply gated_cart.
  - destruct (removeFromCart_frame this id userId) as (E1 & E2 & E3 & E4).
    apply gated_cart; try assumption; unfold counters in E4; congruence.
  - destruct (updateCartItemQuantity_frame this id userId quantity)
      as (E1 & E2 & E3 & E4).
    apply gated_cart; try assumption; unfold counters in E4; congruence.
  - destruct (clearCart_frame this userId) as (E1 & E2 & E3 & E4 & E5 & _).
    now apply gated_cart.
  - split; [reflexivity|]. split; [reflexivity|]. intros _.
    split; [reflexivity|]. split; [reflexivity|].
    assert (Hfresh : JsMap.get (orders this) (orderIdCounter this) = None)
      by (eapply Table_ok_fresh; [exact Ho | lia]).
    unfold getOrderById. simpl. split.
    + intros id order Hg. rewrite get_set_other; [assumption|]. congruence.
    + intros id order Hg.
      destruct (Z.eq_dec id (orderIdCounter this)) as [->|Hne].
      * rewrite get_set_same in Hg. injection Hg as <-. now right.
      * rewrite get_set_other in Hg by congruence. now left.
  - apply andb_true_iff in Hp. destruct Hp as [Ha _].
    unfold updateOrderStatus. destruct (JsMap.get (orders this) id);
      [|apply gated_refl].
    split; [reflexivity|]. split; [reflexivity|]. congruence.
Qed.

Lemma run_gated (req : Session.t) (calls : list call) (this : MemStorage) :
  WF this -> forallb (permitted req) calls = true -> gated req this (run calls this).
Proof.
  unfold run. revert this. induction calls as [|c calls IH]; intros this Hwf Hp;
    simpl; [apply gated_refl|].
  simpl in Hp. apply andb_true_iff in Hp. destruct Hp as [Hc Hcs].
  apply (gated_trans req this (exec c this)).
  - now apply exec_gated.
  - apply IH; [now apply exec_WF | assumption].
Qed.

(** X7. Who may change what, on a store that satisfies the invariant.
    No request adds or changes a user.  A request from a session that
    is no admin's leaves the menu as it was and every stored order as
    it was, and an order that is stored after it and was not before is
    the session user's own, with status pending.  Whoever sends the
    request, the cart of every user but the session's reads as before.
    A request to an admin route from a session that is no admin's is
    answered 403, and a request to any other route from a session with
    no user is answered 401, in both cases with the store as it was. *)
Theorem handlers_are_gated (r : request) (this : MemStorage) :
  wf this = true ->
  let req := session_of r in
  let st := handle r this in
  (users st = users this /\ userIdCounter st = userIdCounter this)
  /\ (admin_session req = false ->
        menuItems st = menuItems this
        /\ menuItemIdCounter st = menuItemIdCounter this
        /\ (forall id order,
              getOrderById this id = Some order -> getOrderById st id = Some order)
        /\ (forall id order,
              getOrderById st id = Some order ->
              getOrderById this id = Some order
              \/ (acts_for req (Order.userId order) = true
                  /\ Order.status order = "pending")))
  /\ (forall V, acts_for req V = false -> getCartItems st V = getCartItems this V)
  /\ (admin_route r = true -> admin_session req = false ->
      st = this /\ status_of r this = 403)
  /\ (admin_route r = false -> ensureUser req = None ->
      st = this /\ status_of r this = 401).
Proof.
  intros Hwf req st. apply wf_spec in Hwf.
  destruct (handle_calls r this) as (calls & E & Hp). fold st in E. fold req in Hp.
  destruct (run_gated req calls this Hwf Hp) as (Hu & Hc & Hrest).
  rewrite <- E in Hu, Hc, Hrest.
  split; [now split|]. split; [exact Hrest|]. split; [|split].
  - intros V HV. rewrite E. now apply (run_other_cart req).
  - unfold st, req. clear.
    destruct r; try discriminate; intros _ Ha; cbn in Ha |- *;
      unfold post_menu, put_menu, delete_menu, get_orders, patch_order,
        isAdmin_menu, isAdmin;
      rewrite Ha; split; reflexivity.
  - unfold st, req. clear.
    destruct r; try discriminate; intros _ Hu; cbn in Hu |- *;
      unfold get_cart, post_cart, delete_cart, put_cart, post_orders, get_orders_of;
      rewrite (authenticated_none _ _ _ Hu); split; reflexivity.
Qed.

Lemma handlers_are_gated_witness :
  let s0 := new_MemStorage (fun _ => 0) in
  let s1 := run [CreateUser (InsertUser.mk "ann" "pw" None None None)] s0 in
  let ann := Session.mk true (getUser s1 2) in
  let nobody := Session.mk false None in
  let body := OrderBody.mk (Given 1) (Given (JArr [])) (Given 1%float)
                           Missing Missing (Some (JStr "delivered")) in
  let st := handle (PostOrders ann 5 body) s1 in
  handle (DeleteMenu ann (Some 1)) s1 = s1
  /\ status_of (PatchOrder ann (Some 1) (Some (JStr "delivered"))) s1 = 403
  /\ handle (PostCart nobody (CartBody.mk Missing (Given 1) Missing)) s1 = s1
  /\ status_of (PostOrders nobody 5 body) s1 = 401
  /\ users st = users s1 /\ menuItems st = menuItems s1
  /\ map (fun order => (Order.userId order, Order.status order)) (getAllOrders st)
     = [(2, "pending")]
  /\ (forall order, getOrderById st 1 = Some order ->
        acts_for ann (Order.userId order) = true /\ Order.status order = "pending").
Proof.
  intros s0 s1 ann nobody body st.
  assert (Hwf : wf s1 = true) by (vm_compute; reflexivity).
  destruct (handlers_are_gated (DeleteMenu ann (Some 1)) s1 Hwf)
    as (_ & _ & _ & H1 & _).
  destruct (handlers_are_gated
              (PatchOrder ann (Some 1) (Some (JStr "delivered"))) s1 Hwf)
    as (_ & _ & _ & H2 & _).
  destruct (handlers_are_gated
              (PostCart nobody (CartBody.mk Missing (Given 1) Missing)) s1 Hwf)
    as (_ & _ & _ & _ & H3).
  destruct (handlers_are_gated (PostOrders nobody 5 body) s1 Hwf)
    as (_ & _ & _ & _ & H4).
  destruct (handlers_are_gated (PostOrders ann 5 body) s1 Hwf)
    as ((H5 & _) & H6 & _).
  destruct H6 as (H6 & _ & _ & H7); [reflexivity|].
  split; [apply H1; reflexivity|]. split; [apply H2; reflexivity|].
  split; [apply H3; reflexivity|]. split; [apply H4; reflexivity|].
  split; [exact H5|]. split; [exact H6|]. split; [vm_compute; reflexivity|].
  intros order Hg. destruct (H7 1 order Hg) as [Hold|Hnew]; [|exact Hnew].
  vm_compute in Hold. discriminate.
Defined.

(** ** What an order is made from *)

(** X10. The order that [POST /api/orders] creates is made from the
    request and the order counter alone: two stores with the same
    order counter get the same answer, whatever their carts and menus
    hold.  The handler reads neither, so it accepts items that are not
    in the cart and a total that the menu's prices do not give. *)
Theorem post_orders_reads_no_cart (req : Session.t) (now : Date) (body : OrderBody.t)
    (s1 s2 : MemStorage) :
  orderIdCounter s1 = orderIdCounter s2 ->
  fst (post_orders req now body s1) = fst (post_orders req now body s2).
Proof.
  intros E. unfold post_orders, authenticated.
  destruct (Session.isAuthenticated req); [|reflexivity].
  destruct (ensureUser req) as [user|]; [|reflexivity].
  destruct (insertOrderSchema_parse body (User.id user)) as [o|]; [|reflexivity].
  unfold createOrder. rewrite E.
  now destruct (clearCart _ _), (clearCart _ _).
Qed.

Lemma post_orders_reads_no_cart_witness :
  let s0 := new_MemStorage (fun _ => 0) in
  let admin := Session.mk true (getUser s0 1) in
  let s1 := run [AddToCart (InsertCartItem.mk 1 2 (Some 1%float));
                 DeleteMenuItem 3] s0 in
  let body := OrderBody.mk Missing
                (Given (JArr [JObj [("menuItemId", JNum 3%float);
                                    ("quantity", JNum 40%float)]]))
                (Given 0.01%float) Missing Missing None in
  fst (post_orders admin 5 body s0) = fst (post_orders admin 5 body s1)
  /\ Response.status (fst (post_orders admin 5 body s1)) = 201.
Proof.
  intros s0 admin s1 body.
  split; [apply post_orders_reads_no_cart; reflexivity | vm_compute; reflexivity].
Defined.

(** ** Browsing the menu, finding a user by name *)

Lemma find_app_last {A : Type} (p : A -> bool) (l : list A) (x : A) :
  find p (l ++ [x]) =
  match find p l with
  | Some y => Some y
  | None => if p x then Some x else None
  end.
Proof.
  induction l as [|a l IH]; simpl; [reflexivity|].
  destruct (p a); [reflexivity | assumption].
Qed.

Section TextFacts.
Variable toLowerCase : string -> string.
Variable trim : string -> string.

(** X11. [GET /api/menu] with string parameters answers 200 and leaves
    the store alone.  With no category and no search it lists every
    menu item in the order of creation.  A category other than the
    empty string and [all] selects what [getMenuItemsByCategory]
    selects, and two categories with the same lower-case form select
    the same.  A search whose trimmed form is empty is ignored; any
    other search keeps, of the items the category selects, those whose
    lower-cased name, description or category contains the lower-cased,
    trimmed search. *)
Theorem get_menu_filters (this : MemStorage) :
  get_menu toLowerCase trim QMissing QMissing this =
    (MenuResponse.mk 200 (MenuJson (getAllMenuItems this)), this)
  /\ get_menu toLowerCase trim (QString "all") QMissing this =
    (MenuResponse.mk 200 (MenuJson (getAllMenuItems this)), this)
  /\ (forall c, c <> "" -> c <> "all" ->
        get_menu toLowerCase trim (QString c) QMissing this =
          (MenuResponse.mk 200
             (MenuJson (getMenuItemsByCategory toLowerCase this c)), this))
  /\ (forall c1 c2 search,
        c1 <> "" -> c1 <> "all" -> c2 <> "" -> c2 <> "all" ->
        toLowerCase c1 = toLowerCase c2 ->
        get_menu toLowerCase trim (QString c1) search this =
        get_menu toLowerCase trim (QString c2) search this)
  /\ (forall category s,
        trim s = "" ->
        get_menu toLowerCase trim category (QString s) this =
        get_menu toLowerCase trim category QMissing this)
  /\ (forall category s,
        category <> QOther -> s <> "" -> trim s <> "" ->
        exists selected,
          get_menu toLowerCase trim category QMissing this =
            (MenuResponse.mk 200 (MenuJson selected), this)
          /\ get_menu toLowerCase trim category (QString s) this =
            (MenuResponse.mk 200
               (MenuJson (filter (matches_search toLowerCase (trim (toLowerCase s)))
                                 selected)), this)).
Proof.
  assert (Hne : forall a b : string, a <> b -> String.eqb a b = false)
    by (intros a b H; now apply String.eqb_neq).
  split; [reflexivity|]. split; [reflexivity|]. split; [|split; [|split]].
  - intros c H1 H2. unfold get_menu. now rewrite (Hne _ _ H1), (Hne _ _ H2).
  - intros c1 c2 search A1 A2 B1 B2 E. unfold get_menu.
    now rewrite (Hne _ _ A1), (Hne _ _ A2), (Hne _ _ B1), (Hne _ _ B2), E.
  - intros category s Hs. unfold get_menu. rewrite Hs. simpl.
    rewrite orb_true_r.
    destruct category as [|c|]; [reflexivity | | ].
    + now destruct (String.eqb c "" || String.eqb c "all").
    + now destruct (getAllMenuItems this).
  - intros category s Hc Hs Ht. unfold get_menu.
    rewrite (Hne _ _ Hs), (Hne _ _ Ht). simpl.
    destruct category as [|c|]; [eauto | | contradiction].
    destruct (String.eqb c "" || String.eqb c "all"); eauto.
Qed.

(** X12. [GET /api/menu] is answered 500 when the search parameter is
    no string, whatever else the request and the store hold; when the
    category is no string it is answered 500 if the menu holds an item,
    and 200 with no items if the menu is empty.  In every case the
    store is left as it was. *)
Theorem get_menu_malformed_query (category search : query) (this : MemStorage) :
  snd (get_menu toLowerCase trim category search this) = this
  /\ MenuResponse.status (fst (get_menu toLowerCase trim category QOther this)) = 500
  /\ (search <> QOther ->
      fst (get_menu toLowerCase trim QOther search this) =
      match getAllMenuItems this with
      | [] => MenuResponse.mk 200 (MenuJson [])
      | _ :: _ => MenuResponse.mk 500 (Plain (Message "Error fetching menu items"))
      end).
Proof.
  unfold get_menu. split; [|split].
  - destruct category as [|c|], search as [|s|]; simpl;
      repeat match goal with
             | |- context [if ?b then _ else _] => destruct b
             | |- context [match getAllMenuItems this with _ => _ end] =>
                 destruct (getAllMenuItems this)
             end; reflexivity.
  - destruct category as [|c|]; simpl;
      repeat match goal with
             | |- context [if ?b then _ else _] => destruct b
             | |- context [match getAllMenuItems this with _ => _ end] =>
                 destruct (getAllMenuItems this)
             end; reflexivity.
  - intros Hs. destruct (getAllMenuItems this); [|reflexivity].
    destruct search as [|s|]; [reflexivity | | contradiction].
    simpl. now destruct (String.eqb s "" || String.eqb (trim s) "").
Qed.

(** X13. [createUser] does not look at the user names in use.  After
    it, [getUserByUsername] of any name finds the user it found before,
    if it found one, and otherwise the new user when the name matches
    the new user's in lower case: a second user created under a name in
    use can be read by id and is never found by name. *)
Theorem createUser_name_in_use (this : MemStorage) (u : InsertUser.t) (name : string) :
  wf this = true ->
  let r := createUser this u in
  getUserByUsername toLowerCase (snd r) name =
    match getUserByUsername toLowerCase this name with
    | Some old => Some old
    | None =>
        if String.eqb (toLowerCase (InsertUser.username u)) (toLowerCase name)
        then Some (fst r) else None
    end
  /\ getUser (snd r) (User.id (fst r)) = Some (fst r)
  /\ User.username (fst r) = InsertUser.username u.
Proof.
  intros Hwf r. apply wf_spec in Hwf. destruct Hwf as (Hu & _).
  split; [|split; [apply get_set_same | reflexivity]].
  unfold getUserByUsername. simpl.
  rewrite (set_new_values User.id _ _ _ Hu), find_app_last. reflexivity.
Qed.

End TextFacts.

Lemma get_menu_filters_witness :
  let s0 := new_MemStorage (fun _ => 0) in
  let same (s : string) := s in
  let names r := match MenuResponse.payload (fst r) with
                 | MenuJson l => map MenuItem.name l
                 | _ => []
                 end in
  names (get_menu same same (QString "Pizza") QMissing s0)
    = ["Pepperoni Pizza"; "Margherita Pizza"]
  /\ names (get_menu same same (QString "Pizza") (QString "basil") s0)
    = ["Margherita Pizza"]
  /\ names (get_menu same same QMissing (QString "sauce") s0)
    = ["Pepperoni Pizza"; "Deluxe Burger"; "Margherita Pizza"; "Spicy Wings"].
Proof.
  intros s0 same names.
  destruct (get_menu_filters same same s0) as (_ & _ & Hcat & _ & _ & Hsearch).
  split; [rewrite Hcat by discriminate; vm_compute; reflexivity|].
  destruct (Hsearch (QString "Pizza") "basil") as (l1 & E1 & ->); try discriminate.
  destruct (Hsearch QMissing "sauce") as (l2 & E2 & ->); try discriminate.
  rewrite Hcat in E1 by discriminate. injection E1 as <-.
  injection E2 as <-.
  split; vm_compute; reflexivity.
Defined.

Lemma get_menu_malformed_query_witness :
  let s0 := new_MemStorage (fun _ => 0) in
  let same (s : string) := s in
  MenuResponse.status (fst (get_menu same same (QString "Pizza") QOther s0)) = 500
  /\ MenuResponse.status (fst (get_menu same same QOther QMissing s0)) = 500
  /\ fst (get_menu same same QOther (QString "x") empty_storage)
     = MenuResponse.mk 200 (MenuJson []).
Proof.
  intros s0 same.
  destruct (get_menu_malformed_query same same (QString "Pizza") QMissing s0)
    as (_ & H500 & Hcat).
  destruct (get_menu_malformed_query same same QOther (QString "x") empty_storage)
    as (_ & _ & Hempty).
  split; [exact H500|]. split; [now rewrite Hcat by discriminate|].
  now rewrite Hempty by discriminate.
Defined.

Lemma createUser_name_in_use_witness :
  let s0 := new_MemStorage (fun _ => 0) in
  let same (s : string) := s in
  let r := createUser s0 (InsertUser.mk "admin" "other" None None None) in
  option_map User.id (getUserByUsername same (snd r) "admin") = Some 1
  /\ option_map User.username (getUser (snd r) 2) = Some "admin".
Proof.
  intros s0 same r.
  destruct (createUser_name_in_use same s0
              (InsertUser.mk "admin" "other" None None None) "admin")
    as (Hname & Hid & _); [vm_compute; reflexivity|].
  fold r in Hname, Hid. split.
  - rewrite Hname. vm_compute. reflexivity.
  - change 2 with (User.id (fst r)). now rewrite Hid.
Defined.

(** ** Seeding the menu *)

Lemma consecutive_ids (c : Z) (n : nat) :
  map (fun j => c + Z.of_nat j) (seq 0 (S n))
  = c :: map (fun j => (c + 1) + Z.of_nat j) (seq 0 n).
Proof.
  simpl. rewrite Z.add_0_r. f_equal.
  rewrite <- seq_shift, map_map. apply map_ext. intros j. lia.
Qed.

(** X14. [seedMenuItems] creates one menu item per entry of its data,
    in the order of the data and after the items the menu holds, with
    consecutive ids from the counter on; the counter ends that many
    higher; the users, the carts and the orders are untouched, and the
    invariant of the store is kept. *)
Theorem seedMenuItems_appends (clock : nat -> Date) (data : list InsertMenuItem.t)
    (k : nat) (this : MemStorage) :
  wf this = true ->
  let st := seedMenuItems clock k data this in
  map MenuItem.id (getAllMenuItems st)
    = map MenuItem.id (getAllMenuItems this)
      ++ map (fun j => menuItemIdCounter this + Z.of_nat j) (seq 0 (List.length data))
  /\ map MenuItem.name (getAllMenuItems st)
    = map MenuItem.name (getAllMenuItems this) ++ map InsertMenuItem.name data
  /\ menuItemIdCounter st = menuItemIdCounter this + Z.of_nat (List.length data)
  /\ users st = users this /\ cartItems st = cartItems this
  /\ orders st = orders this
  /\ wf st = true.
Proof.
  revert k this. induction data as [|item data IH]; intros k this Hwf; cbv zeta.
  - simpl. rewrite !app_nil_r. repeat split; try reflexivity; [lia | assumption].
  - assert (Hwf1 : wf (snd (createMenuItem this (clock k) item)) = true)
      by (apply wf_spec, createMenuItem_WF, wf_spec, Hwf).
    destruct (IH (S k) _ Hwf1) as (Hid & Hname & Hc & Hu & Hcart & Ho & Hwf').
    cbn [seedMenuItems]. apply wf_spec in Hwf. destruct Hwf as (_ & Hm & _).
    assert (Hall : getAllMenuItems (snd (createMenuItem this (clock k) item))
                   = getAllMenuItems this ++ [fst (createMenuItem this (clock k) item)])
      by (unfold getAllMenuItems; simpl; now apply (set_new_values MenuItem.id)).
    rewrite Hall in Hid, Hname. rewrite !map_app in Hid, Hname.
    rewrite <- !app_assoc in Hid, Hname.
    split; [rewrite Hid; f_equal; cbn [List.length]; now rewrite consecutive_ids|].
    split; [rewrite Hname; reflexivity|].
    split; [rewrite Hc; cbn [List.length]; simpl; lia|].
    repeat (split; [assumption|]). exact Hwf'.
Qed.

Lemma seedMenuItems_appends_witness :
  let s0 := new_MemStorage (fun _ => 0) in
  let st := seedMenuItems (fun _ => 0) 0 (firstn 2 menuItemsData) s0 in
  map MenuItem.id (getAllMenuItems st) = [1; 2; 3; 4; 5; 6; 7; 8; 9; 10]
  /\ skipn 8 (map MenuItem.name (getAllMenuItems st))
     = ["Pepperoni Pizza"; "Deluxe Burger"]
  /\ menuItemIdCounter st = 11.
Proof.
  intros s0 st.
  destruct (seedMenuItems_appends (fun _ => 0) (firstn 2 menuItemsData) 0 s0)
    as (Hid & Hname & Hc & _); [vm_compute; reflexivity|].
  fold st in Hid, Hname, Hc.
  split; [rewrite Hid; vm_compute; reflexivity|].
  split; [rewrite Hname; vm_compute; reflexivity|].
  rewrite Hc. vm_compute. reflexivity.
Defined.

(** ** Payments that are not made *)

(** X15. [POST /api/payment] calls the provider at most once.  It does
    not call it, and answers 401, for a session with no user; it does
    not call it, and answers 400, when the amount is left out, is 0 or
    is NaN.  When the provider throws on an amount above 0 the answer
    is 500 with the handler's own message, after the one call. *)
Theorem post_payment_refusals
    (create : PaymentIntentParams.t -> Exc PaymentIntent.t)
    (req : Session.t) (amount : option number) :
  (List.length (snd (post_payment create req amount)) <= 1)%nat
  /\ (ensureUser req = None ->
      post_payment create req amount =
        (Response.mk 401 (Message "Unauthorized"), []))
  /\ (forall user,
        ensureUser req = Some user ->
        match amount with
        | None => True
        | Some a => falsy_number a = true
        end ->
        post_payment create req amount =
          (Response.mk 400 (Message "Invalid amount"), []))
  /\ (forall user a error,
        ensureUser req = Some user -> amount = Some a ->
        (0 <? a)%float = true ->
        let params :=
          PaymentIntentParams.mk (Math_round (a * 100)%float) "usd" (User.id user) in
        create params = Thrown error ->
        post_payment create req amount =
          (Response.mk 500 (Message "Error processing payment"), [params])).
Proof.
  split; [|split; [|split]].
  - unfold post_payment, authenticated.
    destruct (Session.isAuthenticated req); [|simpl; lia].
    destruct (ensureUser req); [|simpl; lia].
    destruct amount as [a|]; [|simpl; lia].
    destruct (falsy_number a || (a <=? 0)%float); [simpl; lia|].
    destruct (create _); simpl; lia.
  - intros Hu. unfold post_payment. now rewrite (authenticated_none _ _ _ Hu).
  - intros user Hu Ha. unfold post_payment. rewrite (authenticated_user _ _ _ _ Hu).
    destruct amount as [a|]; [|reflexivity]. now rewrite Ha.
  - intros user a error Hu -> Hpos params Hc. unfold post_payment.
    rewrite (authenticated_user _ _ _ _ Hu).
    destruct (positive_number a Hpos) as [-> ->]. simpl. fold params.
    now rewrite Hc.
Qed.

Lemma post_payment_refusals_witness :
  let s0 := new_MemStorage (fun _ => 0) in
  let admin := Session.mk true (getUser s0 1) in
  let failing (p : PaymentIntentParams.t) : Exc PaymentIntent.t := Thrown "card_error" in
  post_payment failing (Session.mk false None) (Some 5%float)
    = (Response.mk 401 (Message "Unauthorized"), [])
  /\ post_payment failing admin (Some 0%float)
    = (Response.mk 400 (Message "Invalid amount"), [])
  /\ post_payment failing admin (Some 0.001%float)
    = (Response.mk 500 (Message "Error processing payment"),
       [PaymentIntentParams.mk 0%float "usd" 1]).
Proof.
  intros s0 admin failing.
  pose (user := User.mk 1 "admin" "admin_password" (Some "Admin User")
                        (Some "admin@quickbite.com") (Some true)).
  destruct (post_payment_refusals failing (Session.mk false None) (Some 5%float))
    as (_ & H401 & _).
  destruct (post_payment_refusals failing admin (Some 0%float)) as (_ & _ & H400 & _).
  destruct (post_payment_refusals failing admin (Some 0.001%float))
    as (_ & _ & _ & H500).
  split; [apply H401; reflexivity|].
  split; [apply (H400 user); reflexivity|].
  etransitivity;
    [apply (H500 user 0.001%float "card_error"); reflexivity
    | vm_compute; reflexivity].
Defined.

(** ** Where an added line goes *)

(** X16. On the listing of the user's cart, [addToCart] for a pair
    the cart has no line for puts the new line, with the quantity asked
    for (1 when none, 0 or NaN is given), after the lines the cart had;
    for a pair the cart has a line for it puts the grown line in the
    place of the old one, with the lines before and after as they were.
    The grown line holds the sum, as JavaScript adds numbers, of what
    the line held and of what is asked for: the exact sum when both are
    integers and neither they nor the sum exceed 2^53 in absolute
    value. *)
Theorem addToCart_keeps_order (this : MemStorage) (userId menuItemId : Z)
    (quantity : option number) :
  wf this = true ->
  let r := addToCart this (InsertCartItem.mk userId menuItemId quantity) in
  (lines_for this userId menuItemId = [] ->
     let line := CartItem.mk (cartItemIdCounter this) userId menuItemId
                             (quantity_or_1 quantity) JNull None in
     fst r = Some line
     /\ getCartItems (snd r) userId = getCartItems this userId ++ [line])
  /\ (forall existing,
        lines_for this userId menuItemId = [existing] ->
        let line := with_quantity existing
                      (CartItem.quantity existing + quantity_or_1 quantity)%float in
        fst r = Some line
        /\ (forall c a : Z,
              float_to_Z (CartItem.quantity existing) = Some c ->
              float_to_Z (quantity_or_1 quantity) = Some a ->
              Z.abs c <= 2 ^ 53 -> Z.abs a <= 2 ^ 53 -> Z.abs (c + a) <= 2 ^ 53 ->
              float_to_Z (CartItem.quantity line) = Some (c + a))
        /\ exists before after,
             getCartItems this userId = before ++ existing :: after
             /\ getCartItems (snd r) userId = before ++ line :: after).
Proof.
  intros Hwf r. apply wf_spec in Hwf. destruct Hwf as (_ & _ & _ & Hc).
  split.
  - intros Hnil line. unfold r. rewrite (addToCart_fresh _ _ _ quantity Hc Hnil).
    split; [reflexivity|]. unfold getCartItems. simpl.
    rewrite values_app, filter_app. simpl. now rewrite Z.eqb_refl.
  - intros existing Hl line.
    destruct (addToCart_merge _ _ _ quantity _ _ Hc Hl) as (_ & m1 & m2 & E & Er).
    fold r in Er. rewrite Er. split; [reflexivity|].
    split; [intros c a Hc' Ha; now apply add_exact|].
    assert (Hu : CartItem.userId existing = userId).
    { assert (Hin : In existing (lines_for this userId menuItemId))
        by (rewrite Hl; now left).
      apply filter_In in Hin. destruct Hin as [_ Hp].
      apply pair_eqb_eq in Hp. unfold pair_of in Hp. congruence. }
    exists (filter (fun item => CartItem.userId item =? userId) (JsMap.values m1)),
           (filter (fun item => CartItem.userId item =? userId) (JsMap.values m2)).
    unfold getCartItems. simpl. rewrite E, !values_app. simpl.
    rewrite !filter_app. simpl. now rewrite Hu, Z.eqb_refl.
Qed.

Lemma addToCart_keeps_order_witness :
  let s0 := new_MemStorage (fun _ => 0) in
  let s1 := run [AddToCart (InsertCartItem.mk 1 2 (Some 2%float));
                 AddToCart (InsertCartItem.mk 1 3 (Some 1%float))] s0 in
  map CartItem.menuItemId (getCartItems (snd (addToCart s1 (InsertCartItem.mk 1 5 None))) 1)
    = [2; 3; 5]
  /\ map CartItem.quantity (getCartItems (snd (addToCart s1 (InsertCartItem.mk 1 5 None))) 1)
    = [2%float; 1%float; 1%float]
  /\ map CartItem.quantity
       (getCartItems (snd (addToCart s1 (InsertCartItem.mk 1 2 (Some 4%float)))) 1)
    = [6%float; 1%float]
  /\ option_map (fun line => float_to_Z (CartItem.quantity line))
       (fst (addToCart s1 (InsertCartItem.mk 1 2 (Some 4%float))))
    = Some (Some (2 + 4)).
Proof.
  intros s0 s1.
  destruct (addToCart_keeps_order s1 1 5 None) as [Hnew _]; [vm_compute; reflexivity|].
  destruct Hnew as [_ Hnew]; [vm_compute; reflexivity|].
  rewrite Hnew. split; [vm_compute; reflexivity|].
  split; [vm_compute; reflexivity|]. split; [vm_compute; reflexivity|].
  destruct (addToCart_keeps_order s1 1 2 (Some 4%float)) as [_ Hold];
    [vm_compute; reflexivity|].
  destruct (Hold (CartItem.mk 1 1 2 2%float JNull None)) as (Hf & Hsum & _);
    [vm_compute; reflexivity|].
  rewrite Hf. cbn [option_map]. apply f_equal.
  apply Hsum; vm_compute; try reflexivity; discriminate.
Defined.

(** ** The lines of a listed order *)

Lemma Promise_all_map {A B : Type} (f : A -> Exc B) (g : A -> B) (l : list A) :
  (forall a, In a l -> f a = Returned (g a)) ->
  Promise_all f l = Returned (map g l).
Proof.
  induction l as [|a l IH]; intros H; simpl; [reflexivity|].
  rewrite (H a) by now left. rewrite IH; [reflexivity|].
  intros x Hx. apply H. now right.
Qed.

Lemma itemsWithDetails_lines this items :
  items_ok items = true ->
  itemsWithDetails this items = Returned (lines_of this items).
Proof.
  destruct items as [| | | |l|]; try discriminate. simpl. intros H.
  apply Promise_all_map. intros item Hin.
  rewrite forallb_forall in H. specialize (H item Hin).
  unfold orderLine, get_prop, prop_of. destruct item; try discriminate; reflexivity.
Qed.

(** X17. For a user each of whose orders stores an array without null
    entries as its items, [getOrdersByUserId] returns those orders in
    the order of creation, each with one line per stored entry.  A line
    carries the quantity as stored and the menu item that the menu
    holds now under the entry's menuItemId, not the one it held when
    the order was made: after [updateMenuItem] the line shows the
    edited item, and when the menu holds no item under the id, or the
    id is no number, the line has no menu item and the call still
    returns. *)
Theorem getOrdersByUserId_lines (this : MemStorage) (userId : Z) :
  let own := filter (fun o => Order.userId o =? userId) (JsMap.values (orders this)) in
  forallb (fun o => items_ok (Order.items o)) own = true ->
  getOrdersByUserId this userId
  = Returned (map (fun o => OrderWithItems.mk o (lines_of this (Order.items o))) own).
Proof.
  intros own H. unfold getOrdersByUserId. fold own.
  apply Promise_all_map. intros o Hin.
  rewrite forallb_forall in H.
  now rewrite (itemsWithDetails_lines this _ (H o Hin)).
Qed.

Lemma getOrdersByUserId_lines_witness :
  let s0 := new_MemStorage (fun _ => 0) in
  let items := JArr [JObj [("menuItemId", JNum 2%float); ("quantity", JNum 3%float)];
                     JObj [("menuItemId", JStr "2")];
                     JNum 7%float] in
  let s1 := run [CreateOrder 5 (InsertOrder.mk 1 items 35.96%float None None)] s0 in
  let edit := InsertMenuItem.mk "Veggie Burger" "No beef" 9.5%float None "Burgers" None in
  let names st :=
    match getOrdersByUserId st 1 with
    | Returned l =>
        map (fun o => map (fun line => option_map MenuItem.name (OrderLine.menuItem line))
                          (OrderWithItems.items o)) l
    | Thrown _ => []
    end in
  names s1 = [[Some "Deluxe Burger"; None; None]]
  /\ names (snd (updateMenuItem s1 2 edit)) = [[Some "Veggie Burger"; None; None]]
  /\ names (snd (deleteMenuItem s1 2)) = [[None; None; None]].
Proof.
  intros s0 items s1 edit names. unfold names.
  rewrite (getOrdersByUserId_lines s1 1) by (vm_compute; reflexivity).
  rewrite (getOrdersByUserId_lines (snd (updateMenuItem s1 2 edit)) 1)
    by (vm_compute; reflexivity).
  rewrite (getOrdersByUserId_lines (snd (deleteMenuItem s1 2)) 1)
    by (vm_compute; reflexivity).
  repeat split; vm_compute; reflexivity.
Defined.

(** ** The demo data of the menu items *)

(** X18. [updateMenuItemsWithEnhancedFeatures] adds no menu item and
    removes none: the ids of the menu and their order, and the counter,
    are as before, and so are the users, the carts and the orders.
    Every item keeps its name, description, price, image, category and
    every other field but the dietary preferences and the nutritional
    data; an item whose id is none of 1 to 8 is not changed at all. *)
Theorem enhanced_features_keep_menu (this : MemStorage) :
  wf this = true ->
  let st := updateMenuItemsWithEnhancedFeatures this in
  JsMap.keys (menuItems st) = JsMap.keys (menuItems this)
  /\ (forall id item,
        getMenuItemById this id = Some item ->
        exists item',
          getMenuItemById st id = Some item'
          /\ plain_fields item' = plain_fields item
          /\ (existsb (fun u => Update.id u =? id) updates = false -> item' = item))
  /\ counters st = counters this
  /\ users st = users this /\ cartItems st = cartItems this
  /\ orders st = orders this.
Proof.
  intros Hwf. apply wf_spec in Hwf. destruct Hwf as (_ & Hm & _).
  unfold updateMenuItemsWithEnhancedFeatures.
  set (snapshot := JsMap.values (menuItems this)).
  assert (Hsnap : forall x, In x snapshot ->
                            JsMap.get (menuItems this) (MenuItem.id x) = Some x)
    by (intros x Hx; eapply Table_ok_value; eauto).
  generalize updates as us. intros us.
  assert (Hinv :
    forall st0,
      (JsMap.keys (menuItems st0) = JsMap.keys (menuItems this)
       /\ (forall id item,
             JsMap.get (menuItems this) id = Some item ->
             exists item',
               JsMap.get (menuItems st0) id = Some item'
               /\ plain_fields item' = plain_fields item)
       /\ counters st0 = counters this
       /\ users st0 = users this /\ cartItems st0 = cartItems this
       /\ orders st0 = orders this) ->
      forall done,
        (forall id item,
           JsMap.get (menuItems this) id = Some item ->
           existsb (fun u => Update.id u =? id) done = false ->
           JsMap.get (menuItems st0) id = Some item) ->
        let st :=
          fold_left
            (fun (st : MemStorage) (update : Update.t) =>
               match find (fun m => MenuItem.id m =? Update.id update) snapshot with
               | Some item =>
                   let updatedItem :=
                     MenuItem.mk (MenuItem.id item) (MenuItem.name item)
                       (MenuItem.description item) (MenuItem.price item)
                       (MenuItem.imageUrl item) (MenuItem.category item)
                       (MenuItem.rating item) (MenuItem.reviewCount item)
                       (MenuItem.isPopular item) (MenuItem.isSeasonal item)
                       (MenuItem.isCombo item)
                       (json_or_null (Update.dietaryPreferences update))
                       (json_or_null (Update.nutritionalInfo update))
                       (MenuItem.availableAddons item) (MenuItem.comboItems item)
                       (MenuItem.discountPercentage item) (MenuItem.createdAt item) in
                   with_menuItems st
                     (JsMap.set (menuItems st) (MenuItem.id item) updatedItem)
                     (menuItemIdCounter st)
               | None => st
               end)
            us st0 in
        JsMap.keys (menuItems st) = JsMap.keys (menuItems this)
        /\ (forall id item,
              JsMap.get (menuItems this) id = Some item ->
              exists item',
                JsMap.get (menuItems st) id = Some item'
                /\ plain_fields item' = plain_fields item
                /\ (existsb (fun u => Update.id u =? id) (done ++ us) = false ->
                    item' = item))
        /\ counters st = counters this
        /\ users st = users this /\ cartItems st = cartItems this
        /\ orders st = orders this).
  { induction us as [|u us IH]; intros st0 (Hk & Hf & Hrest) done Hdone; cbv zeta.
    - simpl. rewrite app_nil_r. split; [assumption|]. split; [|assumption].
      intros id item Hg. destruct (Hf id item Hg) as (item' & Hg' & Hp).
      exists item'. split; [assumption|]. split; [assumption|].
      intros Hno. specialize (Hdone id item Hg Hno). congruence.
    - cbn [fold_left].
      replace (done ++ u :: us) with ((done ++ [u]) ++ us)
        by (now rewrite <- app_assoc).
      destruct (find (fun m => MenuItem.id m =? Update.id u) snapshot) as [x|] eqn:Hx.
      + apply find_some in Hx. destruct Hx as [Hin Hid]. apply Z.eqb_eq in Hid.
        pose proof (Hsnap x Hin) as Hgx.
        destruct (Hf _ _ Hgx) as (x0 & Hg0 & _).
        apply IH.
        * split; [simpl; rewrite <- Hk; eapply keys_set_present; eassumption|].
          split; [|exact Hrest].
          intros id item Hg. simpl.
          destruct (Z.eq_dec (MenuItem.id x) id) as [E|E].
          -- subst id. rewrite get_set_same. eexists. split; [reflexivity|].
             assert (item = x) by congruence. subst item. reflexivity.
          -- rewrite get_set_other by assumption. now apply Hf.
        * intros id item Hg Hno. simpl.
          rewrite existsb_app in Hno. apply orb_false_iff in Hno.
          destruct Hno as [Hno Hu]. simpl in Hu. rewrite orb_false_r in Hu.
          apply Z.eqb_neq in Hu.
          rewrite get_set_other by congruence. now apply Hdone.
      + apply IH; [now split|].
        intros id item Hg Hno. rewrite existsb_app in Hno.
        apply orb_false_iff in Hno. destruct Hno as [Hno _]. now apply Hdone. }
  apply (Hinv this) with (done := []).
  - split; [reflexivity|]. split; [|repeat split].
    intros id item Hg. exists item. now split.
  - intros id item Hg _. exact Hg.
Qed.

Lemma enhanced_features_keep_menu_witness :
  let s0 := new_MemStorage (fun _ => 0) in
  let st := updateMenuItemsWithEnhancedFeatures s0 in
  JsMap.keys (menuItems st) = [1; 2; 3; 4; 5; 6; 7; 8]
  /\ map MenuItem.name (getAllMenuItems st) = map MenuItem.name (getAllMenuItems s0)
  /\ map MenuItem.dietaryPreferences (getAllMenuItems st)
     = [JArr [JStr "vegetarian"]; JNull; JArr [JStr "gluten-free"]; JNull;
        JArr [JStr "vegetarian"]; JArr [JStr "gluten-free"]; JNull;
        JArr [JStr "vegetarian"]].
Proof.
  intros s0 st.
  destruct (enhanced_features_keep_menu s0) as (Hk & _); [vm_compute; reflexivity|].
  split; [etransitivity; [exact Hk | vm_compute; reflexivity]|].
  split; vm_compute; reflexivity.
Defined.

(** ** The menu routes of an admin *)

Lemma with_menuItems_same (this : MemStorage) :
  with_menuItems this (menuItems this) (menuItemIdCounter this) = this.
Proof. now destruct this. Qed.

(** X19. For an admin, a body that the insert schema refuses is
    answered 400 by [POST /api/menu] and by [PUT /api/menu/:id],
    whatever the id, with the store as it was.  With a body the schema
    accepts, [POST] answers 201 with the item [createMenuItem] made,
    and [PUT] of an id that holds no item answers 404 with the store as
    it was.  [DELETE /api/menu/:id] answers 404 and changes nothing for
    an id that holds no item; for one that holds an item it answers
    204, the id holds none afterwards, and a second [DELETE] answers
    404. *)
Theorem menu_routes_of_admin (req : Session.t) (now : Date) (body : MenuBody.t)
    (id : Z) (this : MemStorage) :
  wf this = true ->
  admin_session req = true ->
  (insertMenuItemSchema_parse body = None ->
     post_menu req now body this = (MenuResponse.mk 400 (Plain InvalidData), this)
     /\ forall id',
          put_menu req id' body this = (MenuResponse.mk 400 (Plain InvalidData), this))
  /\ (forall i,
        insertMenuItemSchema_parse body = Some i ->
        post_menu req now body this =
          (MenuResponse.mk 201 (MenuItemJson (fst (createMenuItem this now i))),
           snd (createMenuItem this now i))
        /\ put_menu req None body this =
           (MenuResponse.mk 404 (Plain (Message "Menu item not found")), this)
        /\ (getMenuItemById this id = None ->
            put_menu req (Some id) body this =
              (MenuResponse.mk 404 (Plain (Message "Menu item not found")), this)))
  /\ (getMenuItemById this id = None ->
      delete_menu req (Some id) this =
        (MenuResponse.mk 404 (Plain (Message "Menu item not found")), this))
  /\ (forall item,
        getMenuItemById this id = Some item ->
        let st := snd (delete_menu req (Some id) this) in
        fst (delete_menu req (Some id) this) = MenuResponse.mk 204 (Plain NoContent)
        /\ getMenuItemById st id = None
        /\ delete_menu req (Some id) st =
           (MenuResponse.mk 404 (Plain (Message "Menu item not found")), st)).
Proof.
  intros Hwf Ha. apply wf_spec in Hwf. destruct Hwf as (_ & (_ & _ & Hnd) & _).
  unfold post_menu, put_menu, delete_menu, getMenuItemById.
  rewrite !(isAdmin_menu_pass _ _ _ Ha).
  assert (Hmiss : JsMap.get (menuItems this) id = None ->
                  deleteMenuItem this id = (false, this)).
  { intros Hg. unfold deleteMenuItem, JsMap.delete.
    now rewrite has_get, Hg, remove_absent, with_menuItems_same. }
  split; [|split; [|split]].
  - intros ->. split; [reflexivity|]. intros id'.
    now rewrite (isAdmin_menu_pass _ _ _ Ha).
  - intros i ->. split; [now destruct (createMenuItem this now i)|].
    split; [reflexivity|]. intros Hg. unfold updateMenuItem. now rewrite Hg.
  - intros Hg. now rewrite (Hmiss Hg).
  - intros item Hg.
    assert (E : deleteMenuItem this id =
                (true, with_menuItems this (JsMap.remove (menuItems this) id)
                                      (menuItemIdCounter this)))
      by (unfold deleteMenuItem, JsMap.delete; now rewrite has_get, Hg).
    rewrite E. cbn [negb fst snd]. split; [reflexivity|].
    assert (Hgone : JsMap.get (JsMap.remove (menuItems this) id) id = None)
      by now apply get_remove_same.
    split; [exact Hgone|].
    try rewrite (isAdmin_menu_pass _ _ _ Ha).
    unfold deleteMenuItem, JsMap.delete. cbn [menuItems with_menuItems].
    rewrite has_get, Hgone. cbn [negb].
    rewrite (remove_absent _ _ Hgone). reflexivity.
Qed.

Lemma menu_routes_of_admin_witness :
  let s0 := new_MemStorage (fun _ => 0) in
  let admin := Session.mk true (getUser s0 1) in
  let bad := MenuBody.mk (Given "Soup") Missing (Given 4.5%float) Missing
                         (Given "Soups") Missing in
  let good := MenuBody.mk (Given "Soup") (Given "Hot") (Given 4.5%float) Missing
                          (Given "Soups") Missing in
  MenuResponse.status (fst (put_menu admin (Some 99) bad s0)) = 400
  /\ MenuResponse.status (fst (put_menu admin (Some 99) good s0)) = 404
  /\ MenuResponse.status (fst (post_menu admin 5 good s0)) = 201
  /\ MenuResponse.status (fst (delete_menu admin (Some 3) s0)) = 204
  /\ MenuResponse.status
       (fst (delete_menu admin (Some 3) (snd (delete_menu admin (Some 3) s0)))) = 404.
Proof.
  intros s0 admin bad good.
  destruct (menu_routes_of_admin admin 5 bad 99 s0) as (Hbad & _);
    try (vm_compute; reflexivity).
  destruct (menu_routes_of_admin admin 5 good 99 s0) as (_ & Hgood & _);
    try (vm_compute; reflexivity).
  destruct (menu_routes_of_admin admin 5 good 3 s0) as (_ & _ & _ & Hdel);
    try (vm_compute; reflexivity).
  destruct Hbad as [_ Hput]; [reflexivity|].
  destruct (Hgood (InsertMenuItem.mk "Soup" "Hot" 4.5%float None "Soups" None) eq_refl)
    as (Hpost & _ & H404).
  assert (Hex : exists item, getMenuItemById s0 3 = Some item)
    by (vm_compute; eexists; reflexivity).
  destruct Hex as [item Hitem].
  destruct (Hdel item Hitem) as (H204 & _ & Hagain).
  split; [now rewrite Hput|].
  split; [rewrite H404; [reflexivity | vm_compute; reflexivity]|].
  split; [now rewrite Hpost|]. split; [now rewrite H204 | now rewrite Hagain].
Defined.

(** ** An order, once placed, is listed *)

(** X20. When [POST /api/orders] has answered 201, the order it
    returned has the value of the order counter as id, and
    [GET /api/orders] lists for an admin the orders stored before
    followed by that order.  [getOrdersByUserId] of the order's user
    then ends with it too, provided the user's orders, the new one
    included, each store an array without null entries as items. *)
Theorem posted_order_is_listed (req admin : Session.t) (now : Date)
    (body : OrderBody.t) (this this' : MemStorage) (order : Order.t) :
  wf this = true ->
  admin_session admin = true ->
  post_orders req now body this = (Response.mk 201 (OrderJson order), this') ->
  Order.id order = orderIdCounter this
  /\ get_orders admin this' =
     (Response.mk 200 (AllOrdersJson (getAllOrders this ++ [order])), this')
  /\ (let own := filter (fun o => Order.userId o =? Order.userId order)
                        (getAllOrders this) in
      forallb (fun o => items_ok (Order.items o)) (own ++ [order]) = true ->
      exists l,
        getOrdersByUserId this' (Order.userId order) = Returned l
        /\ map OrderWithItems.order l = own ++ [order]).
Proof.
  intros Hwf Ha Hpost.
  assert (Hauth : exists user o,
            ensureUser req = Some user
            /\ insertOrderSchema_parse body (User.id user) = Some o).
  { unfold post_orders, authenticated in Hpost.
    destruct (Session.isAuthenticated req); [|discriminate].
    destruct (ensureUser req) as [user|]; [|discriminate].
    destruct (insertOrderSchema_parse body (User.id user)) as [o|] eqn:Ho;
      [|discriminate].
    now exists user, o. }
  destruct Hauth as (user & o & Hu & Ho).
  rewrite (post_orders_ok _ _ _ _ _ _ Hu Ho) in Hpost.
  assert (E1 : order = fst (createOrder this now o)) by congruence.
  assert (E2 : this' = snd (clearCart (snd (createOrder this now o)) (User.id user)))
    by congruence.
  apply wf_spec in Hwf. destruct Hwf as (_ & _ & Hord & _).
  assert (Hall : getAllOrders this' = getAllOrders this ++ [order]).
  { unfold getAllOrders. rewrite E2.
    destruct (clearCart_frame (snd (createOrder this now o)) (User.id user))
      as (_ & _ & -> & _).
    rewrite E1. simpl. now apply (set_new_values Order.id). }
  split; [now rewrite E1|]. split.
  - unfold get_orders. now rewrite (isAdmin_pass _ _ _ Ha), Hall.
  - intros own Hok.
    destruct (getOrdersByUserId_spec this' (Order.userId order)) as [Hret _].
    assert (Hown : filter (fun o0 => Order.userId o0 =? Order.userId order)
                          (JsMap.values (orders this')) = own ++ [order]).
    { change (JsMap.values (orders this')) with (getAllOrders this').
      rewrite Hall, filter_app. simpl. now rewrite Z.eqb_refl. }
    rewrite Hown in Hret. exact (Hret Hok).
Qed.

Lemma posted_order_is_listed_witness :
  let s0 := new_MemStorage (fun _ => 0) in
  let admin := Session.mk true (getUser s0 1) in
  let body n := OrderBody.mk Missing
                  (Given (JArr [JObj [("menuItemId", JNum n); ("quantity", JNum 1%float)]]))
                  (Given 15.98%float) Missing Missing None in
  let s1 := snd (post_orders admin 5 (body 1%float) s0) in
  let s2 := snd (post_orders admin 6 (body 2%float) s1) in
  map Order.id (getAllOrders s2) = [1; 2]
  /\ exists l, getOrdersByUserId s2 1 = Returned l
               /\ map (fun x => Order.id (OrderWithItems.order x)) l = [1; 2].
Proof.
  intros s0 admin body s1 s2.
  pose (order := Order.mk 2 1 (JArr [JObj [("menuItemId", JNum 2%float);
                                             ("quantity", JNum 1%float)]])
                          "pending" 15.98%float (Some 6) None None).
  destruct (posted_order_is_listed admin admin 6 (body 2%float) s1 s2 order)
    as (_ & _ & Hlist); try (vm_compute; reflexivity).
  split; [vm_compute; reflexivity|].
  destruct Hlist as (l & Hl & Hm); [vm_compute; reflexivity|].
  exists l. split; [exact Hl|].
  rewrite <- map_map, Hm. vm_compute. reflexivity.
Defined.

(** ** The progress shown for an order *)

Lemma serve_statuses_ok (requests : list request) (this : MemStorage) :
  statuses_ok this = true -> statuses_ok (serve requests this) = true.
Proof.
  unfold serve. revert this.
  induction requests as [|r requests IH]; intros this H; simpl; [exact H|].
  apply IH. destruct (handle_calls r this) as (calls & -> & Hp).
  now apply (run_statuses_ok (session_of r)).
Qed.

Lemma progress_of_enumeration (status : string) :
  existsb (String.eqb status) OrderStatus = true ->
  let p := getOrderProgress status in
  OrderProgress.estimatedTime p <> "Unknown"
  /\ 0 <= OrderProgress.currentStep p <= 4
  /\ List.length (filter (fun step =>
                            String.eqb (stepCircleClass step status)
                                       "bg-green-500 text-white")
                         trackingSteps)
     = Z.to_nat (OrderProgress.currentStep p).
Proof.
  intros H. apply existsb_exists in H. destruct H as (s & Hin & E).
  apply String.eqb_eq in E. subst s. unfold OrderStatus in Hin. simpl in Hin.
  destruct Hin as [<-|[<-|[<-|[<-|[<-|[]]]]]];
    (split; [discriminate|]; split; [vm_compute; split; discriminate|];
     vm_compute; reflexivity).
Qed.

(** X21. The circle of a tracking step is green when the id of the
    step is at most the current step of the order's status, and muted
    otherwise, for every step and every status string: the pulsing
    style of the current step is never chosen, because the test for a
    completed step comes first and holds for the current step. *)
Theorem current_step_never_pulses (step : Step.t) (status : string) :
  stepCircleClass step status <> "bg-primary text-primary-foreground animate-pulse"
  /\ stepCircleClass step status =
     (if Step.id step <=? OrderProgress.currentStep (getOrderProgress status)
      then "bg-green-500 text-white" else "bg-muted text-muted-foreground").
Proof.
  unfold stepCircleClass.
  destruct (Z.leb_spec (Step.id step)
                       (OrderProgress.currentStep (getOrderProgress status)))
    as [Hle|Hgt].
  - split; [discriminate | reflexivity].
  - destruct (Z.eqb_spec (Step.id step)
                         (OrderProgress.currentStep (getOrderProgress status)));
      [lia|]. split; [discriminate | reflexivity].
Qed.

(** X22. Every order that the store holds after the routes have served
    a list of requests, from a store whose orders have a status of the
    enumeration, is shown with a progress of its own: the estimated
    time is not [Unknown], the current step is between 0 and 4, and
    the number of green circles among the four tracking steps is the
    current step. *)
Theorem served_orders_have_progress (requests : list request) (this : MemStorage)
    (order : Order.t) :
  statuses_ok this = true ->
  In order (getAllOrders (serve requests this)) ->
  let p := getOrderProgress (Order.status order) in
  OrderProgress.estimatedTime p <> "Unknown"
  /\ 0 <= OrderProgress.currentStep p <= 4
  /\ List.length (filter (fun step =>
                            String.eqb (stepCircleClass step (Order.status order))
                                       "bg-green-500 text-white")
                         trackingSteps)
     = Z.to_nat (OrderProgress.currentStep p).
Proof.
  intros H Hin. apply progress_of_enumeration.
  pose proof (serve_statuses_ok requests this H) as Hok.
  rewrite statuses_ok_In in Hok. now apply Hok.
Qed.

Lemma served_orders_have_progress_witness :
  let s0 := new_MemStorage (fun _ => 0) in
  let admin := Session.mk true (getUser s0 1) in
  let body := OrderBody.mk Missing (Given (JArr [])) (Given 10%float)
                           Missing Missing None in
  let requests := [PostOrders admin 5 body;
                   PatchOrder admin (Some 1) (Some (JStr "delivering"))] in
  let order := Order.mk 1 1 (JArr []) "delivering" 10%float (Some 5) None None in
  getAllOrders (serve requests s0) = [order]
  /\ OrderProgress.estimatedTime (getOrderProgress (Order.status order)) <> "Unknown"
  /\ List.length (filter (fun step =>
                            String.eqb (stepCircleClass step (Order.status order))
                                       "bg-green-500 text-white")
                         trackingSteps) = 3%nat.
Proof.
  intros s0 admin body requests order.
  assert (Hall : getAllOrders (serve requests s0) = [order])
    by (vm_compute; reflexivity).
  destruct (served_orders_have_progress requests s0 order) as (Ht & _ & Hn);
    [vm_compute; reflexivity | rewrite Hall; now left |].
  split; [exact Hall|]. split; [exact Ht|]. rewrite Hn. reflexivity.
Defined.
